(** * Verification of the sensor data generator (generate_data.py)

    A shallow embedding of [SensorDataGenerator] and [main] together with
    the parts of the Python run time they rely on: binary64 floating point
    ([float], [round]), the [random] module, [datetime]/[timedelta], and the
    few pandas operations used ([DataFrame] from a list of dicts, [to_csv],
    the read-only queries of [print_statistics]).

    Conventions of the model:
    - a Python [int] is a [Z], a [float] is a binary64 number with its
      infinities and NaN; mixed arithmetic converts as Python does;
    - the global state (the generator object, the random generator, the
      frames, the files, the console) is threaded through a state monad, and
      an exception ends the run with the state reached so far;
    - the Mersenne Twister and the digits of [repr] of a float are
      parameters: every theorem holds for all of them;
    - memory is unbounded. *)

From Stdlib Require Import ZArith NArith QArith Qround Qpower Qabs Lia Lqa.
From Stdlib Require Import String Ascii DecimalString DecimalN.
From Stdlib Require Import Sorted.
From stdpp Require Import gmap strings list fin_maps.

(** ** Binary64 floating point

    Python floats are IEEE 754 binary64 numbers.  A finite float is modelled
    by the rational it denotes; every arithmetic operation computes the exact
    rational result and rounds it to the nearest representable number, ties
    to even, as the hardware does.  Signed zeros are identified (the program
    never divides by a zero it computed nor prints one). *)
Module Float.

Local Open Scope Q_scope.

Definition prec : Z := 53.
Definition emin : Z := -1074.
Definition emax : Z := 1024.

Definition pow2 (e : Z) : Q := 2 ^ e.

(** [ilog2 x] is the integer [e] with [2^e <= x < 2^(e+1)], for [0 < x]. *)
Definition ilog2 (x : Q) : Z :=
  let e0 := (Z.log2 (Qnum x) - Z.log2 (Zpos (Qden x)))%Z in
  if Qle_bool (pow2 e0) x then e0 else (e0 - 1)%Z.

(** Round to the nearest integer, ties to the even one. *)
Definition rhe (q : Q) : Z :=
  let f := Qfloor q in
  match Qcompare (q - inject_Z f) (1 # 2) with
  | Lt => f
  | Gt => (f + 1)%Z
  | Eq => if Z.even f then f else (f + 1)%Z
  end.

(** Exponent of the unit in the last place of the binade of [x]; the
    subnormal range shares the exponent [emin]. *)
Definition cexp (x : Q) : Z := Z.max (ilog2 x - (prec - 1)) emin.

Definition round_pos (x : Q) : Q :=
  let c := cexp x in inject_Z (rhe (x * pow2 (- c))) * pow2 c.

(** Nearest representable number, exponent unbounded above. *)
Definition rnd (x : Q) : Q :=
  match Qcompare x 0 with
  | Eq => 0
  | Gt => Qred (round_pos x)
  | Lt => Qred (- round_pos (- x))
  end.

Inductive float : Type :=
| Finite (q : Q)
| Inf (neg : bool)
| NaN.

(** Rounding of an exact result, overflowing to an infinity. *)
Definition of_Q (x : Q) : float :=
  let r := rnd x in
  if Qle_bool (pow2 emax) (Qabs r) then Inf (negb (Qle_bool 0 r)) else Finite r.

Definition fneg (x : float) : float :=
  match x with
  | Finite q => Finite (Qred (- q))
  | Inf s => Inf (negb s)
  | NaN => NaN
  end.

Definition fadd (x y : float) : float :=
  match x, y with
  | NaN, _ | _, NaN => NaN
  | Inf s, Inf t => if Bool.eqb s t then Inf s else NaN
  | Inf s, Finite _ | Finite _, Inf s => Inf s
  | Finite a, Finite b => of_Q (a + b)
  end.

Definition fsub (x y : float) : float := fadd x (fneg y).

Definition is_zero (q : Q) : bool := Qeq_bool q 0.
Definition is_neg (q : Q) : bool := negb (Qle_bool 0 q).

Definition fmul (x y : float) : float :=
  match x, y with
  | NaN, _ | _, NaN => NaN
  | Inf s, Inf t => Inf (xorb s t)
  | Inf s, Finite q | Finite q, Inf s =>
      if is_zero q then NaN else Inf (xorb s (is_neg q))
  | Finite a, Finite b => of_Q (a * b)
  end.

(** IEEE division (numpy's [/]): no exception, a zero divisor gives an
    infinity or NaN. *)
Definition fdiv (x y : float) : float :=
  match x, y with
  | NaN, _ | _, NaN => NaN
  | Inf _, Inf _ => NaN
  | Inf s, Finite q => Inf (xorb s (is_neg q))
  | Finite _, Inf _ => Finite 0
  | Finite a, Finite b =>
      if is_zero b then (if is_zero a then NaN else Inf (is_neg a))
      else of_Q (a / b)
  end.

Definition flt (x y : float) : bool :=
  match x, y with
  | NaN, _ | _, NaN => false
  | Finite a, Finite b => negb (Qle_bool b a)
  | Finite _, Inf s => negb s
  | Inf s, Finite _ => s
  | Inf s, Inf t => s && negb t
  end.

Definition feq (x y : float) : bool :=
  match x, y with
  | Finite a, Finite b => Qeq_bool a b
  | Inf s, Inf t => Bool.eqb s t
  | _, _ => false
  end.

Definition fle (x y : float) : bool := flt x y || feq x y.

End Float.

(** ** Python values *)

(** The exceptions the program can meet.  [InvalidReference] is not a
    Python exception: it stands for the use of a frame that was never
    allocated, which no run of [main] does. *)
Inductive exn : Type :=
| KeyError (key : string)
| OverflowError (msg : string)
| ZeroDivisionError
| InvalidReference.

(** A Python number: an [int] of arbitrary size or a [float]. *)
Inductive num : Type :=
| Int (z : Z)
| Float (f : Float.float).

(** What a cell of a row dict or of a DataFrame holds. *)
Inductive pyval : Type :=
| VStr (s : string)
| VNum (x : num).

Module PyNum.
Import Float.

(** The number as an extended real, without rounding: Python compares an
    [int] with a [float] exactly. *)
Definition exact (x : num) : float :=
  match x with
  | Int z => Finite (inject_Z z)
  | Float f => f
  end.

Definition lt (x y : num) : bool := flt (exact x) (exact y).
Definition le (x y : num) : bool := fle (exact x) (exact y).
Definition eqb (x y : num) : bool := feq (exact x) (exact y).

(** [float(x)], as done implicitly by mixed arithmetic. *)
Definition to_float (x : num) : exn + float :=
  match x with
  | Float f => inr f
  | Int z =>
      match of_Q (inject_Z z) with
      | Finite q => inr (Finite q)
      | _ => inl (OverflowError "int too large to convert to float")
      end
  end.

Definition arith (iop : Z -> Z -> Z) (fop : float -> float -> float)
    (x y : num) : exn + num :=
  match x, y with
  | Int a, Int b => inr (Int (iop a b))
  | _, _ =>
      match to_float x, to_float y with
      | inl e, _ => inl e
      | _, inl e => inl e
      | inr a, inr b => inr (Float (fop a b))
      end
  end.

Definition add : num -> num -> exn + num := arith Z.add fadd.
Definition sub : num -> num -> exn + num := arith Z.sub fsub.
Definition mul : num -> num -> exn + num := arith Z.mul fmul.

(** [a / b] on two ints: the float nearest to the exact quotient. *)
Definition int_truediv (a b : Z) : exn + float :=
  if (b =? 0)%Z then inl ZeroDivisionError
  else
    match of_Q (inject_Z a / inject_Z b) with
    | Finite q => inr (Finite q)
    | _ => inl (OverflowError "integer division result too large for a float")
    end.

(** [round(x, ndigits)] with an explicit [ndigits]: the decimal nearest to
    the exact value of [x] with that many fractional digits (ties to even),
    then the float nearest to that decimal.  Infinities and NaN round to
    themselves; an [int] is unchanged for [ndigits >= 0]. *)
Definition round_float (f : float) (ndigits : Z) : exn + float :=
  match f with
  | Finite q =>
      let d := (inject_Z (rhe (q * 10 ^ ndigits)) * 10 ^ (- ndigits))%Q in
      match of_Q d with
      | Finite r => inr (Finite r)
      | _ => inl (OverflowError "rounded value too large to represent")
      end
  | _ => inr f
  end.

Definition round (x : num) (ndigits : Z) : exn + num :=
  match x with
  | Float f =>
      match round_float f ndigits with
      | inl e => inl e
      | inr r => inr (Float r)
      end
  | Int z =>
      if (0 <=? ndigits)%Z then inr (Int z)
      else inr (Int (rhe (inject_Z z * 10 ^ ndigits)%Q * 10 ^ (- ndigits))%Z)
  end.

(** A float literal of the source text denotes the nearest float. *)
Definition lit (q : Q) : num := Float (of_Q q).

End PyNum.

(** Results of fallible run-time operations. *)
Definition bind_exn {A B} (r : exn + A) (k : A -> exn + B) : exn + B :=
  match r with
  | inl e => inl e
  | inr a => k a
  end.

(** ** The [random] module

    The Mersenne Twister itself is left abstract: a generator state yields
    32-bit words.  [random()] and [uniform(a, b)] are built on it as in
    CPython. *)
Class MersenneTwister (G : Type) : Type :=
  genrand : G -> Z * G.

Module Random.
Import Float.
Section Gen.
Context {G : Type} `{MersenneTwister G}.

Definition genrand_uint32 (g : G) : Z * G :=
  let '(x, g') := genrand g in (x mod 2 ^ 32, g')%Z.

(** [random()]: 53 random bits scaled into [0, 1):
    [(a * 67108864.0 + b) * (1.0 / 9007199254740992.0)] with
    [a = genrand_uint32() >> 5] and [b = genrand_uint32() >> 6]. *)
Definition random (g : G) : float * G :=
  let '(x, g1) := genrand_uint32 g in
  let '(y, g2) := genrand_uint32 g1 in
  let a := Z.shiftr x 5 in
  let b := Z.shiftr y 6 in
  (fmul (fadd (fmul (of_Q (inject_Z a)) (of_Q 67108864)) (of_Q (inject_Z b)))
        (fdiv (of_Q 1) (of_Q 9007199254740992)), g2).

(** [uniform(a, b)]: [a + (b - a) * random()]; the difference is
    evaluated before the draw. *)
Definition uniform (a b : num) (g : G) : (exn + num) * G :=
  match PyNum.sub b a with
  | inl e => (inl e, g)
  | inr w =>
      let '(u, g') := random g in
      (bind_exn (PyNum.mul w (Float u)) (fun t => PyNum.add a t), g')
  end.

End Gen.
End Random.

(** ** The [datetime] module

    Dates are counted in days of the proleptic Gregorian calendar, day 1
    being 0001-01-01, as [_ymd2ord] and [_ord2ymd] of CPython do; the
    largest date is 9999-12-31.  [strftime] pads the year to four digits. *)
Module Datetime.
Local Open Scope Z_scope.

Definition DAYS_IN_MONTH : list Z :=
  [-1; 31; 28; 31; 30; 31; 30; 31; 31; 30; 31; 30; 31].
Definition DAYS_BEFORE_MONTH : list Z :=
  [-1; 0; 31; 59; 90; 120; 151; 181; 212; 243; 273; 304; 334].

Definition index (l : list Z) (i : Z) : Z := nth (Z.to_nat i) l (-1).

Definition is_leap (year : Z) : bool :=
  (year mod 4 =? 0) && (negb (year mod 100 =? 0) || (year mod 400 =? 0)).

Definition days_before_year (year : Z) : Z :=
  let y := year - 1 in y * 365 + y / 4 - y / 100 + y / 400.

Definition days_in_month (year month : Z) : Z :=
  if (month =? 2) && is_leap year then 29 else index DAYS_IN_MONTH month.

Definition days_before_month (year month : Z) : Z :=
  index DAYS_BEFORE_MONTH month
  + (if (2 <? month) && is_leap year then 1 else 0).

Definition ymd2ord (year month day : Z) : Z :=
  days_before_year year + days_before_month year month + day.

Definition DI400Y : Z := 146097.
Definition DI100Y : Z := 36524.
Definition DI4Y : Z := 1461.
Definition MAXORDINAL : Z := 3652059.

(** The month and day of the [n]-th day (from 0) of a year. *)
Definition month_day (n : Z) (leapyear : bool) : Z * Z :=
  let month := Z.shiftr (n + 50) 5 in
  let preceding :=
    index DAYS_BEFORE_MONTH month
    + (if (2 <? month) && leapyear then 1 else 0) in
  if n <? preceding then
    let month := month - 1 in
    let preceding :=
      preceding
      - (index DAYS_IN_MONTH month
         + (if (month =? 2) && leapyear then 1 else 0)) in
    (month, n - preceding + 1)
  else (month, n - preceding + 1).

Definition ord2ymd (n : Z) : Z * Z * Z :=
  let n := n - 1 in
  let n400 := n / DI400Y in
  let n := n mod DI400Y in
  let year := n400 * 400 + 1 in
  let n100 := n / DI100Y in
  let n := n mod DI100Y in
  let n4 := n / DI4Y in
  let n := n mod DI4Y in
  let n1 := n / 365 in
  let n := n mod 365 in
  let year := year + n100 * 100 + n4 * 4 + n1 in
  if (n1 =? 4) || (n100 =? 4) then (year - 1, 12, 31)
  else
    let leapyear := (n1 =? 3) && (negb (n4 =? 24) || (n100 =? 3)) in
    let '(month, day) := month_day n leapyear in
    (year, month, day).

(** Microseconds are always zero in this program and are left out. *)
Record timedelta : Type := { days : Z; seconds : Z }.

Record datetime : Type :=
  { year : Z; month : Z; day : Z; hour : Z; minute : Z; second : Z }.

(** The constructor normalises [seconds] into [0 .. 86399] and limits the
    magnitude of [days]. *)
Definition timedelta_new (d s : Z) : exn + timedelta :=
  let d := d + s / 86400 in
  let s := s mod 86400 in
  if Z.abs d <=? 999999999 then inr {| days := d; seconds := s |}
  else inl (OverflowError "days must have magnitude <= 999999999").

(** [timedelta(minutes=m)] *)
Definition timedelta_minutes (m : Z) : exn + timedelta :=
  timedelta_new 0 (m * 60).

Definition toordinal (dt : datetime) : Z :=
  ymd2ord (year dt) (month dt) (day dt).

(** [datetime.__add__] *)
Definition add (dt : datetime) (other : timedelta) : exn + datetime :=
  bind_exn (timedelta_new (toordinal dt)
              (hour dt * 3600 + minute dt * 60 + second dt)) (fun delta =>
  bind_exn (timedelta_new (days delta + days other)
              (seconds delta + seconds other)) (fun delta =>
  let hour := seconds delta / 3600 in
  let rem := seconds delta mod 3600 in
  let minute := rem / 60 in
  let second := rem mod 60 in
  if (0 <? days delta) && (days delta <=? MAXORDINAL) then
    let '(y, m, d) := ord2ymd (days delta) in
    inr {| year := y; month := m; day := d;
           hour := hour; minute := minute; second := second |}
  else inl (OverflowError "date value out of range"))).

(** [%0<width>d] for a non-negative number. *)
Definition decimal (n : Z) : string :=
  NilZero.string_of_uint (N.to_uint (Z.to_N n)).

Definition zfill (width : nat) (s : string) : string :=
  String.append (string_of_list_ascii (repeat "0"%char (width - String.length s))) s.

(** [strftime('%Y-%m-%d %H:%M:%S')] *)
Definition strftime (dt : datetime) : string :=
  (zfill 4 (decimal (year dt)) ++ "-" ++ zfill 2 (decimal (month dt)) ++ "-"
   ++ zfill 2 (decimal (day dt)) ++ " " ++ zfill 2 (decimal (hour dt)) ++ ":"
   ++ zfill 2 (decimal (minute dt)) ++ ":" ++ zfill 2 (decimal (second dt)))%string.

End Datetime.

(** ** Dicts and the pandas DataFrame *)

(** A dict keeps its keys in insertion order; assigning to a present key
    updates it in place. *)
Abbreviation dict := (list (string * pyval)).

Fixpoint dict_set (k : string) (v : pyval) (d : dict) : dict :=
  match d with
  | [] => [(k, v)]
  | (k', v') :: d' =>
      if String.eqb k k' then (k, v) :: d' else (k', v') :: dict_set k v d'
  end.

Fixpoint dict_get (k : string) (d : dict) : option pyval :=
  match d with
  | [] => None
  | (k', v) :: d' => if String.eqb k k' then Some v else dict_get k d'
  end.

Definition dict_keys (d : dict) : list string := map fst d.

Module Pandas.

(** A frame: the column labels and, per row, one cell per column. *)
Record DataFrame : Type := { columns : list string; rows : list (list pyval) }.

Definition nan : pyval := VNum (Float Float.NaN).

Definition mem (k : string) (ks : list string) : bool :=
  existsb (String.eqb k) ks.

(** Keys of all records in order of first appearance. *)
Definition union_keys (data : list dict) : list string :=
  fold_left (fun acc d =>
    fold_left (fun acc k => if mem k acc then acc else acc ++ [k])
              (dict_keys d) acc) data [].

(** [pd.DataFrame(data)] for a list of dicts: a key missing from a record
    gives NaN. *)
Definition from_records (data : list dict) : DataFrame :=
  let cols := union_keys data in
  {| columns := cols;
     rows := map (fun d => map (fun c => default nan (dict_get c d)) cols) data |}.

(** [len(df)] *)
Definition len (df : DataFrame) : Z := Z.of_nat (length (rows df)).

Fixpoint position (k : string) (ks : list string) : option nat :=
  match ks with
  | [] => None
  | k' :: ks' => if String.eqb k k' then Some O else S <$> position k ks'
  end.

(** [df[col]]: the column's cells, or [KeyError]. *)
Definition getitem (df : DataFrame) (col : string) : exn + list pyval :=
  match position col (columns df) with
  | None => inl (KeyError col)
  | Some j => inr (map (fun r => default nan (r !! j)) (rows df))
  end.

Definition head (n : nat) (df : DataFrame) : DataFrame :=
  {| columns := columns df; rows := take n (rows df) |}.

Definition tail (n : nat) (df : DataFrame) : DataFrame :=
  {| columns := columns df; rows := drop (length (rows df) - n) (rows df) |}.

Definition isna (v : pyval) : bool :=
  match v with
  | VNum (Float Float.NaN) => true
  | _ => false
  end.

(** [==] between cells *)
Definition val_eqb (v w : pyval) : bool :=
  match v, w with
  | VStr s, VStr t => String.eqb s t
  | VNum x, VNum y => PyNum.eqb x y
  | _, _ => false
  end.

Definition count_if (p : pyval -> bool) (col : list pyval) : Z :=
  Z.of_nat (length (filter (fun v => p v = true) col)).

(** [value_counts()]: the distinct non-missing values with their number
    of occurrences, most frequent first. *)
Fixpoint tally (v : pyval) (acc : list (pyval * Z)) : list (pyval * Z) :=
  match acc with
  | [] => [(v, 1%Z)]
  | (w, c) :: acc' =>
      if val_eqb v w then (w, (c + 1)%Z) :: acc' else (w, c) :: tally v acc'
  end.

Fixpoint insert_desc (x : pyval * Z) (l : list (pyval * Z)) : list (pyval * Z) :=
  match l with
  | [] => [x]
  | y :: l' => if (snd y <? snd x)%Z then x :: l else y :: insert_desc x l'
  end.

Definition value_counts (col : list pyval) : list (pyval * Z) :=
  let counts :=
    fold_left (fun acc v => if isna v then acc else tally v acc) col [] in
  fold_left (fun acc x => insert_desc x acc) counts [].

End Pandas.

(** ** Writing a frame as CSV ([to_csv(path, index=False)]) *)

(** [repr] of a float (the shortest decimal that reads back as the same
    float) is left abstract: no property below depends on the digits. *)
Class FloatRepr : Type :=
  float_repr : Float.float -> string.

Module Csv.
Import Pandas.
Section Writer.
Context `{FloatRepr}.

Definition dquote : ascii := ascii_of_nat 34.
Definition newline : string := String (ascii_of_nat 10) EmptyString.

Definition int_repr (z : Z) : string :=
  if (z <? 0)%Z then ("-" ++ Datetime.decimal (- z))%string
  else Datetime.decimal z.

(** The text of one cell; NaN is written as the empty string. *)
Definition cell_text (v : pyval) : string :=
  match v with
  | VStr s => s
  | VNum (Int z) => int_repr z
  | VNum (Float Float.NaN) => EmptyString
  | VNum (Float f) => float_repr f
  end.

Definition special (c : ascii) : bool :=
  Ascii.eqb c ","%char || Ascii.eqb c dquote
  || Ascii.eqb c (ascii_of_nat 10) || Ascii.eqb c (ascii_of_nat 13).

Fixpoint escape (s : string) : string :=
  match s with
  | EmptyString => EmptyString
  | String c s' =>
      if Ascii.eqb c dquote then String c (String c (escape s'))
      else String c (escape s')
  end.

(** Minimal quoting: only a field holding a delimiter, a quote or a line
    break is quoted. *)
Definition quote_field (s : string) : string :=
  if existsb special (list_ascii_of_string s)
  then String dquote (escape s ++ String dquote EmptyString)
  else s.

Fixpoint join (sep : string) (l : list string) : string :=
  match l with
  | [] => EmptyString
  | [s] => s
  | s :: l' => (s ++ sep ++ join sep l')%string
  end.

(** One record; a record made of a single empty field is written as a
    pair of quotes. *)
Definition record_line (fields : list string) : string :=
  match fields with
  | [EmptyString] => String dquote (String dquote EmptyString)
  | _ => join "," (map quote_field fields)
  end.

(** The records written: the header, then one per row. *)
Definition records (df : DataFrame) : list (list string) :=
  columns df :: map (map cell_text) (rows df).

Definition lines (df : DataFrame) : list string :=
  map record_line (records df).

Definition text (df : DataFrame) : string :=
  fold_right (fun l acc => (l ++ newline ++ acc)%string) EmptyString (lines df).

End Writer.
End Csv.

(** ** The interpreter state

    The state the program can observe or change: the generator object, the
    global random generator, the frames allocated so far (a frame is passed
    around by reference), the files written and the console. *)

Definition sensor_range : Type := (num * num)%type.

Record SensorParams : Type :=
  { normal_range : sensor_range;
    abnormal_high : sensor_range;
    abnormal_low : sensor_range;
    unit_ : string }.

Record SensorDataGenerator : Type :=
  { sensor_params : gmap string SensorParams;
    start_time : Datetime.datetime }.

(** A printed line: the pieces of an f-string. *)
Inductive frag : Type :=
| Str (s : string)
| Num (x : num)
| Val (v : pyval)
| Fixed1 (x : Float.float)
| Table (df : Pandas.DataFrame).

Record World {G : Type} : Type :=
  { gen : SensorDataGenerator;
    rng : G;
    frames : list Pandas.DataFrame;
    files : gmap string string;
    stdout : list (list frag) }.
Arguments World : clear implicits.

Definition M (G A : Type) : Type := World G -> (exn + A) * World G.

Definition ret {G A} (a : A) : M G A := fun w => (inr a, w).

Definition bind {G A B} (m : M G A) (k : A -> M G B) : M G B :=
  fun w =>
    match m w with
    | (inl e, w') => (inl e, w')
    | (inr a, w') => k a w'
    end.

Definition lift {G A} (r : exn + A) : M G A := fun w => (r, w).

Notation "x <- m ;; k" := (bind m (fun x => k))
  (at level 100, m at next level, right associativity).

Definition get_gen {G} : M G SensorDataGenerator := fun w => (inr (gen w), w).

Definition set_gen {G} (s : SensorDataGenerator) : M G unit :=
  fun w => (inr tt, {| gen := s; rng := rng w; frames := frames w;
                       files := files w; stdout := stdout w |}).

Definition with_rng {G A} (f : G -> A * G) : M G A :=
  fun w => let '(a, g) := f (rng w) in
    (inr a, {| gen := gen w; rng := g; frames := frames w;
               files := files w; stdout := stdout w |}).

Definition print {G} (l : list frag) : M G unit :=
  fun w => (inr tt, {| gen := gen w; rng := rng w; frames := frames w;
                       files := files w; stdout := stdout w ++ [l] |}).

(** A new frame is stored after the existing ones; its position is its
    reference. *)
Definition alloc_frame {G} (df : Pandas.DataFrame) : M G nat :=
  fun w => (inr (length (frames w)),
            {| gen := gen w; rng := rng w; frames := frames w ++ [df];
               files := files w; stdout := stdout w |}).

Definition write_file {G} (path content : string) : M G unit :=
  fun w => (inr tt, {| gen := gen w; rng := rng w; frames := frames w;
                       files := <[path := content]> (files w);
                       stdout := stdout w |}).

(** Loop over a list, threading an accumulator. *)
Fixpoint foldM {G A B} (f : B -> A -> M G B) (acc : B) (l : list A) : M G B :=
  match l with
  | [] => ret acc
  | x :: l' => acc' <- f acc x ;; foldM f acc' l'
  end.

Fixpoint forM_ {G A} (f : A -> M G unit) (l : list A) : M G unit :=
  match l with
  | [] => ret tt
  | x :: l' => _ <- f x ;; forM_ f l'
  end.

(** ** The program: [SensorDataGenerator] and [main] *)
Module Generator.
Import Float Pandas.
Section Program.
Context {G : Type} `{MersenneTwister G} `{FloatRepr}.

(** [SensorDataGenerator.__init__] (lines 13-37): the sensor table and
    the start time.  The temperature ranges are ints, the others floats;
    the field [unit] is called [unit_] here. *)
Definition init : SensorDataGenerator :=
  {| sensor_params :=
       <["temp" :=
           {| normal_range := (Int 45, Int 50);
              abnormal_high := (Int 52, Int 60);
              abnormal_low := (Int 35, Int 43);
              unit_ := "°C" |}]>
       (<["pressure" :=
           {| normal_range := (PyNum.lit 1.00, PyNum.lit 1.05);
              abnormal_high := (PyNum.lit 1.08, PyNum.lit 1.15);
              abnormal_low := (PyNum.lit 0.90, PyNum.lit 0.97);
              unit_ := "" |}]>
       (<["vibration" :=
           {| normal_range := (PyNum.lit 0.02, PyNum.lit 0.04);
              abnormal_high := (PyNum.lit 0.07, PyNum.lit 0.12);
              abnormal_low := (PyNum.lit 0.001, PyNum.lit 0.015);
              unit_ := "" |}]> ∅));
     start_time :=
       {| Datetime.year := 2024; Datetime.month := 6; Datetime.day := 3;
          Datetime.hour := 19; Datetime.minute := 0; Datetime.second := 0 |} |}.

(** [random.random()] and [random.uniform(a, b)] on the global generator. *)
Definition random : M G float := with_rng Random.random.

Definition uniform (a b : num) : M G num :=
  r <- with_rng (Random.uniform a b) ;; lift r.

(** [generate_sensor_value] (lines 39-79).  An unknown sensor name raises
    [KeyError] at the look-up in the table. *)
Definition generate_sensor_value (sensor_name : string)
    (is_normal_label : bool) (normal_prob abnormal_prob : num) : M G num :=
  self <- get_gen ;;
  params <- lift (match sensor_params self !! sensor_name with
                  | Some p => inr p
                  | None => inl (KeyError sensor_name)
                  end) ;;
  let prob_in_normal :=
    if is_normal_label then normal_prob else abnormal_prob in
  r <- random ;;
  range <- (if PyNum.lt (Float r) prob_in_normal then
              ret (normal_range params)
            else
              r' <- random ;;
              if PyNum.lt (Float r') (PyNum.lit 0.5) then
                ret (abnormal_high params)
              else ret (abnormal_low params)) ;;
  let '(min_val, max_val) := range in
  value <- uniform min_val max_val ;;
  if String.eqb sensor_name "temp" then lift (PyNum.round value 1)
  else if String.eqb sensor_name "pressure" then lift (PyNum.round value 2)
  else if String.eqb sensor_name "vibration" then lift (PyNum.round value 3)
  else ret value.

(** [generate_row] (lines 81-116).  The row is a dict whose keys are
    inserted in the order timestamp, label, temp, pressure, vibration; a
    missing value is the empty string. *)
Definition generate_row (row_num : Z)
    (normal_prob abnormal_prob null_prob : num) : M G dict :=
  self <- get_gen ;;
  delta <- lift (Datetime.timedelta_minutes row_num) ;;
  timestamp <- lift (Datetime.add (start_time self) delta) ;;
  r <- random ;;
  let is_normal_label := PyNum.lt (Float r) (PyNum.lit 0.7) in
  let label := if is_normal_label then "normal" else "abnormal" in
  let row_data :=
    [("timestamp", VStr (Datetime.strftime timestamp));
     ("label", VStr label)] in
  foldM (fun row_data sensor_name =>
           r <- random ;;
           if PyNum.lt (Float r) null_prob then
             ret (dict_set sensor_name (VStr "") row_data)
           else
             value <- generate_sensor_value sensor_name is_normal_label
                        normal_prob abnormal_prob ;;
             ret (dict_set sensor_name (VNum value) row_data))
        row_data ["temp"; "pressure"; "vibration"].

(** [range(n)] *)
Definition range (n : Z) : list Z := map Z.of_nat (seq 0 (Z.to_nat n)).

(** [generate_dataset] (lines 118-137): the rows are appended in index
    order and [pd.DataFrame(data)] allocates the frame returned. *)
Definition generate_dataset (num_rows : Z)
    (normal_prob abnormal_prob null_prob : num) : M G nat :=
  data <- foldM (fun data i =>
                   row_data <- generate_row i normal_prob abnormal_prob
                                 null_prob ;;
                   ret (data ++ [row_data]))
                [] (range num_rows) ;;
  alloc_frame (from_records data).

(** Reading the frame a reference points to. *)
Definition read_frame (df : nat) : M G DataFrame :=
  fun w => (match frames w !! df with
            | Some d => inr d
            | None => inl InvalidReference
            end, w).

(** ["=" * 60] *)
Definition rule : string :=
  string_of_list_ascii (repeat "="%char 60).

(** [print_statistics] (lines 139-177).  Each [print] adds one line, kept
    as the pieces of its f-string; the frame is only read. *)
Definition print_statistics (df : nat)
    (normal_prob abnormal_prob null_prob : num) : M G unit :=
  _ <- print [Str rule] ;;
  _ <- print [Str "📊 數據生成統計資訊"] ;;
  _ <- print [Str rule] ;;
  d <- read_frame df ;;
  _ <- print [Str "📈 總行數: "; Num (Int (len d))] ;;
  _ <- print [Str "📋 標籤分布:"] ;;
  d <- read_frame df ;;
  labels <- lift (getitem d "label") ;;
  _ <- forM_ (fun lc : pyval * Z =>
                d <- read_frame df ;;
                q <- lift (PyNum.int_truediv (snd lc) (len d)) ;;
                let percentage := fmul q (of_Q 100) in
                print [Str "   "; Val (fst lc); Str ": "; Num (Int (snd lc));
                       Str " 行 ("; Fixed1 percentage; Str "%)"])
             (value_counts labels) ;;
  _ <- print [Str Csv.newline; Str "🔧 使用的參數設定:"] ;;
  _ <- print [Str "   normal_prob: "; Num normal_prob;
              Str " (normal label時每個感測器在正常值域的機率)"] ;;
  _ <- print [Str "   abnormal_prob: "; Num abnormal_prob;
              Str " (abnormal label時每個感測器在正常值域的機率)"] ;;
  _ <- print [Str "   null_prob: "; Num null_prob; Str " (產生空值的機率)"] ;;
  _ <- print [Str Csv.newline; Str "📊 各欄位空值統計:"] ;;
  _ <- forM_ (fun col =>
                d <- read_frame df ;;
                c1 <- lift (getitem d col) ;;
                d <- read_frame df ;;
                c2 <- lift (getitem d col) ;;
                let null_count :=
                  (count_if isna c1 + count_if (val_eqb (VStr "")) c2)%Z in
                d <- read_frame df ;;
                let null_percentage :=
                  fmul (fdiv (of_Q (inject_Z null_count))
                             (of_Q (inject_Z (len d)))) (of_Q 100) in
                print [Str "   "; Str col; Str ": "; Num (Int null_count);
                       Str " 個空值 ("; Fixed1 null_percentage; Str "%)"])
             ["temp"; "pressure"; "vibration"] ;;
  _ <- print [Str Csv.newline; Str "📋 數據預覽 (前10行):"] ;;
  d <- read_frame df ;;
  _ <- print [Table (head 10 d)] ;;
  _ <- print [Str Csv.newline; Str "📋 數據預覽 (後10行):"] ;;
  d <- read_frame df ;;
  _ <- print [Table (tail 10 d)] ;;
  print [Str rule].

(** The parsed command line. *)
Record Args : Type :=
  { num_rows : Z;
    output : string;
    normal_prob : num;
    abnormal_prob : num;
    null_prob : num }.

(** [main] (lines 179-201), after [parser.parse_args()]. *)
Definition main (args : Args) : M G unit :=
  _ <- set_gen init ;;
  _ <- print [Str "🚀 開始生成 "; Num (Int (num_rows args));
              Str " 行感測器數據..."] ;;
  df <- generate_dataset (num_rows args) (normal_prob args)
          (abnormal_prob args) (null_prob args) ;;
  d <- read_frame df ;;
  _ <- write_file (output args) (Csv.text d) ;;
  _ <- print [Str "✅ 數據已儲存至: "; Str (output args)] ;;
  print_statistics df (normal_prob args) (abnormal_prob args) (null_prob args).

End Program.
End Generator.


(** ** Reading a timestamp back

    The inverse of [strftime], used to state what the timestamps written
    into the rows denote. *)
Module Timestamp.
Import Datetime.
Local Open Scope Z_scope.

Fixpoint take_chars (k : nat) (s : string) : option (string * string) :=
  match k with
  | O => Some (EmptyString, s)
  | S k' =>
      match s with
      | EmptyString => None
      | String c s' =>
          match take_chars k' s' with
          | Some (a, b) => Some (String c a, b)
          | None => None
          end
      end
  end.

Definition number (s : string) : option Z :=
  match NilZero.uint_of_string s with
  | Some d => Some (Z.of_N (N.of_uint d))
  | None => None
  end.

(** A number of [k] digits, then the rest. *)
Definition field (k : nat) (s : string) : option (Z * string) :=
  match take_chars k s with
  | Some (a, rest) =>
      match number a with
      | Some n => Some (n, rest)
      | None => None
      end
  | None => None
  end.

Definition expect (c : ascii) (s : string) : option string :=
  match s with
  | String c' s' => if Ascii.eqb c c' then Some s' else None
  | EmptyString => None
  end.

Definition bind_opt {A B} (o : option A) (k : A -> option B) : option B :=
  match o with
  | Some a => k a
  | None => None
  end.

(** [YYYY-MM-DD HH:MM:SS] *)
Definition parse (s : string) : option datetime :=
  bind_opt (field 4 s) (fun '(y, s) =>
  bind_opt (expect "-" s) (fun s =>
  bind_opt (field 2 s) (fun '(mo, s) =>
  bind_opt (expect "-" s) (fun s =>
  bind_opt (field 2 s) (fun '(d, s) =>
  bind_opt (expect " " s) (fun s =>
  bind_opt (field 2 s) (fun '(h, s) =>
  bind_opt (expect ":" s) (fun s =>
  bind_opt (field 2 s) (fun '(mi, s) =>
  bind_opt (expect ":" s) (fun s =>
  bind_opt (field 2 s) (fun '(se, s) =>
  match s with
  | EmptyString =>
      Some {| year := y; month := mo; day := d;
              hour := h; minute := mi; second := se |}
  | _ => None
  end))))))))))).

(** Seconds elapsed since the start of day 0 of the proleptic calendar. *)
Definition to_seconds (dt : datetime) : Z :=
  toordinal dt * 86400 + hour dt * 3600 + minute dt * 60 + second dt.

(** The instant a timestamp string denotes. *)
Definition seconds_of (s : string) : option Z :=
  match parse s with
  | Some dt => Some (to_seconds dt)
  | None => None
  end.

End Timestamp.

(** ** Vocabulary of the specification

    Definitions used to state and to check the properties below: intervals
    of floats, the decimals a rounded draw can take, the shape of a
    generated row, what an operation leaves unchanged. *)
Module Spec.
Import Float Datetime Timestamp Pandas.

Section Intervals.
Local Open Scope Q_scope.

(** A finite float known to lie in an interval. *)
Definition between (lo hi : Q) (f : float) : Prop :=
  exists q, f = Finite q /\ lo <= q <= hi.

(** Both ends of an interval are below the overflow threshold. *)
Definition in_range (lo hi : Q) : bool :=
  negb (Qle_bool (pow2 emax) hi) && negb (Qle_bool (pow2 emax) (- lo)).

(** The float nearest to the decimal [m / 10^n]. *)
Definition decimal_float (m n : Z) : num :=
  Float (of_Q (inject_Z m * 10 ^ (- n))).

(** The integers [m] for which [round(uniform(a, b), n)] can be the float
    nearest to [m / 10^n]: rounding is monotone, so they lie between the
    roundings of the two ends of the draw.  [None] when an intermediate
    result is not known to stay finite. *)
Definition round_uniform_range (a b : num) (n : Z) : option (Z * Z) :=
  match PyNum.sub b a with
  | inr w =>
      match PyNum.to_float w, PyNum.to_float a with
      | inr (Finite wq), inr (Finite aq) =>
          let tw := rnd wq in
          let vlo := rnd aq in
          let vhi := rnd (aq + tw) in
          let mlo := rhe (vlo * 10 ^ n) in
          let mhi := rhe (vhi * 10 ^ n) in
          if Qle_bool 0 wq && in_range 0 tw && in_range vlo vhi
             && in_range (rnd (inject_Z mlo * 10 ^ (- n)))
                         (rnd (inject_Z mhi * 10 ^ (- n)))
          then Some (mlo, mhi) else None
      | _, _ => None
      end
  | inl _ => None
  end.

(** What [uniform] and [round] compute once the draw [u] is known. *)
Definition scale_round (a b : num) (n : Z) (u : float) : exn + num :=
  bind_exn (PyNum.sub b a) (fun w =>
  bind_exn (PyNum.mul w (Float u)) (fun t =>
  bind_exn (PyNum.add a t) (fun v => PyNum.round v n))).

End Intervals.

Section Checks.
Local Open Scope Z_scope.

(** Checking a decidable property on every integer of an interval. *)
Fixpoint forall_from (P : Z -> bool) (lo : Z) (count : nat) : bool :=
  match count with
  | O => true
  | S count' => if P lo then forall_from P (lo + 1) count' else false
  end.

(** [P] holds from [lo] to [hi]. *)
Definition Zrange_forall (P : Z -> bool) (lo hi : Z) : bool :=
  forall_from P lo (Z.to_nat (hi - lo + 1)).

(** The month and day found for day [r] of a year count back to [r]. *)
Definition month_day_ok (leap : bool) (r : Z) : bool :=
  let '(m, d) := month_day r leap in
  (1 <=? m) && (m <=? 12) && (1 <=? d) && (d <=? 31)
  && (index DAYS_BEFORE_MONTH m + (if (2 <? m) && leap then 1 else 0) + d
      =? r + 1).

(** A number padded to [width] digits has that many characters and reads
    back as itself. *)
Definition pad_ok (width : nat) (n : Z) : bool :=
  let s := zfill width (decimal n) in
  Nat.eqb (String.length s) width
  && match number s with
     | Some m => m =? n
     | None => false
     end.

(** The start time of the generator, 2024-06-03 19:00:00. *)
Definition start : datetime :=
  {| year := 2024; month := 6; day := 3; hour := 19; minute := 0; second := 0 |}.

(** The start time in seconds. *)
Definition EPOCH : Z := 739040 * 86400 + 68400.

(** Number of minutes after which the year 9999 ends. *)
Definition MAX_MINUTES : Z := 4194747660.

(** The largest number of rows whose timestamps all fit before the year
    10000. *)
Definition MAX_ROWS : Z := 4194747660.

(** [dt + timedelta(minutes=m)] *)
Definition plus_minutes (dt : datetime) (m : Z) : exn + datetime :=
  bind_exn (timedelta_minutes m) (add dt).

End Checks.

(** The three value ranges of a sensor. *)
Inductive band : Type := Normal | High | Low.

Definition band_range (p : SensorParams) (b : band) : sensor_range :=
  match b with
  | Normal => normal_range p
  | High => abnormal_high p
  | Low => abnormal_low p
  end.

Definition is_normal (b : band) : bool :=
  match b with
  | Normal => true
  | _ => false
  end.

Definition sensors : list string := ["temp"; "pressure"; "vibration"].

(** Fractional digits kept for a sensor. *)
Definition digits (s : string) : Z :=
  if String.eqb s "temp" then 1
  else if String.eqb s "pressure" then 2
  else if String.eqb s "vibration" then 3
  else 0.

(** [lo <= x <= hi], as Python evaluates it. *)
Definition within (x : num) (r : sensor_range) : bool :=
  PyNum.le (fst r) x && PyNum.le x (snd r).

(** The integers [m] for which [m / 10^digits] can come out of a band. *)
Definition band_bounds (s : string) (b : band) : option (Z * Z) :=
  match sensor_params Generator.init !! s with
  | Some p => round_uniform_range (fst (band_range p b)) (snd (band_range p b)) (digits s)
  | None => None
  end.

(** Some draw of [random()] compared with [p] as [below] says. *)
Definition draw_below (p : num) (below : bool) : Prop :=
  exists q, (0 <= q)%Q /\ (q < 1)%Q /\ PyNum.lt (Float (Finite q)) p = below.

Definition label_of (is_normal_label : bool) : string :=
  if is_normal_label then "normal" else "abnormal".

(** A sensor field of a generated row: missing, or a rounded value drawn
    from one of the bands of the sensor. *)
Inductive sensor_cell (s : string) (p null_prob : num) : pyval -> Prop :=
| cell_missing :
    draw_below null_prob true -> sensor_cell s p null_prob (VStr "")
| cell_value (b : band) (m lo hi : Z) :
    draw_below null_prob false ->
    draw_below p (is_normal b) ->
    band_bounds s b = Some (lo, hi) ->
    (lo <= m <= hi)%Z ->
    sensor_cell s p null_prob (VNum (decimal_float m (digits s))).

Definition mk_row (ts label : string) (c1 c2 c3 : pyval) : dict :=
  [("timestamp", VStr ts); ("label", VStr label);
   ("temp", c1); ("pressure", c2); ("vibration", c3)].

(** The shape of the row generated for index [i]. *)
Inductive row_ok (i : Z) (normal_prob abnormal_prob null_prob : num)
  : dict -> Prop :=
| row_intro (dt : datetime) (lbl : bool) (c1 c2 c3 : pyval) :
    plus_minutes start i = inr dt ->
    draw_below (PyNum.lit 0.7) lbl ->
    sensor_cell "temp" (if lbl then normal_prob else abnormal_prob) null_prob c1 ->
    sensor_cell "pressure" (if lbl then normal_prob else abnormal_prob) null_prob c2 ->
    sensor_cell "vibration" (if lbl then normal_prob else abnormal_prob) null_prob c3 ->
    row_ok i normal_prob abnormal_prob null_prob
      (mk_row (strftime dt) (label_of lbl) c1 c2 c3).

(** The cell of row [i] in column [col]. *)
Definition cell (df : DataFrame) (i : Z) (col : string) : option pyval :=
  match position col (columns df) with
  | Some j =>
      if (i <? 0)%Z then None
      else match rows df !! Z.to_nat i with
           | Some r => r !! j
           | None => None
           end
  | None => None
  end.

Section State.
Context {G : Type}.

(** Only the random generator has advanced. *)
Definition frame (w w' : World G) : Prop :=
  gen w' = gen w /\ frames w' = frames w /\ files w' = files w
  /\ stdout w' = stdout w.

End State.

Section Loop.
Context {G : Type} `{MersenneTwister G}.

(** The loop of [generate_dataset], before the frame is built. *)
Definition rows_loop (n : Z) (normal_prob abnormal_prob null_prob : num)
  : M G (list dict) :=
  foldM (fun data i =>
           row_data <- Generator.generate_row i normal_prob abnormal_prob
                         null_prob ;;
           ret (data ++ [row_data]))
        [] (Generator.range n).

End Loop.

Definition KEYS : list string :=
  ["timestamp"; "label"; "temp"; "pressure"; "vibration"].

(** A decidable property holds of every value a band can produce. *)
Definition band_forall (P : num -> bool) (s : string) (b : band) : bool :=
  match band_bounds s b with
  | Some (lo, hi) =>
      Zrange_forall (fun m => P (decimal_float m (digits s))) lo hi
  | None => false
  end.

(** Equality of numbers as data (same constructor, same fraction). *)
Definition num_beq (x y : num) : bool :=
  match x, y with
  | Int a, Int b => (a =? b)%Z
  | Float (Finite a), Float (Finite b) =>
      (Qnum a =? Qnum b)%Z && Pos.eqb (Qden a) (Qden b)
  | _, _ => false
  end.

Definition in_normal (s : string) (x : num) : bool :=
  match sensor_params Generator.init !! s with
  | Some p => within x (normal_range p)
  | None => false
  end.

Definition in_abnormal (s : string) (x : num) : bool :=
  match sensor_params Generator.init !! s with
  | Some p =>
      (within x (abnormal_high p) || within x (abnormal_low p))
      && negb (within x (normal_range p))
  | None => false
  end.

Definition is_rounded (s : string) (x : num) : bool :=
  match PyNum.round x (digits s) with
  | inr y => num_beq y x
  | inl _ => false
  end.

Section Statistics.
Local Open Scope Z_scope.

(** The first minute of the calendar, 0001-01-01 00:00:00, counted from
    the start time. *)
Definition MIN_MINUTES : Z := -1064217300.

(** The first column [print_statistics] looks up that the frame lacks. *)
Definition first_missing (cols : list string) : option string :=
  List.find (fun c => negb (mem c cols))
    ["label"; "temp"; "pressure"; "vibration"].

(** The sum of the counts of a [value_counts] result. *)
Definition total (counts : list (pyval * Z)) : Z :=
  fold_right Z.add 0 (map snd counts).

(** The entries of [acc] are the distinct values of [pre], all strings,
    each with its number of occurrences. *)
Definition counted (acc : list (pyval * Z)) (pre : list pyval) : Prop :=
  NoDup (map fst acc)
  /\ (forall x, In x pre -> In x (map fst acc))
  /\ forall w c, In (w, c) acc ->
       (exists s, w = VStr s) /\ c = count_if (val_eqb w) pre.

End Statistics.

Section Fields.
Context `{FloatRepr}.

(** The text of a cell as [to_csv] writes it. *)
Definition csv_field (v : pyval) : string := Csv.quote_field (Csv.cell_text v).

(** A string that is written without quotes. *)
Definition plain (s : string) : bool :=
  negb (existsb Csv.special (list_ascii_of_string s)).

Definition pad_plain (width : nat) (n : Z) : bool :=
  plain (zfill width (decimal n)).

End Fields.

Section Keeps.
Context {G X : Type}.

(** Running [m] never changes the component [proj] of the state, whether
    it returns or raises. *)
Definition keeps {A} (proj : World G -> X) (m : M G A) : Prop :=
  forall w, proj (snd (m w)) = proj w.

(** Components that a draw from the generator cannot change. *)
Definition rng_free (proj : World G -> X) : Prop :=
  forall g r fr fi o g',
    proj {| gen := g; rng := r; frames := fr; files := fi; stdout := o |}
    = proj {| gen := g; rng := g'; frames := fr; files := fi; stdout := o |}.

End Keeps.

End Spec.
(** ** A concrete random source for the examples *)
Module Examples.
Import Generator.

(** A linear congruential generator stands in for the Mersenne Twister. *)
#[export] Instance lcg : MersenneTwister Z :=
  fun s => (s / 65536, (s * 1103515245 + 12345) mod 2 ^ 48)%Z.

(** The exact value of the float as a fraction stands in for [repr]. *)
#[export] Instance exact_repr : FloatRepr :=
  fun f =>
    match f with
    | Float.Finite q =>
        (Csv.int_repr (Qnum q) ++ "/" ++ Csv.int_repr (Zpos (Qden q)))%string
    | Float.Inf false => "inf"
    | Float.Inf true => "-inf"
    | Float.NaN => "nan"
    end.

(** The state right after [SensorDataGenerator()], for a seed. *)
Definition fresh (seed : Z) : World Z :=
  {| gen := init; rng := seed; frames := []; files := ∅; stdout := [] |}.

Definition w0 : World Z := fresh 42.

(** Three rows with [normal_prob = 1], [abnormal_prob = 0] and
    [null_prob = 0]: two rows come out normal, the third abnormal. *)
Definition sample : (exn + nat) * World Z :=
  generate_dataset 3 (Int 1) (Int 0) (Int 0) (fresh 7).

Definition sample_df : Pandas.DataFrame :=
  Eval vm_compute in
    default (Pandas.from_records []) (frames (snd sample) !! 0%nat).

(** Three rows with [null_prob = 1]. *)
Definition sample_null : (exn + nat) * World Z :=
  generate_dataset 3 (Int 1) (Int 0) (Int 1) (fresh 7).

Definition sample_null_df : Pandas.DataFrame :=
  Eval vm_compute in
    default (Pandas.from_records []) (frames (snd sample_null) !! 0%nat).

(** One row with the default probabilities. *)
Definition row0 : (exn + dict) * World Z :=
  generate_row 0 (PyNum.lit 0.95) (PyNum.lit 0.3) (PyNum.lit 0.05) w0.

Definition row0_dict : dict :=
  Eval vm_compute in match fst row0 with inr r => r | inl _ => [] end.

(** The row one minute before the start time, with [null_prob = 1.5]. *)
Definition row_before : (exn + dict) * World Z :=
  generate_row (-1) (PyNum.lit 0.95) (PyNum.lit 0.3) (PyNum.lit 1.5) w0.

Definition row_before_dict : dict :=
  Eval vm_compute in match fst row_before with inr r => r | inl _ => [] end.

(** A temperature drawn for an abnormal row with [abnormal_prob = 1.5]. *)
Definition saturated : (exn + num) * World Z :=
  generate_sensor_value "temp" false (Int 0) (PyNum.lit 1.5) w0.

(** The command line [-n n] with the default options. *)
Definition args_of (n : Z) : Args :=
  {| num_rows := n; output := "testing.csv"; normal_prob := PyNum.lit 0.95;
     abnormal_prob := PyNum.lit 0.3; null_prob := PyNum.lit 0.05 |}.

End Examples.

(** ** The model on known values *)
Module Known.
Import Float Datetime Timestamp Pandas Spec Generator Examples.

(** [0.1 + 0.2] is [0.30000000000000004], not [0.3]. *)
Example float_sum :
  fadd (of_Q 0.1) (of_Q 0.2) = of_Q 0.30000000000000004
  /\ feq (fadd (of_Q 0.1) (of_Q 0.2)) (of_Q 0.3) = false.
Proof. vm_compute. split; reflexivity. Qed.

(** The literal [1.05] denotes a float slightly above 1.05. *)
Example literal_105 :
  PyNum.lit 1.05 = Float (Finite (4728779608739021 # 4503599627370496)).
Proof. vm_compute. reflexivity. Qed.

(** [round] rounds the exact binary value, ties to even. *)
Example round_known :
  PyNum.round (PyNum.lit 2.675) 2 = inr (PyNum.lit 2.67)
  /\ PyNum.round (PyNum.lit 0.125) 2 = inr (PyNum.lit 0.12)
  /\ PyNum.round (PyNum.lit 2.5) 0 = inr (PyNum.lit 2)
  /\ PyNum.round (PyNum.lit 47.25) 1 = inr (PyNum.lit 47.2).
Proof. vm_compute. repeat split; reflexivity. Qed.

(** The largest float, and the first rational that overflows. *)
Example overflow_threshold :
  of_Q (2 ^ 1024 - 2 ^ 971) = Finite (2 ^ 1024 - 2 ^ 971)
  /\ of_Q (2 ^ 1024 - 2 ^ 970) = Inf false.
Proof. vm_compute. split; reflexivity. Qed.

Example start_time_known :
  toordinal start = 739040%Z
  /\ strftime start = "2024-06-03 19:00:00"
  /\ ord2ymd 738945 = (2024, 2, 29)%Z
  /\ plus_minutes start 300
     = inr {| year := 2024; month := 6; day := 4;
              hour := 0; minute := 0; second := 0 |}.
Proof. vm_compute. repeat split; reflexivity. Qed.

(** The frame of the sample run. *)
Example sample_known :
  columns sample_df = ["timestamp"; "label"; "temp"; "pressure"; "vibration"]
  /\ map (take 2) (rows sample_df)
     = [[VStr "2024-06-03 19:00:00"; VStr "normal"];
        [VStr "2024-06-03 19:01:00"; VStr "normal"];
        [VStr "2024-06-03 19:02:00"; VStr "abnormal"]]
  /\ map (drop 2) (rows sample_df)
     = [[VNum (PyNum.lit 49.6); VNum (PyNum.lit 1.02); VNum (PyNum.lit 0.038)];
        [VNum (PyNum.lit 45.6); VNum (PyNum.lit 1.05); VNum (PyNum.lit 0.028)];
        [VNum (PyNum.lit 53.5); VNum (PyNum.lit 1.09); VNum (PyNum.lit 0.012)]].
Proof. vm_compute. repeat split; reflexivity. Qed.

(** The lines written for a frame whose sensor values are all missing,
    and for the frame built from no row at all. *)
Example csv_known :
  Csv.lines sample_null_df
  = ["timestamp,label,temp,pressure,vibration";
     "2024-06-03 19:00:00,normal,,,";
     "2024-06-03 19:01:00,normal,,,";
     "2024-06-03 19:02:00,normal,,,"]
  /\ Csv.lines (from_records []) = [EmptyString].
Proof. vm_compute. split; reflexivity. Qed.

(** A sensor that is not in the table raises [KeyError] before any draw. *)
Example unknown_sensor :
  generate_sensor_value "humidity" true (Int 1) (Int 0) w0
  = (inl (KeyError "humidity"), w0).
Proof. vm_compute. reflexivity. Qed.

End Known.

(** ** Facts about rounding *)
Module FloatFacts.
Import Float Spec.
Local Open Scope Q_scope.

Lemma pow2_pos e : 0 < pow2 e.
Proof. apply Qpower_0_lt. reflexivity. Qed.

Lemma pow2_add a b : pow2 (a + b) == pow2 a * pow2 b.
Proof. apply Qpower_plus. discriminate. Qed.

Lemma pow2_le a b : (a <= b)%Z -> pow2 a <= pow2 b.
Proof. intros. apply Qpower_le_compat_l; [assumption | discriminate]. Qed.

Lemma pow2_lt_inv a b : pow2 a < pow2 b -> (a < b)%Z.
Proof. intros. eapply Qpower_lt_compat_l_inv; [eassumption | reflexivity]. Qed.

Lemma pow2_cancel a : pow2 a * pow2 (- a) == 1.
Proof. rewrite <- pow2_add, Z.add_opp_diag_r. reflexivity. Qed.

Lemma pow2_Z n : (0 <= n)%Z -> pow2 n == inject_Z (2 ^ n).
Proof. intros. unfold pow2. rewrite Zpower_Qpower by assumption. reflexivity. Qed.

(** [ilog2] brackets its argument between two consecutive powers of 2. *)
Lemma ilog2_spec x : 0 < x -> pow2 (ilog2 x) <= x /\ x < pow2 (ilog2 x + 1).
Proof.
  intros Hx. destruct x as [n d].
  assert (Hn : (0 < n)%Z).
  { unfold Qlt in Hx. simpl in Hx. lia. }
  destruct (Z.log2_spec n Hn) as [Hn1 Hn2].
  destruct (Z.log2_spec (Zpos d) (Pos2Z.is_pos d)) as [Hd1 Hd2].
  pose proof (Z.log2_nonneg n) as Hln. pose proof (Z.log2_nonneg (Zpos d)) as Hld.
  set (ln := Z.log2 n) in *. set (ld := Z.log2 (Zpos d)) in *.
  assert (Hq : n # d == inject_Z n * / inject_Z (Zpos d)).
  { rewrite (Qmake_Qdiv n d). reflexivity. }
  assert (Hdpos : 0 < inject_Z (Zpos d)) by reflexivity.
  assert (Hup : n # d < pow2 (ln - ld + 1)).
  { replace (ln - ld + 1)%Z with ((ln + 1) + - ld)%Z by lia.
    rewrite pow2_add. unfold pow2 at 2. rewrite Qpower_opp. fold (pow2 ld).
    rewrite !pow2_Z by lia. rewrite Hq.
    assert (H2 : 0 < inject_Z (2 ^ ld)).
    { change 0 with (inject_Z 0). rewrite <- Zlt_Qlt. lia. }
    apply Qlt_shift_div_l; [assumption|].
    rewrite <- Qmult_assoc, (Qmult_comm (/ _)), Qmult_assoc.
    apply Qlt_shift_div_r; [assumption|].
    rewrite <- !inject_Z_mult, <- Zlt_Qlt. nia. }
  assert (Hlo : pow2 (ln - ld - 1) < n # d).
  { replace (ln - ld - 1)%Z with (ln + - (ld + 1))%Z by lia.
    rewrite pow2_add. unfold pow2 at 2. rewrite Qpower_opp. fold (pow2 (ld + 1)).
    rewrite !pow2_Z by lia. rewrite Hq.
    assert (H2 : 0 < inject_Z (2 ^ (ld + 1))).
    { change 0 with (inject_Z 0). rewrite <- Zlt_Qlt. lia. }
    apply Qlt_shift_div_r; [assumption|].
    rewrite <- Qmult_assoc, (Qmult_comm (/ _)), Qmult_assoc.
    apply Qlt_shift_div_l; [assumption|].
    rewrite <- !inject_Z_mult, <- Zlt_Qlt. nia. }
  unfold ilog2. cbn [Qnum Qden]. fold ln ld.
  destruct (Qle_bool (pow2 (ln - ld)) (n # d)) eqn:E.
  - apply Qle_bool_iff in E. split; assumption.
  - split.
    + apply Qlt_le_weak. assumption.
    + replace (ln - ld - 1 + 1)%Z with (ln - ld)%Z by lia.
      apply Qnot_le_lt. intros C. apply Qle_bool_iff in C. congruence.
Qed.

Lemma ilog2_mono x y : 0 < x -> x <= y -> (ilog2 x <= ilog2 y)%Z.
Proof.
  intros Hx Hxy.
  assert (Hy : 0 < y) by (eapply Qlt_le_trans; eassumption).
  destruct (ilog2_spec x Hx) as [A _]. destruct (ilog2_spec y Hy) as [_ B].
  assert (pow2 (ilog2 x) < pow2 (ilog2 y + 1)).
  { eapply Qle_lt_trans; [eassumption|]. eapply Qle_lt_trans; eassumption. }
  apply pow2_lt_inv in H. lia.
Qed.

Lemma rhe_bounds q : (Qfloor q <= rhe q <= Qfloor q + 1)%Z.
Proof.
  unfold rhe. destruct (Qcompare _ _); [destruct (Z.even _)| |]; lia.
Qed.

Lemma rhe_Z z : rhe (inject_Z z) = z.
Proof.
  unfold rhe. rewrite Qfloor_Z.
  assert (E : Qcompare (inject_Z z - inject_Z z) (1 # 2) = Lt).
  { apply (proj1 (Qlt_alt _ _)). lra. }
  rewrite E. reflexivity.
Qed.

Lemma rhe_mono x y : x <= y -> (rhe x <= rhe y)%Z.
Proof.
  intros Hxy. pose proof (Qfloor_resp_le _ _ Hxy) as Hf.
  pose proof (rhe_bounds x) as Bx. pose proof (rhe_bounds y) as By.
  destruct (Z.eq_dec (Qfloor x) (Qfloor y)) as [E | NE]; [| lia].
  unfold rhe. rewrite <- E.
  destruct (Qcompare_spec (x - inject_Z (Qfloor x)) (1 # 2)) as [Hx | Hx | Hx];
  destruct (Qcompare_spec (y - inject_Z (Qfloor x)) (1 # 2)) as [Hy | Hy | Hy];
    try destruct (Z.even (Qfloor x)); try lia; exfalso; lra.
Qed.

Lemma rhe_proper x y : x == y -> rhe x = rhe y.
Proof.
  intros E. apply Z.le_antisymm; apply rhe_mono; rewrite E; apply Qle_refl.
Qed.

Lemma rhe_ge z x : inject_Z z <= x -> (z <= rhe x)%Z.
Proof. intros. rewrite <- (rhe_Z z). apply rhe_mono. assumption. Qed.

Lemma rhe_le z x : x <= inject_Z z -> (rhe x <= z)%Z.
Proof. intros. rewrite <- (rhe_Z z). apply rhe_mono. assumption. Qed.

Lemma cexp_mono x y : 0 < x -> x <= y -> (cexp x <= cexp y)%Z.
Proof. intros Hx Hxy. unfold cexp. pose proof (ilog2_mono x y Hx Hxy). lia. Qed.

Lemma round_pos_nonneg x : 0 < x -> 0 <= round_pos x.
Proof.
  intros Hx. unfold round_pos.
  apply Qmult_le_0_compat; [| apply Qlt_le_weak, pow2_pos].
  change 0 with (inject_Z 0). rewrite <- Zle_Qle. apply rhe_ge.
  apply Qmult_le_0_compat; [apply Qlt_le_weak; assumption |].
  apply Qlt_le_weak, pow2_pos.
Qed.

(** Within a binade the rounded value stays between the powers of 2 that
    bound the binade. *)
Lemma round_pos_upper x : 0 < x -> round_pos x <= pow2 (cexp x + prec).
Proof.
  intros Hx. unfold round_pos.
  destruct (ilog2_spec x Hx) as [_ Hup].
  rewrite (Z.add_comm (cexp x)), pow2_add.
  apply Qmult_le_compat_r; [| apply Qlt_le_weak, pow2_pos].
  rewrite (pow2_Z prec) by (unfold prec; lia). rewrite <- Zle_Qle. apply rhe_le.
  rewrite <- (pow2_Z prec) by (unfold prec; lia).
  apply Qmult_lt_0_le_reg_r with (z := pow2 (cexp x)); [apply pow2_pos|].
  rewrite <- Qmult_assoc, (Qmult_comm (pow2 (- _))), pow2_cancel, Qmult_1_r.
  rewrite <- pow2_add. apply Qlt_le_weak.
  eapply Qlt_le_trans; [eassumption|]. apply pow2_le. unfold cexp, prec. lia.
Qed.

Lemma round_pos_lower x :
  0 < x -> (emin < cexp x)%Z -> pow2 (cexp x + (prec - 1)) <= round_pos x.
Proof.
  intros Hx Hc. unfold round_pos.
  destruct (ilog2_spec x Hx) as [Hlo _].
  rewrite (Z.add_comm (cexp x)), pow2_add.
  apply Qmult_le_compat_r; [| apply Qlt_le_weak, pow2_pos].
  rewrite (pow2_Z (prec - 1)) by (unfold prec; lia). rewrite <- Zle_Qle. apply rhe_ge.
  rewrite <- (pow2_Z (prec - 1)) by (unfold prec; lia).
  apply Qmult_lt_0_le_reg_r with (z := pow2 (cexp x)); [apply pow2_pos|].
  rewrite <- Qmult_assoc, (Qmult_comm (pow2 (- _))), pow2_cancel, Qmult_1_r.
  rewrite <- pow2_add.
  eapply Qle_trans; [| eassumption]. apply pow2_le. unfold cexp, prec in *. lia.
Qed.

Lemma round_pos_mono x y : 0 < x -> x <= y -> round_pos x <= round_pos y.
Proof.
  intros Hx Hxy.
  assert (Hy : 0 < y) by (eapply Qlt_le_trans; eassumption).
  pose proof (cexp_mono x y Hx Hxy) as Hc.
  destruct (Z.eq_dec (cexp x) (cexp y)) as [E | NE].
  - unfold round_pos. rewrite <- E.
    apply Qmult_le_compat_r; [| apply Qlt_le_weak, pow2_pos].
    rewrite <- Zle_Qle. apply rhe_mono.
    apply Qmult_le_compat_r; [assumption | apply Qlt_le_weak, pow2_pos].
  - eapply Qle_trans; [apply round_pos_upper; assumption|].
    eapply Qle_trans; [| apply round_pos_lower; [assumption|]].
    + apply pow2_le. unfold prec. lia.
    + unfold cexp in *. lia.
Qed.

(** Rounding to nearest is monotone. *)
Theorem rnd_mono x y : x <= y -> rnd x <= rnd y.
Proof.
  intros Hxy. unfold rnd.
  destruct (Qcompare_spec x 0) as [Hx | Hx | Hx];
  destruct (Qcompare_spec y 0) as [Hy | Hy | Hy];
    rewrite ?Qred_correct; try apply Qle_refl; try (exfalso; lra).
  - apply round_pos_nonneg. assumption.
  - assert (0 <= round_pos (- x)) by (apply round_pos_nonneg; lra). lra.
  - assert (round_pos (- y) <= round_pos (- x)) by (apply round_pos_mono; lra).
    lra.
  - assert (0 <= round_pos (- x)) by (apply round_pos_nonneg; lra).
    assert (0 <= round_pos y) by (apply round_pos_nonneg; lra). lra.
  - apply round_pos_mono; assumption.
Qed.

Lemma rnd_proper x y : x == y -> rnd x == rnd y.
Proof.
  intros E. apply Qle_antisym; apply rnd_mono; rewrite E; apply Qle_refl.
Qed.


Lemma ilog2_proper x y : 0 < x -> x == y -> ilog2 x = ilog2 y.
Proof.
  intros Hx E. apply Z.le_antisymm.
  - apply ilog2_mono; [assumption|]. rewrite E. apply Qle_refl.
  - apply ilog2_mono; rewrite <- E; [assumption | apply Qle_refl].
Qed.

Lemma round_pos_proper x y : 0 < x -> x == y -> round_pos x == round_pos y.
Proof.
  intros Hx E. unfold round_pos, cexp. rewrite (ilog2_proper x y Hx E).
  rewrite (rhe_proper (x * _) (y * pow2 (- Z.max (ilog2 y - (prec - 1)) emin))).
  - reflexivity.
  - rewrite E. reflexivity.
Qed.

(** Equal rationals round to the same fraction. *)
Lemma rnd_eq x y : x == y -> rnd x = rnd y.
Proof.
  intros E. unfold rnd.
  assert (C : Qcompare x 0 = Qcompare y 0).
  { apply Qcompare_comp; [assumption | reflexivity]. }
  rewrite <- C. destruct (Qcompare_spec x 0) as [Hx | Hx | Hx].
  - reflexivity.
  - apply Qred_complete. apply Qopp_comp, round_pos_proper; [lra|].
    rewrite E. reflexivity.
  - apply Qred_complete, round_pos_proper; assumption.
Qed.

Lemma of_Q_proper x y : x == y -> of_Q x = of_Q y.
Proof. intros E. unfold of_Q. rewrite (rnd_eq x y E). reflexivity. Qed.

Lemma of_Q_between lo hi lo' hi' x :
  lo <= x <= hi ->
  Qle_bool lo' (rnd lo) && Qle_bool (rnd hi) hi' && in_range lo' hi' = true ->
  between lo' hi' (of_Q x).
Proof.
  intros [Hlo Hhi] Hc.
  apply andb_prop in Hc. destruct Hc as [Hc Hr].
  apply andb_prop in Hc. destruct Hc as [Hl Hh].
  apply Qle_bool_iff in Hl, Hh.
  apply andb_prop in Hr. destruct Hr as [R1 R2].
  apply negb_true_iff in R1, R2.
  pose proof (rnd_mono _ _ Hlo) as M1. pose proof (rnd_mono _ _ Hhi) as M2.
  assert (B : lo' <= rnd x <= hi') by (split; eapply Qle_trans; eassumption).
  unfold of_Q.
  assert (E : Qle_bool (pow2 emax) (Qabs (rnd x)) = false).
  { apply not_true_is_false. intros C. apply Qle_bool_iff in C.
    assert (N1 : ~ pow2 emax <= hi').
    { intros D. apply Qle_bool_iff in D. congruence. }
    assert (N2 : ~ pow2 emax <= - lo').
    { intros D. apply Qle_bool_iff in D. congruence. }
    revert C. apply Qabs_case; intros; lra. }
  rewrite E. exists (rnd x). split; [reflexivity | assumption].
Qed.

Lemma between_weaken lo hi lo' hi' f :
  between lo hi f -> lo' <= lo -> hi <= hi' -> between lo' hi' f.
Proof.
  intros (q & -> & H1 & H2) A B. exists q. split; [reflexivity|]. lra.
Qed.

(** Sum and product of floats in known non-negative intervals. *)
Lemma fadd_between la ha lb hb lo hi x y :
  between la ha x -> between lb hb y ->
  Qle_bool lo (rnd (la + lb)) && Qle_bool (rnd (ha + hb)) hi
    && in_range lo hi = true ->
  between lo hi (fadd x y).
Proof.
  intros (a & -> & A1 & A2) (b & -> & B1 & B2) Hc. cbn [fadd].
  eapply of_Q_between; [| eassumption]. lra.
Qed.

Lemma fmul_between la ha lb hb lo hi x y :
  between la ha x -> between lb hb y -> 0 <= la -> 0 <= lb ->
  Qle_bool lo (rnd (la * lb)) && Qle_bool (rnd (ha * hb)) hi
    && in_range lo hi = true ->
  between lo hi (fmul x y).
Proof.
  intros (a & -> & A1 & A2) (b & -> & B1 & B2) La Lb Hc. cbn [fmul].
  eapply of_Q_between; [| eassumption]. split.
  - apply Qmult_le_compat_nonneg; split; lra.
  - apply Qmult_le_compat_nonneg; split; lra.
Qed.

End FloatFacts.

(** ** Facts about [random()] and [uniform(a, b)] *)
Module RandomFacts.
Import Float Spec FloatFacts.
Local Open Scope Q_scope.
Section Gen.
Context {G : Type} `{MersenneTwister G}.

Lemma genrand_uint32_range g :
  (0 <= fst (Random.genrand_uint32 g) < 2 ^ 32)%Z.
Proof.
  unfold Random.genrand_uint32. destruct (genrand g) as [x g']. cbn [fst].
  apply Z.mod_pos_bound. reflexivity.
Qed.

Lemma of_Z_between (z lo hi : Z) :
  (lo <= z <= hi)%Z ->
  Qle_bool (inject_Z lo) (rnd (inject_Z lo))
    && Qle_bool (rnd (inject_Z hi)) (inject_Z hi)
    && in_range (inject_Z lo) (inject_Z hi) = true ->
  between (inject_Z lo) (inject_Z hi) (of_Q (inject_Z z)).
Proof.
  intros [A B] Hc. eapply of_Q_between; [| eassumption].
  rewrite <- !Zle_Qle. split; assumption.
Qed.

(** [random()] returns a finite float in [0, 1). *)
Theorem random_unit g :
  exists q g', Random.random g = (Finite q, g') /\ 0 <= q /\ q < 1.
Proof.
  unfold Random.random.
  pose proof (genrand_uint32_range g) as Hx.
  destruct (Random.genrand_uint32 g) as [x g1]. cbn [fst] in Hx.
  pose proof (genrand_uint32_range g1) as Hy.
  destruct (Random.genrand_uint32 g1) as [y g2]. cbn [fst] in Hy.
  assert (Ha : (0 <= Z.shiftr x 5 <= 2 ^ 27 - 1)%Z).
  { rewrite Z.shiftr_div_pow2 by lia. split.
    - apply Z.div_pos; lia.
    - assert (x / 2 ^ 5 < 2 ^ 27)%Z; [| lia].
      apply Z.div_lt_upper_bound; lia. }
  assert (Hb : (0 <= Z.shiftr y 6 <= 2 ^ 26 - 1)%Z).
  { rewrite Z.shiftr_div_pow2 by lia. split.
    - apply Z.div_pos; lia.
    - assert (y / 2 ^ 6 < 2 ^ 26)%Z; [| lia].
      apply Z.div_lt_upper_bound; lia. }
  pose proof (of_Z_between _ _ _ Ha eq_refl) as Fa.
  pose proof (of_Z_between _ _ _ Hb eq_refl) as Fb.
  assert (Fc : between 67108864 67108864 (of_Q 67108864)).
  { apply (of_Q_between 67108864 67108864); [lra | reflexivity]. }
  assert (Fs : fdiv (of_Q 1) (of_Q 9007199254740992)
               = Finite (1 # 9007199254740992)) by reflexivity.
  rewrite Fs.
  pose proof (fmul_between _ _ _ _ 0 (inject_Z (2 ^ 53 - 2 ^ 26)) _ _ Fa Fc
                ltac:(apply Qle_refl) ltac:(lra) eq_refl) as Fm.
  pose proof (fadd_between _ _ _ _ 0 (inject_Z (2 ^ 53 - 1)) _ _ Fm Fb eq_refl)
    as Fk.
  assert (Fu : between (1 # 9007199254740992) (1 # 9007199254740992)
                 (Finite (1 # 9007199254740992))).
  { eexists. split; [reflexivity | lra]. }
  pose proof (fmul_between _ _ _ _ 0 (9007199254740991 # 9007199254740992)
                _ _ Fk Fu ltac:(apply Qle_refl) ltac:(lra) eq_refl) as (q & E & Q1 & Q2).
  exists q, g2. rewrite E. split; [reflexivity|]. split; [assumption|].
  eapply Qle_lt_trans; [eassumption | reflexivity].
Qed.

End Gen.
End RandomFacts.

(** ** Rounded uniform draws

    [round(uniform(a, b), n)] is the float nearest to [m / 10^n] for an
    integer [m] in an interval that [round_uniform_range] computes from the
    end points. *)
Module UniformFacts.
Import Float Spec FloatFacts.
Local Open Scope Q_scope.

Lemma pow10_pos n : 0 < 10 ^ n.
Proof. apply Qpower_0_lt. reflexivity. Qed.

Lemma mul_float w u wf :
  PyNum.to_float w = inr wf -> PyNum.mul w (Float u) = inr (Float (fmul wf u)).
Proof.
  intros E. unfold PyNum.mul, PyNum.arith.
  destruct w; rewrite E; reflexivity.
Qed.

Lemma add_float a t af :
  PyNum.to_float a = inr af -> PyNum.add a (Float t) = inr (Float (fadd af t)).
Proof.
  intros E. unfold PyNum.add, PyNum.arith.
  destruct a; rewrite E; reflexivity.
Qed.

Lemma Qle_bool_refl q : Qle_bool q q = true.
Proof. apply Qle_bool_iff, Qle_refl. Qed.

Theorem round_uniform_sound a b n mlo mhi q :
  round_uniform_range a b n = Some (mlo, mhi) ->
  0 <= q -> q <= 1 ->
  exists m, (mlo <= m <= mhi)%Z
    /\ scale_round a b n (Finite q) = inr (decimal_float m n)
    /\ exists r, decimal_float m n = Float (Finite r).
Proof.
  unfold round_uniform_range, scale_round. intros Hc Q0 Q1.
  destruct (PyNum.sub b a) as [e | w]; [discriminate|]. cbn [bind_exn].
  destruct (PyNum.to_float w) as [e | [wq | |]] eqn:Ew; try discriminate.
  destruct (PyNum.to_float a) as [e | [aq | |]] eqn:Ea; try discriminate.
  cbv zeta in Hc.
  destruct (_ && _) eqn:C in Hc; [| discriminate].
  injection Hc as <- <-.
  apply andb_prop in C. destruct C as [C C4].
  apply andb_prop in C. destruct C as [C C3].
  apply andb_prop in C. destruct C as [C1 C2].
  apply Qle_bool_iff in C1.
  rewrite (mul_float _ _ _ Ew). cbn [bind_exn].
  rewrite (add_float _ _ _ Ea). cbn [bind_exn].
  (* the product *)
  assert (Ft : between 0 (rnd wq) (fmul (Finite wq) (Finite q))).
  { cbn [fmul]. apply (of_Q_between 0 wq).
    - split.
      + apply Qmult_le_0_compat; assumption.
      + rewrite <- (Qmult_1_r wq) at 2.
        apply Qmult_le_compat_nonneg; split; lra.
    - rewrite C2, !Qle_bool_refl. reflexivity. }
  destruct Ft as (t & Et & T0 & T1). rewrite Et.
  (* the sum *)
  assert (Fv : between (rnd aq) (rnd (aq + rnd wq)) (fadd (Finite aq) (Finite t))).
  { cbn [fadd]. apply (of_Q_between aq (aq + rnd wq)).
    - lra.
    - rewrite C3, !Qle_bool_refl. reflexivity. }
  destruct Fv as (v & Ev & V0 & V1). rewrite Ev.
  (* the rounding *)
  cbn [PyNum.round PyNum.round_float].
  set (m := rhe (v * 10 ^ n)).
  assert (Hm : (rhe (rnd aq * 10 ^ n) <= m <= rhe (rnd (aq + rnd wq) * 10 ^ n))%Z).
  { pose proof (pow10_pos n).
    split; apply rhe_mono; apply Qmult_le_compat_r; lra. }
  assert (Fr : between (rnd (inject_Z (rhe (rnd aq * 10 ^ n)) * 10 ^ (- n)))
                 (rnd (inject_Z (rhe (rnd (aq + rnd wq) * 10 ^ n)) * 10 ^ (- n)))
                 (of_Q (inject_Z m * 10 ^ (- n)))).
  { pose proof (pow10_pos (- n)).
    eapply of_Q_between.
    - split; (apply Qmult_le_compat_r; [rewrite <- Zle_Qle; apply Hm | lra]).
    - rewrite C4, !Qle_bool_refl. reflexivity. }
  destruct Fr as (r & Er & _).
  exists m. split; [assumption|]. unfold decimal_float. rewrite Er.
  split; [reflexivity | eauto].
Qed.

End UniformFacts.

(** ** Facts about dates *)
Module DatetimeFacts.
Import Datetime Timestamp Spec.
Local Open Scope Z_scope.

Lemma forall_from_spec P count :
  forall lo, forall_from P lo count = true ->
  forall m, lo <= m < lo + Z.of_nat count -> P m = true.
Proof.
  induction count as [| count IH]; intros lo F m Hm.
  - lia.
  - cbn [forall_from] in F. destruct (P lo) eqn:E; [| discriminate].
    destruct (Z.eq_dec m lo) as [-> | Hne]; [assumption|].
    apply (IH (lo + 1) F). lia.
Qed.

Lemma Zrange_forall_spec P lo hi :
  Zrange_forall P lo hi = true -> forall m, lo <= m <= hi -> P m = true.
Proof.
  unfold Zrange_forall. intros F m Hm.
  apply (forall_from_spec _ _ _ F). lia.
Qed.

Lemma month_day_spec r leap :
  0 <= r <= 364 ->
  let '(m, d) := month_day r leap in
  1 <= m <= 12 /\ 1 <= d <= 31
  /\ index DAYS_BEFORE_MONTH m + (if (2 <? m) && leap then 1 else 0) + d = r + 1.
Proof.
  intros Hr.
  assert (C : month_day_ok leap r = true).
  { destruct leap; apply (Zrange_forall_spec _ 0 364); trivial;
      vm_compute; reflexivity. }
  unfold month_day_ok in C. destruct (month_day r leap) as [m d].
  repeat (apply andb_prop in C; destruct C as [C ?]). lia.
Qed.

Ltac split_tests :=
  repeat match goal with
         | |- context [Z.eqb ?a ?b] => destruct (Z.eqb_spec a b)
         | |- context [Z.ltb ?a ?b] => destruct (Z.ltb_spec a b)
         end.

Lemma is_leap_cycle n400 n100 n4 n1 :
  0 <= n100 <= 3 -> 0 <= n4 <= 24 -> 0 <= n1 <= 3 ->
  is_leap (n400 * 400 + 1 + n100 * 100 + n4 * 4 + n1)
  = (n1 =? 3) && (negb (n4 =? 24) || (n100 =? 3)).
Proof.
  intros. unfold is_leap. split_tests; cbn; try reflexivity; exfalso;
    Z.div_mod_to_equations; lia.
Qed.

Lemma days_before_year_cycle n400 n100 n4 n1 :
  0 <= n100 <= 3 -> 0 <= n4 <= 24 -> 0 <= n1 <= 3 ->
  days_before_year (n400 * 400 + 1 + n100 * 100 + n4 * 4 + n1)
  = n400 * 146097 + n100 * 36524 + n4 * 1461 + n1 * 365.
Proof.
  intros. unfold days_before_year. cbv zeta. Z.div_mod_to_equations. lia.
Qed.

(** [ord2ymd] inverts [ymd2ord] on every valid ordinal. *)
Theorem ord2ymd_spec n :
  1 <= n <= MAXORDINAL ->
  let '(y, m, d) := ord2ymd n in
  ymd2ord y m d = n /\ 1 <= y <= 9999 /\ 1 <= m <= 12 /\ 1 <= d <= 31.
Proof.
  unfold MAXORDINAL. intros Hn. unfold ord2ymd, DI400Y, DI100Y, DI4Y.
  cbv zeta.
  set (n400 := (n - 1) / 146097).
  set (r400 := (n - 1) mod 146097).
  set (n100 := r400 / 36524).
  set (r100 := r400 mod 36524).
  set (n4 := r100 / 1461).
  set (r4 := r100 mod 1461).
  set (n1 := r4 / 365).
  set (r1 := r4 mod 365).
  assert (F : n - 1 = n400 * 146097 + r400 /\ 0 <= r400 < 146097
              /\ r400 = n100 * 36524 + r100 /\ 0 <= r100 < 36524
              /\ r100 = n4 * 1461 + r4 /\ 0 <= r4 < 1461
              /\ r4 = n1 * 365 + r1 /\ 0 <= r1 < 365).
  { subst n400 r400 n100 r100 n4 r4 n1 r1.
    repeat split; try (apply Z.mod_pos_bound; lia);
      try (rewrite Z.mul_comm; apply Z.div_mod; lia). }
  destruct F as (E400 & B400 & E100 & B100 & E4 & B4 & E1 & B1).
  assert (R : 0 <= n400 <= 24 /\ 0 <= n100 <= 4 /\ 0 <= n4 <= 24 /\ 0 <= n1 <= 4)
    by lia.
  clearbody n400 r400 n100 r100 n4 r4 n1 r1.
  destruct ((n1 =? 4) || (n100 =? 4)) eqn:Sp.
  - (* the last day of a leap year *)
    assert (Sp' : n1 = 4 \/ n100 = 4).
    { apply orb_prop in Sp. destruct Sp as [S | S]; apply Z.eqb_eq in S; auto. }
    clear Sp.
    unfold ymd2ord, days_before_year, days_before_month, is_leap.
    change (index DAYS_BEFORE_MONTH 12) with 334. change (2 <? 12) with true.
    cbv zeta. cbn [andb].
    split_tests; cbn [negb orb andb]; Z.div_mod_to_equations; lia.
  - apply orb_false_elim in Sp. destruct Sp as [S1 S2].
    apply Z.eqb_neq in S1, S2.
    pose proof (month_day_spec r1
                  ((n1 =? 3) && (negb (n4 =? 24) || (n100 =? 3)))
                  ltac:(lia)) as MD.
    destruct (month_day _ _) as [m d]. destruct MD as (Bm & Bd & Em).
    unfold ymd2ord, days_before_month.
    rewrite is_leap_cycle, days_before_year_cycle by lia.
    lia.
Qed.

(** *** Formatting and reading back *)

Lemma pad_spec width hi n :
  Zrange_forall (pad_ok width) 0 hi = true -> 0 <= n <= hi ->
  String.length (zfill width (decimal n)) = width
  /\ number (zfill width (decimal n)) = Some n.
Proof.
  intros C Hn. pose proof (Zrange_forall_spec _ _ _ C n Hn) as P.
  unfold pad_ok in P. cbv zeta in P.
  apply andb_prop in P. destruct P as [L N]. apply Nat.eqb_eq in L.
  destruct (number _) as [m |]; [| discriminate].
  apply Z.eqb_eq in N. subst m. split; [assumption | reflexivity].
Qed.

Lemma pad2_ok : Zrange_forall (pad_ok 2) 0 99 = true.
Proof. vm_compute. reflexivity. Qed.

Lemma pad4_ok : Zrange_forall (pad_ok 4) 0 9999 = true.
Proof. vm_compute. reflexivity. Qed.

Lemma take_chars_app a b :
  take_chars (String.length a) (a ++ b) = Some (a, b).
Proof.
  induction a as [| c a IH]; simpl.
  - reflexivity.
  - rewrite IH. reflexivity.
Qed.

Lemma field_pad width hi n rest :
  Zrange_forall (pad_ok width) 0 hi = true -> 0 <= n <= hi ->
  field width (zfill width (decimal n) ++ rest) = Some (n, rest).
Proof.
  intros C Hn. destruct (pad_spec _ _ _ C Hn) as [L N].
  unfold field. rewrite <- L at 1. rewrite take_chars_app, N. reflexivity.
Qed.

Lemma append_empty s : (s ++ "")%string = s.
Proof.
  induction s as [| c s IH]; [reflexivity|].
  change (String c (s ++ "")%string = String c s). rewrite IH. reflexivity.
Qed.

Lemma field_pad_end width hi n :
  Zrange_forall (pad_ok width) 0 hi = true -> 0 <= n <= hi ->
  field width (zfill width (decimal n)) = Some (n, EmptyString).
Proof.
  intros C Hn. rewrite <- (append_empty (zfill width (decimal n))).
  apply (field_pad width hi); assumption.
Qed.

Lemma expect_sep c rest :
  expect c (String c EmptyString ++ rest) = Some rest.
Proof.
  change (String c EmptyString ++ rest)%string with (String c rest).
  unfold expect. rewrite Ascii.eqb_refl. reflexivity.
Qed.

(** A valid date and time is read back from its text. *)
Theorem parse_strftime dt :
  0 <= year dt <= 9999 -> 0 <= month dt <= 99 -> 0 <= day dt <= 99 ->
  0 <= hour dt <= 99 -> 0 <= minute dt <= 99 -> 0 <= second dt <= 99 ->
  parse (strftime dt) = Some dt.
Proof.
  intros Hy Hmo Hd Hh Hmi Hs. destruct dt as [y mo d h mi se].
  cbn [year month day hour minute second] in *.
  unfold strftime, parse. cbn [year month day hour minute second].
  rewrite (field_pad 4 9999) by (apply pad4_ok || assumption).
  cbn [bind_opt]. rewrite expect_sep. cbn [bind_opt].
  repeat (rewrite (field_pad 2 99) by (apply pad2_ok || assumption);
          cbn [bind_opt]; rewrite expect_sep; cbn [bind_opt]).
  rewrite (field_pad_end 2 99) by (apply pad2_ok || assumption). reflexivity.
Qed.

(** *** Adding minutes to the start time *)

Theorem plus_minutes_spec i :
  0 <= i < MAX_MINUTES ->
  exists dt, plus_minutes start i = inr dt
    /\ to_seconds dt = EPOCH + 60 * i
    /\ parse (strftime dt) = Some dt.
Proof.
  unfold MAX_MINUTES, plus_minutes, timedelta_minutes, timedelta_new. intros Hi.
  cbv zeta.
  destruct (Z.leb_spec (Z.abs (0 + i * 60 / 86400)) 999999999) as [_ | C];
    [| exfalso; Z.div_mod_to_equations; lia].
  cbn [bind_exn]. unfold add, timedelta_new.
  change (toordinal start) with 739040.
  cbn [hour minute second start]. cbv zeta.
  change (19 * 3600 + 0 * 60 + 0) with 68400.
  change (68400 / 86400) with 0. change (68400 mod 86400) with 68400.
  change (Z.abs (739040 + 0) <=? 999999999) with true.
  cbn [bind_exn days seconds].
  set (d := 739040 + 0 + (0 + i * 60 / 86400)
            + (68400 + i * 60 mod 86400) / 86400).
  set (s := (68400 + i * 60 mod 86400) mod 86400).
  assert (Hd : d * 86400 + s = EPOCH + 60 * i /\ 0 <= s < 86400).
  { subst d s. unfold EPOCH. Z.div_mod_to_equations. lia. }
  destruct Hd as [Hd Hs].
  assert (Bd : 1 <= d <= MAXORDINAL).
  { unfold MAXORDINAL, EPOCH in *. lia. }
  clearbody d s.
  destruct (Z.leb_spec (Z.abs d) 999999999) as [_ | C];
    [| exfalso; unfold MAXORDINAL in *; lia].
  cbn [bind_exn days seconds]. cbv zeta.
  destruct (Z.ltb_spec 0 d) as [_ | C]; [| exfalso; lia].
  destruct (Z.leb_spec d MAXORDINAL) as [_ | C]; [| exfalso; lia].
  cbn [andb].
  pose proof (ord2ymd_spec d Bd) as O.
  destruct (ord2ymd d) as [[y m] dd]. destruct O as (Ey & By & Bm & Bdd).
  eexists. split; [reflexivity|]. split.
  - unfold to_seconds, toordinal. cbn [year month day hour minute second].
    rewrite Ey. Z.div_mod_to_equations. lia.
  - apply parse_strftime; cbn [year month day hour minute second];
      try lia; Z.div_mod_to_equations; lia.
Qed.

(** The last minute that can be reached. *)
Lemma plus_minutes_last :
  plus_minutes start (MAX_MINUTES - 1)
  = inr {| year := 9999; month := 12; day := 31;
           hour := 23; minute := 59; second := 0 |}.
Proof. vm_compute. reflexivity. Qed.

(** One minute later the year 10000 would begin. *)
Lemma plus_minutes_overflow :
  plus_minutes start MAX_MINUTES = inl (OverflowError "date value out of range").
Proof. vm_compute. reflexivity. Qed.

End DatetimeFacts.

(** ** The generator, step by step *)
Module ProgramFacts.
Import Float FloatFacts RandomFacts UniformFacts.
Import Datetime Timestamp DatetimeFacts Pandas Spec Generator.

Section Frame.
Context {G : Type}.

Lemma frame_refl (w : World G) : frame w w.
Proof. repeat split. Qed.

Lemma frame_trans (w1 w2 w3 : World G) :
  frame w1 w2 -> frame w2 w3 -> frame w1 w3.
Proof.
  unfold frame. intros (A1 & A2 & A3 & A4) (B1 & B2 & B3 & B4).
  repeat split; congruence.
Qed.

Lemma frame_gen (w w' : World G) s : frame w w' -> gen w = s -> gen w' = s.
Proof. intros (A & _) E. congruence. Qed.

Lemma run_bind_ok {A B} (m : M G A) (k : A -> M G B) w a w' :
  m w = (inr a, w') -> bind m k w = k a w'.
Proof. intros E. unfold bind. rewrite E. reflexivity. Qed.

Lemma run_bind_err {A B} (m : M G A) (k : A -> M G B) w e w' :
  m w = (inl e, w') -> bind m k w = (inl e, w').
Proof. intros E. unfold bind. rewrite E. reflexivity. Qed.

Lemma run_lift {A} (r : exn + A) (w : World G) : lift r w = (r, w).
Proof. reflexivity. Qed.

Lemma run_ret {A} (a : A) (w : World G) : ret a w = (inr a, w).
Proof. reflexivity. Qed.

Lemma run_get_gen (w : World G) : get_gen w = (inr (gen w), w).
Proof. reflexivity. Qed.

End Frame.

Ltac run_ok E := erewrite run_bind_ok by exact E.
Ltac run_err E := erewrite run_bind_err by exact E.

Section Program.
Context {G : Type} `{MersenneTwister G}.

Lemma lookup_temp :
  sensor_params init !! "temp"
  = Some {| normal_range := (Int 45, Int 50);
            abnormal_high := (Int 52, Int 60);
            abnormal_low := (Int 35, Int 43);
            unit_ := "°C" |}.
Proof. reflexivity. Qed.

Lemma lookup_pressure :
  sensor_params init !! "pressure"
  = Some {| normal_range := (PyNum.lit 1.00, PyNum.lit 1.05);
            abnormal_high := (PyNum.lit 1.08, PyNum.lit 1.15);
            abnormal_low := (PyNum.lit 0.90, PyNum.lit 0.97);
            unit_ := "" |}.
Proof. reflexivity. Qed.

Lemma lookup_vibration :
  sensor_params init !! "vibration"
  = Some {| normal_range := (PyNum.lit 0.02, PyNum.lit 0.04);
            abnormal_high := (PyNum.lit 0.07, PyNum.lit 0.12);
            abnormal_low := (PyNum.lit 0.001, PyNum.lit 0.015);
            unit_ := "" |}.
Proof. reflexivity. Qed.

(** Every band of every sensor yields a finite interval of decimals. *)
Lemma band_bounds_total s b :
  In s sensors -> exists lo hi, band_bounds s b = Some (lo, hi).
Proof.
  intros [<- | [<- | [<- | []]]]; destruct b; vm_compute; eauto.
Qed.

Lemma random_run (w : World G) :
  exists q w', random w = (inr (Finite q), w') /\ frame w w'
    /\ (0 <= q)%Q /\ (q < 1)%Q.
Proof.
  unfold random, with_rng.
  destruct (random_unit (rng w)) as (q & g' & E & Q0 & Q1). rewrite E.
  eexists _, _. split; [reflexivity|]. split; [| split; assumption].
  repeat split.
Qed.

(** A rounded uniform draw between the ends of a checked interval. *)
Lemma uniform_round_run a b n mlo mhi (w : World G) :
  round_uniform_range a b n = Some (mlo, mhi) ->
  exists m w',
    (value <- uniform a b ;; lift (PyNum.round value n)) w
    = (inr (decimal_float m n), w')
    /\ frame w w' /\ (mlo <= m <= mhi)%Z.
Proof.
  intros Hr.
  destruct (random_unit (rng w)) as (q & g' & E & Q0 & Q1).
  destruct (round_uniform_sound a b n mlo mhi q Hr Q0 ltac:(lra))
    as (m & Hm & Es & _).
  unfold uniform, bind, with_rng, Random.uniform, lift.
  unfold scale_round in Es.
  destruct (PyNum.sub b a) as [e | d]; [discriminate|].
  cbn [bind_exn] in Es. rewrite E.
  destruct (PyNum.mul d (Float (Finite q))) as [e | t]; [discriminate|].
  cbn [bind_exn] in Es |- *.
  destruct (PyNum.add a t) as [e | v]; [discriminate|].
  cbn [bind_exn] in Es. rewrite Es.
  eexists _, _. split; [reflexivity|]. split; [repeat split | assumption].
Qed.

Lemma generate_sensor_value_spec s lbl np ap (w : World G) :
  gen w = init -> In s sensors ->
  exists b m lo hi w',
    generate_sensor_value s lbl np ap w
    = (inr (decimal_float m (digits s)), w')
    /\ frame w w'
    /\ draw_below (if lbl then np else ap) (is_normal b)
    /\ band_bounds s b = Some (lo, hi) /\ (lo <= m <= hi)%Z.
Proof.
  intros Hg Hs.
  unfold generate_sensor_value.
  run_ok (run_get_gen w). rewrite Hg.
  assert (Hp : exists p, sensor_params init !! s = Some p
                 /\ forall b, exists lo hi,
                      round_uniform_range (fst (band_range p b))
                        (snd (band_range p b)) (digits s) = Some (lo, hi)).
  { destruct Hs as [<- | [<- | [<- | []]]]; eexists; (split; [reflexivity|]);
      intros []; vm_compute; eauto. }
  destruct Hp as (p & Ep & Hb). rewrite Ep.
  run_ok (run_lift (inr p) w).
  destruct (random_run w) as (q & w1 & Er & F1 & Q0 & Q1). run_ok Er.
  set (prob := if lbl then np else ap).
  assert (Hband : exists b w2,
             (if PyNum.lt (Float (Finite q)) prob
              then ret (normal_range p)
              else r' <- random ;;
                   (if PyNum.lt (Float r') (PyNum.lit 0.5)
                    then ret (abnormal_high p) else ret (abnormal_low p))) w1
             = (inr (band_range p b), w2)
             /\ frame w1 w2 /\ draw_below prob (is_normal b)).
  { destruct (PyNum.lt (Float (Finite q)) prob) eqn:Eb.
    - exists Normal, w1. split; [reflexivity|]. split; [apply frame_refl|].
      exists q. auto.
    - destruct (random_run w1) as (q' & w2 & Er' & F2 & _). run_ok Er'.
      destruct (PyNum.lt (Float (Finite q')) (PyNum.lit 0.5)).
      + exists High, w2. split; [reflexivity|]. split; [assumption|].
        exists q. auto.
      + exists Low, w2. split; [reflexivity|]. split; [assumption|].
        exists q. auto. }
  destruct Hband as (b & w2 & Eb & F2 & Db). run_ok Eb.
  destruct (Hb b) as (lo & hi & Hr).
  destruct (band_range p b) as [min_val max_val] eqn:Erange.
  cbn [fst snd] in Hr.
  destruct (uniform_round_run _ _ _ _ _ w2 Hr) as (m & w3 & Eu & F3 & Hm).
  assert (Ek : (value <- uniform min_val max_val ;;
                (if String.eqb s "temp" then lift (PyNum.round value 1)
                 else if String.eqb s "pressure" then lift (PyNum.round value 2)
                 else if String.eqb s "vibration" then lift (PyNum.round value 3)
                 else ret value))
               = (value <- uniform min_val max_val ;;
                  lift (PyNum.round value (digits s)))).
  { destruct Hs as [<- | [<- | [<- | []]]]; reflexivity. }
  rewrite Ek, Eu.
  exists b, m, lo, hi, w3. split; [reflexivity|].
  split; [eauto using frame_trans|]. split; [assumption|].
  split; [| assumption].
  unfold band_bounds. rewrite Ep, Erange. assumption.
Qed.

(** One turn of the loop over the sensors in [generate_row]. *)
Lemma sensor_step_spec s lbl np ap nullp (row : dict) (w : World G) :
  gen w = init -> In s sensors ->
  exists c w',
    (r <- random ;;
     (if PyNum.lt (Float r) nullp then ret (dict_set s (VStr "") row)
      else value <- generate_sensor_value s lbl np ap ;;
           ret (dict_set s (VNum value) row))) w
    = (inr (dict_set s c row), w')
    /\ frame w w'
    /\ sensor_cell s (if lbl then np else ap) nullp c.
Proof.
  intros Hg Hs.
  destruct (random_run w) as (q & w1 & Er & F1 & Q0 & Q1). run_ok Er.
  destruct (PyNum.lt (Float (Finite q)) nullp) eqn:En.
  - exists (VStr ""), w1. split; [reflexivity|]. split; [assumption|].
    constructor. exists q. auto.
  - destruct (generate_sensor_value_spec s lbl np ap w1
                (frame_gen _ _ _ F1 Hg) Hs)
      as (b & m & lo & hi & w2 & Ev & F2 & Db & Hb & Hm).
    run_ok Ev.
    eexists _, w2. split; [reflexivity|]. split; [eauto using frame_trans|].
    econstructor; try eassumption. exists q. auto.
Qed.

Theorem generate_row_spec i np ap nullp (w : World G) :
  gen w = init ->
  match plus_minutes start i with
  | inl e => generate_row i np ap nullp w = (inl e, w)
  | inr dt =>
      exists row w',
        generate_row i np ap nullp w = (inr row, w')
        /\ frame w w' /\ row_ok i np ap nullp row
  end.
Proof.
  intros Hg. unfold generate_row, plus_minutes.
  run_ok (run_get_gen w). rewrite Hg.
  change (start_time init) with start.
  destruct (timedelta_minutes i) as [e | delta] eqn:Et.
  { run_err (run_lift (@inl exn timedelta e) w). reflexivity. }
  run_ok (run_lift (inr delta) w). cbn [bind_exn].
  destruct (add start delta) as [e | dt] eqn:Ea.
  { run_err (run_lift (@inl exn datetime e) w). reflexivity. }
  run_ok (run_lift (inr dt) w).
  destruct (random_run w) as (q & w1 & Er & F1 & Q0 & Q1). run_ok Er.
  set (lbl := PyNum.lt (Float (Finite q)) (PyNum.lit 0.7)).
  cbn [foldM].
  destruct (sensor_step_spec "temp" lbl np ap nullp
              [("timestamp", VStr (strftime dt));
               ("label", VStr (if lbl then "normal" else "abnormal"))] w1)
    as (c1 & w2 & E1 & F2 & C1);
    [eauto using frame_gen | simpl; auto |].
  run_ok E1.
  destruct (sensor_step_spec "pressure" lbl np ap nullp
              (dict_set "temp" c1
                 [("timestamp", VStr (strftime dt));
                  ("label", VStr (if lbl then "normal" else "abnormal"))]) w2)
    as (c2 & w3 & E2 & F3 & C2);
    [eauto using frame_gen, frame_trans | simpl; auto |].
  run_ok E2.
  destruct (sensor_step_spec "vibration" lbl np ap nullp
              (dict_set "pressure" c2
                 (dict_set "temp" c1
                    [("timestamp", VStr (strftime dt));
                     ("label", VStr (if lbl then "normal" else "abnormal"))]))
              w3)
    as (c3 & w4 & E3 & F4 & C3);
    [eauto using frame_gen, frame_trans | simpl; auto |].
  run_ok E3.
  eexists _, w4. split; [reflexivity|].
  split; [eauto using frame_trans|].
  change (row_ok i np ap nullp (mk_row (strftime dt) (label_of lbl) c1 c2 c3)).
  econstructor; try eassumption.
  - unfold plus_minutes. rewrite Et. assumption.
  - exists q. auto.
Qed.

End Program.
End ProgramFacts.

(** ** What an operation leaves unchanged *)
Module FrameFacts.
Import Float Pandas Spec Generator.

Section Keeps.
Context {G X : Type} (proj : World G -> X).

Lemma keeps_ret {A} (a : A) : keeps proj (ret a).
Proof. intros w. reflexivity. Qed.

Lemma keeps_lift {A} (r : exn + A) : keeps proj (lift r).
Proof. intros w. reflexivity. Qed.

Lemma keeps_bind {A B} (m : M G A) (k : A -> M G B) :
  keeps proj m -> (forall a, keeps proj (k a)) -> keeps proj (bind m k).
Proof.
  intros Hm Hk w. unfold bind. specialize (Hm w).
  destruct (m w) as [[e | a] w']; cbn [snd] in *.
  - assumption.
  - rewrite Hk. assumption.
Qed.

Lemma keeps_foldM {A B} (f : B -> A -> M G B) l :
  (forall acc x, keeps proj (f acc x)) -> forall acc, keeps proj (foldM f acc l).
Proof.
  intros Hf. induction l as [| x l IH]; intros acc; cbn [foldM].
  - apply keeps_ret.
  - apply keeps_bind; [apply Hf | intros; apply IH].
Qed.

Lemma keeps_forM {A} (f : A -> M G unit) l :
  (forall x, keeps proj (f x)) -> keeps proj (forM_ f l).
Proof.
  intros Hf. induction l as [| x l IH]; cbn [forM_].
  - apply keeps_ret.
  - apply keeps_bind; [apply Hf | intros; apply IH].
Qed.

Lemma keeps_if {A} (b : bool) (m1 m2 : M G A) :
  keeps proj m1 -> keeps proj m2 -> keeps proj (if b then m1 else m2).
Proof. destruct b; auto. Qed.

Lemma keeps_get_gen : keeps proj get_gen.
Proof. intros w. reflexivity. Qed.

End Keeps.

Section Ops.
Context {G : Type} `{MersenneTwister G} `{FloatRepr}.

Lemma with_rng_keeps {X A} (proj : World G -> X) (f : G -> A * G) :
  (forall g r fr fi o g',
      proj {| gen := g; rng := r; frames := fr; files := fi; stdout := o |}
      = proj {| gen := g; rng := g'; frames := fr; files := fi; stdout := o |}) ->
  keeps proj (with_rng f).
Proof.
  intros Hp w. unfold with_rng. destruct (f (rng w)) as [a g'].
  cbn [snd]. destruct w. cbn. symmetry. apply Hp.
Qed.

Lemma read_frame_keeps {X} (proj : World G -> X) df :
  keeps proj (read_frame df).
Proof. intros w. reflexivity. Qed.

Lemma print_keeps_gen l : keeps (G := G) gen (print l).
Proof. intros w. reflexivity. Qed.
Lemma print_keeps_frames l : keeps (G := G) frames (print l).
Proof. intros w. reflexivity. Qed.
Lemma print_keeps_rng l : keeps (G := G) rng (print l).
Proof. intros w. reflexivity. Qed.
Lemma print_keeps_files l : keeps (G := G) files (print l).
Proof. intros w. reflexivity. Qed.

Lemma alloc_keeps_gen df : keeps (G := G) gen (alloc_frame df).
Proof. intros w. reflexivity. Qed.
Lemma write_keeps_gen p c : keeps (G := G) gen (write_file p c).
Proof. intros w. reflexivity. Qed.
Lemma write_keeps_frames p c : keeps (G := G) frames (write_file p c).
Proof. intros w. reflexivity. Qed.

Lemma rng_free_gen : rng_free (G := G) gen.
Proof. intros g r fr fi o g'. reflexivity. Qed.
Lemma rng_free_frames : rng_free (G := G) frames.
Proof. intros g r fr fi o g'. reflexivity. Qed.
Lemma rng_free_files : rng_free (G := G) files.
Proof. intros g r fr fi o g'. reflexivity. Qed.
Lemma rng_free_stdout : rng_free (G := G) stdout.
Proof. intros g r fr fi o g'. reflexivity. Qed.

Ltac keeps_step :=
  lazymatch goal with
  | |- keeps _ (bind _ _) => apply keeps_bind; [| intros ? ]
  | |- keeps _ (ret _) => apply keeps_ret
  | |- keeps _ (lift _) => apply keeps_lift
  | |- keeps _ get_gen => apply keeps_get_gen
  | |- keeps _ (read_frame _) => apply read_frame_keeps
  | |- keeps _ (with_rng _) => apply with_rng_keeps; assumption
  | |- keeps _ (if _ then _ else _) => apply keeps_if
  | |- keeps _ (foldM _ _ _) => apply keeps_foldM; intros ? ?
  | |- keeps _ (forM_ _ _) => apply keeps_forM; intros ?
  | |- keeps _ (let '(_, _) := ?r in _) => destruct r
  end.

Lemma random_keeps {X} (proj : World G -> X) :
  rng_free proj -> keeps proj random.
Proof. intros. unfold random. repeat keeps_step. Qed.

Lemma uniform_keeps {X} (proj : World G -> X) a b :
  rng_free proj -> keeps proj (uniform a b).
Proof. intros. unfold uniform. repeat keeps_step. Qed.

Lemma generate_sensor_value_keeps {X} (proj : World G -> X) s lbl np ap :
  rng_free proj -> keeps proj (generate_sensor_value s lbl np ap).
Proof.
  intros. unfold generate_sensor_value.
  repeat lazymatch goal with
         | |- keeps _ random => apply random_keeps; assumption
         | |- keeps _ (uniform _ _) => apply uniform_keeps; assumption
         | _ => keeps_step
         end.
Qed.

Lemma generate_row_keeps {X} (proj : World G -> X) i np ap nullp :
  rng_free proj -> keeps proj (generate_row i np ap nullp).
Proof.
  intros. unfold generate_row.
  repeat lazymatch goal with
         | |- keeps _ random => apply random_keeps; assumption
         | |- keeps _ (generate_sensor_value _ _ _ _) =>
             apply generate_sensor_value_keeps; assumption
         | _ => keeps_step
         end.
Qed.

Lemma rows_loop_keeps {X} (proj : World G -> X) n np ap nullp :
  rng_free proj -> keeps proj (Spec.rows_loop n np ap nullp).
Proof.
  intros. unfold Spec.rows_loop.
  repeat lazymatch goal with
         | |- keeps _ (generate_row _ _ _ _) =>
             apply generate_row_keeps; assumption
         | _ => keeps_step
         end.
Qed.

Lemma generate_dataset_keeps_gen n np ap nullp :
  keeps (G := G) gen (generate_dataset n np ap nullp).
Proof.
  unfold generate_dataset.
  apply keeps_bind; [apply (rows_loop_keeps gen n), rng_free_gen |].
  intros. apply alloc_keeps_gen.
Qed.

Lemma print_statistics_keeps {X} (proj : World G -> X) df np ap nullp :
  (forall l, keeps proj (print l)) ->
  keeps proj (print_statistics df np ap nullp).
Proof.
  intros Hp. unfold print_statistics.
  repeat lazymatch goal with
         | |- keeps _ (print _) => apply Hp
         | _ => keeps_step
         end.
Qed.

Lemma main_keeps_gen args (w : World G) : gen (snd (main args w)) = init.
Proof.
  unfold main.
  assert (K : forall k : unit -> M G unit,
             keeps gen (k tt) ->
             gen (snd (bind (set_gen init) k w)) = init).
  { intros k Hk. unfold bind, set_gen. rewrite Hk. reflexivity. }
  apply K.
  repeat lazymatch goal with
         | |- keeps _ (print _) => apply print_keeps_gen
         | |- keeps _ (generate_dataset _ _ _ _) =>
             apply generate_dataset_keeps_gen
         | |- keeps _ (write_file _ _) => apply write_keeps_gen
         | |- keeps _ (print_statistics _ _ _ _) =>
             apply print_statistics_keeps; intros; apply print_keeps_gen
         | _ => keeps_step
         end.
Qed.

End Ops.
End FrameFacts.

(** ** The loop over the rows and the frame built from them *)
Module DatasetFacts.
Import Float FloatFacts UniformFacts.
Import Datetime Timestamp DatetimeFacts Pandas Spec Generator.
Import ProgramFacts FrameFacts.

Section Loop.
Context {G : Type} `{MersenneTwister G}.

Lemma foldM_app {A B} (f : B -> A -> M G B) l1 l2 acc (w : World G) :
  foldM f acc (l1 ++ l2) w = (acc' <- foldM f acc l1 ;; foldM f acc' l2) w.
Proof.
  revert acc w. induction l1 as [| x l1 IH]; intros acc w.
  - reflexivity.
  - cbn [app foldM]. unfold bind in *.
    destruct (f acc x w) as [[e | a] w1]; [reflexivity|]. apply IH.
Qed.

Lemma range_succ (n : nat) :
  range (Z.of_nat (S n)) = range (Z.of_nat n) ++ [Z.of_nat n].
Proof.
  unfold range. rewrite !Nat2Z.id, seq_S, map_app. reflexivity.
Qed.

Lemma range_nonpos n : (n <= 0)%Z -> range n = [].
Proof.
  intros. unfold range. replace (Z.to_nat n) with O by lia. reflexivity.
Qed.

(** Unfolding the last turn of the loop. *)
Lemma rows_loop_succ (n : nat) np ap nullp (w : World G) :
  rows_loop (Z.of_nat (S n)) np ap nullp w
  = (data <- rows_loop (Z.of_nat n) np ap nullp ;;
     row_data <- generate_row (Z.of_nat n) np ap nullp ;;
     ret (data ++ [row_data])) w.
Proof.
  unfold rows_loop. rewrite range_succ, foldM_app.
  unfold bind.
  destruct (foldM _ _ _ w) as [[e | data] w1]; [reflexivity|].
  cbn [foldM]. unfold bind.
  destruct (generate_row _ _ _ _ w1) as [[e | row] w2]; reflexivity.
Qed.

Lemma rows_loop_inv (n : nat) np ap nullp (w w' : World G) rows :
  rows_loop (Z.of_nat (S n)) np ap nullp w = (inr rows, w') ->
  exists data w1 row,
    rows_loop (Z.of_nat n) np ap nullp w = (inr data, w1)
    /\ generate_row (Z.of_nat n) np ap nullp w1 = (inr row, w')
    /\ rows = data ++ [row].
Proof.
  rewrite rows_loop_succ. unfold bind.
  destruct (rows_loop _ _ _ _ w) as [[e | data] w1] eqn:E1; [discriminate|].
  destruct (generate_row _ _ _ _ w1) as [[e | row] w2] eqn:E2; [discriminate|].
  intros E. injection E as <- <-. exists data, w1, row. auto.
Qed.

Lemma rows_loop_length (n : nat) np ap nullp (w w' : World G) rows :
  rows_loop (Z.of_nat n) np ap nullp w = (inr rows, w') -> length rows = n.
Proof.
  revert w' rows. induction n as [| n IH]; intros w' rows E.
  - cbv in E. injection E as <- _. reflexivity.
  - apply rows_loop_inv in E. destruct E as (data & w1 & row & E1 & _ & ->).
    rewrite length_app, (IH _ _ E1). cbn. lia.
Qed.

(** The run of the loop up to any earlier row is a prefix of the run. *)
Lemma rows_loop_prefix (n : nat) np ap nullp (w w' : World G) rows :
  rows_loop (Z.of_nat n) np ap nullp w = (inr rows, w') ->
  forall k, (k <= n)%nat ->
  exists w_k, rows_loop (Z.of_nat k) np ap nullp w = (inr (take k rows), w_k).
Proof.
  revert w' rows. induction n as [| n IH]; intros w' rows E k Hk.
  - replace k with O by lia. exists w'. rewrite E.
    cbv in E. injection E as <- _. reflexivity.
  - destruct (Nat.eq_dec k (S n)) as [-> | Hne].
    + exists w'. rewrite E. rewrite firstn_all2; [reflexivity|].
      rewrite (rows_loop_length _ _ _ _ _ _ _ E). lia.
    + pose proof E as E'. apply rows_loop_inv in E'.
      destruct E' as (data & w1 & row & E1 & _ & ->).
      destruct (IH _ _ E1 k ltac:(lia)) as (w_k & Ek). exists w_k.
      rewrite Ek. rewrite take_app_le; [reflexivity|].
      rewrite (rows_loop_length _ _ _ _ _ _ _ E1). lia.
Qed.

(** Row [i] is what [generate_row i] returns in the state the loop has
    reached after the rows before it. *)
Lemma rows_loop_trace (n : nat) np ap nullp (w w' : World G) rows :
  rows_loop (Z.of_nat n) np ap nullp w = (inr rows, w') ->
  forall i, (i < n)%nat ->
  exists row w_i w_i',
    rows_loop (Z.of_nat i) np ap nullp w = (inr (take i rows), w_i)
    /\ generate_row (Z.of_nat i) np ap nullp w_i = (inr row, w_i')
    /\ rows !! i = Some row.
Proof.
  intros E i Hi.
  destruct (rows_loop_prefix _ _ _ _ _ _ _ E (S i) ltac:(lia)) as (w2 & E2).
  pose proof E2 as E3. apply rows_loop_inv in E3.
  destruct E3 as (data & w1 & row & E1 & Er & Et).
  pose proof (rows_loop_length _ _ _ _ _ _ _ E1) as L1.
  pose proof (rows_loop_length _ _ _ _ _ _ _ E) as L.
  assert (Hd : data = take i rows).
  { apply (f_equal (take i)) in Et. rewrite take_take in Et.
    replace (i `min` S i)%nat with i in Et by lia.
    rewrite take_app_length' in Et by (symmetry; assumption). congruence. }
  assert (Hrow : rows !! i = Some row).
  { apply (f_equal (fun l => l !! i)) in Et.
    rewrite lookup_take_lt in Et by lia. rewrite Et.
    rewrite lookup_app_r by lia. rewrite L1, Nat.sub_diag. reflexivity. }
  exists row, w1, w2. subst data. auto.
Qed.

(** Within the range of [datetime] the loop runs to its end. *)
Theorem rows_loop_ok (n : nat) np ap nullp (w : World G) :
  gen w = init -> (Z.of_nat n <= MAX_MINUTES)%Z ->
  exists rows w',
    rows_loop (Z.of_nat n) np ap nullp w = (inr rows, w') /\ frame w w'.
Proof.
  intros Hg. induction n as [| n IH]; intros Hn.
  - exists [], w. split; [reflexivity | apply frame_refl].
  - destruct IH as (data & w1 & E1 & F1); [lia|].
    rewrite rows_loop_succ. run_ok E1.
    pose proof (generate_row_spec (Z.of_nat n) np ap nullp w1
                  (frame_gen _ _ _ F1 Hg)) as Sr.
    destruct (plus_minutes_spec (Z.of_nat n) ltac:(lia)) as (dt & Ed & _).
    rewrite Ed in Sr. destruct Sr as (row & w2 & Er & F2 & _).
    run_ok Er. eexists _, w2. split; [reflexivity|].
    eauto using frame_trans.
Qed.

(** Every row the loop has produced has the shape of its index. *)
Theorem rows_loop_rows (n : nat) np ap nullp (w w' : World G) rows :
  gen w = init ->
  rows_loop (Z.of_nat n) np ap nullp w = (inr rows, w') ->
  forall i row, rows !! i = Some row -> row_ok (Z.of_nat i) np ap nullp row.
Proof.
  intros Hg E i row Hi.
  assert (Hlt : (i < n)%nat).
  { rewrite <- (rows_loop_length _ _ _ _ _ _ _ E).
    apply lookup_lt_Some in Hi. assumption. }
  destruct (rows_loop_trace _ _ _ _ _ _ _ E i Hlt)
    as (row' & w_i & w_i' & Ei & Er & Hi').
  assert (row' = row) by congruence. subst row'.
  assert (Hgi : gen w_i = init).
  { pose proof (rows_loop_keeps gen (Z.of_nat i) np ap nullp rng_free_gen w)
      as K. rewrite Ei in K. cbn [snd] in K. congruence. }
  pose proof (generate_row_spec (Z.of_nat i) np ap nullp w_i Hgi) as Sr.
  destruct (plus_minutes start (Z.of_nat i)) as [e | dt].
  - rewrite Sr in Er. discriminate.
  - destruct Sr as (r2 & w2 & Er2 & _ & Ok). congruence.
Qed.

(** Past the year 9999 the loop stops with an overflow. *)
Theorem rows_loop_overflow (n : nat) np ap nullp (w : World G) :
  gen w = init -> (MAX_MINUTES < Z.of_nat n)%Z ->
  exists w',
    rows_loop (Z.of_nat n) np ap nullp w
    = (inl (OverflowError "date value out of range"), w').
Proof.
  intros Hg. induction n as [| n IH]; intros Hn.
  - exfalso. unfold MAX_MINUTES in Hn. lia.
  - rewrite rows_loop_succ.
    destruct (Z.eq_dec (Z.of_nat n) MAX_MINUTES) as [En | Hne].
    + destruct (rows_loop_ok n np ap nullp w Hg ltac:(lia))
        as (data & w1 & E1 & F1).
      run_ok E1.
      pose proof (generate_row_spec (Z.of_nat n) np ap nullp w1
                    (frame_gen _ _ _ F1 Hg)) as Sr.
      rewrite En, plus_minutes_overflow in Sr. rewrite En.
      run_err Sr. eauto.
    + destruct IH as (w' & E); [lia|]. run_err E. eauto.
Qed.

End Loop.
End DatasetFacts.

(** ** The frame of a generated dataset *)
Module CellFacts.
Import Float FloatFacts UniformFacts.
Import Datetime Timestamp DatetimeFacts Pandas Spec Generator.
Import ProgramFacts FrameFacts DatasetFacts.

Lemma row_ok_keys i np ap nullp row :
  row_ok i np ap nullp row -> dict_keys row = KEYS.
Proof. intros []. reflexivity. Qed.

Lemma union_keys_fixed (data : list dict) acc :
  Forall (fun d => dict_keys d = KEYS) data ->
  acc = KEYS \/ (acc = [] /\ data <> []) ->
  fold_left (fun acc d =>
    fold_left (fun acc k => if mem k acc then acc else acc ++ [k])
              (dict_keys d) acc) data acc = KEYS.
Proof.
  intros Hall. revert acc.
  induction Hall as [| d data Hd Hall IH]; intros acc Hacc.
  - destruct Hacc as [-> | [_ C]]; [reflexivity | congruence].
  - cbn [fold_left]. rewrite Hd. apply IH. left.
    destruct Hacc as [-> | [-> _]]; reflexivity.
Qed.

Lemma row_values (d : dict) :
  dict_keys d = KEYS ->
  map (fun c => default nan (dict_get c d)) KEYS = map snd d.
Proof.
  unfold dict_keys, KEYS. intros E.
  destruct d as [| [k1 v1] [| [k2 v2] [| [k3 v3] [| [k4 v4] [| [k5 v5] [| ? ?]]]]]];
    try discriminate.
  cbn in E. injection E as -> -> -> -> ->. reflexivity.
Qed.

(** The frame built from rows that all have the five keys. *)
Lemma from_records_rows (data : list dict) :
  Forall (fun d => dict_keys d = KEYS) data ->
  from_records data
  = {| columns := match data with [] => [] | _ => KEYS end;
       rows := map (map snd) data |}.
Proof.
  intros Hall. unfold from_records, union_keys.
  destruct data as [| d data].
  - reflexivity.
  - rewrite (union_keys_fixed (d :: data) []); [| assumption | right; split; congruence].
    f_equal. apply map_ext_in. intros r Hr.
    apply row_values. rewrite Forall_forall in Hall. apply Hall.
    apply list_elem_of_In. assumption.
Qed.

Lemma cell_of_row (data : list dict) i row col :
  Forall (fun d => dict_keys d = KEYS) data ->
  data !! i = Some row -> In col KEYS ->
  cell (from_records data) (Z.of_nat i) col = dict_get col row.
Proof.
  intros Hall Hi Hc. rewrite from_records_rows by assumption.
  assert (Hk : dict_keys row = KEYS).
  { rewrite Forall_forall in Hall. apply Hall.
    apply list_elem_of_lookup. eauto. }
  unfold cell. cbn [columns rows].
  destruct (Z.ltb_spec (Z.of_nat i) 0) as [C | _]; [lia|].
  rewrite Nat2Z.id, list_lookup_fmap, Hi. cbn [fmap option_fmap option_map].
  destruct data as [| d data]; [discriminate|].
  unfold dict_keys, KEYS in Hk.
  destruct row as [| [k1 v1] [| [k2 v2] [| [k3 v3] [| [k4 v4] [| [k5 v5] [| ? ?]]]]]];
    try discriminate.
  cbn in Hk. injection Hk as -> -> -> -> ->.
  destruct Hc as [<- | [<- | [<- | [<- | [<- | []]]]]]; reflexivity.
Qed.

Lemma cell_inv df i col v :
  cell df i col = Some v ->
  (0 <= i < len df)%Z /\ In col (columns df).
Proof.
  unfold cell, len. intros E.
  destruct (position col (columns df)) as [j |] eqn:Ep; [| discriminate].
  destruct (Z.ltb_spec i 0) as [C | Hi]; [discriminate|].
  destruct (rows df !! Z.to_nat i) as [r |] eqn:Er; [| discriminate].
  apply lookup_lt_Some in Er. split; [lia|].
  clear -Ep. revert j Ep. induction (columns df) as [| k ks IH]; intros j Ep.
  - discriminate.
  - cbn [position] in Ep. destruct (String.eqb_spec col k) as [-> | Hne].
    + left. reflexivity.
    + right. destruct (position col ks) as [j' |]; [| discriminate]. eauto.
Qed.

Section Dataset.
Context {G : Type} `{MersenneTwister G}.

Lemma rows_loop_Z n np ap nullp :
  rows_loop (G := G) n np ap nullp
  = rows_loop (Z.of_nat (Z.to_nat n)) np ap nullp.
Proof. unfold rows_loop, range. rewrite Nat2Z.id. reflexivity. Qed.

(** What [generate_dataset] returns in terms of its loop. *)
Lemma generate_dataset_inv n np ap nullp (w w' : World G) r :
  generate_dataset n np ap nullp w = (inr r, w') ->
  exists data w1,
    rows_loop n np ap nullp w = (inr data, w1)
    /\ r = length (frames w1)
    /\ frames w' = frames w1 ++ [from_records data]
    /\ gen w' = gen w1 /\ rng w' = rng w1
    /\ files w' = files w1 /\ stdout w' = stdout w1.
Proof.
  change (generate_dataset n np ap nullp)
    with (data <- rows_loop n np ap nullp ;; alloc_frame (from_records data)).
  unfold bind.
  destruct (rows_loop n np ap nullp w) as [[e | data] w1]; [discriminate|].
  unfold alloc_frame. intros E. injection E as <- <-.
  exists data, w1. repeat split.
Qed.

(** The rows of a generated dataset, read through [cell]. *)
Theorem dataset_rows n np ap nullp (w w' : World G) r df :
  gen w = init ->
  generate_dataset n np ap nullp w = (inr r, w') ->
  frames w' !! r = Some df ->
  len df = Z.max 0 n
  /\ forall i, (0 <= i < len df)%Z ->
       exists row,
         row_ok i np ap nullp row
         /\ columns df = map fst row
         /\ rows df !! Z.to_nat i = Some (map snd row)
         /\ forall col, In col KEYS -> cell df i col = dict_get col row.
Proof.
  intros Hg E Hdf.
  apply generate_dataset_inv in E.
  destruct E as (data & w1 & El & -> & Ef & _).
  rewrite Ef, lookup_app_r, Nat.sub_diag in Hdf by lia.
  cbn in Hdf. injection Hdf as <-.
  rewrite rows_loop_Z in El.
  pose proof (rows_loop_length _ _ _ _ _ _ _ El) as L.
  pose proof (rows_loop_rows _ _ _ _ _ _ _ Hg El) as Hrows.
  assert (Hall : Forall (fun d => dict_keys d = KEYS) data).
  { rewrite Forall_forall. intros d Hd.
    apply list_elem_of_lookup in Hd. destruct Hd as (i & Hi).
    eapply row_ok_keys, Hrows, Hi. }
  assert (Hlen : len (from_records data) = Z.max 0 n).
  { rewrite from_records_rows by assumption. unfold len. cbn [rows].
    rewrite length_map, L. lia. }
  split; [assumption|].
  intros i Hi. rewrite Hlen in Hi.
  destruct (lookup_lt_is_Some_2 data (Z.to_nat i) ltac:(lia)) as (row & Hr).
  exists row.
  pose proof (Hrows _ _ Hr) as Ok. rewrite Z2Nat.id in Ok by lia.
  split; [assumption|]. split; [| split].
  - rewrite from_records_rows by assumption. cbn [columns].
    destruct data; [discriminate|].
    symmetry. apply (row_ok_keys _ _ _ _ _ Ok).
  - rewrite from_records_rows by assumption. cbn [rows].
    rewrite list_lookup_fmap, Hr. reflexivity.
  - intros col Hc. rewrite <- (Z2Nat.id i) at 1 by lia.
    apply cell_of_row; assumption.
Qed.

Lemma rows_loop_keys (n : nat) np ap nullp (w w' : World G) data :
  gen w = init ->
  rows_loop (Z.of_nat n) np ap nullp w = (inr data, w') ->
  Forall (fun d => dict_keys d = KEYS) data.
Proof.
  intros Hg El. rewrite Forall_forall. intros d Hd.
  apply list_elem_of_lookup in Hd. destruct Hd as (i & Hi).
  eapply row_ok_keys, (rows_loop_rows _ _ _ _ _ _ _ Hg El), Hi.
Qed.

(** A run of [generate_dataset] that stays below the end of the calendar:
    the rows come out of the loop and the frame is stored after the
    existing ones. *)
Lemma generate_dataset_run n np ap nullp (w : World G) :
  gen w = init -> (n <= MAX_ROWS)%Z ->
  exists data w1,
    rows_loop (Z.of_nat (Z.to_nat n)) np ap nullp w = (inr data, w1)
    /\ frame w w1
    /\ Forall (fun d => dict_keys d = KEYS) data
    /\ length data = Z.to_nat n
    /\ generate_dataset n np ap nullp w
       = (inr (length (frames w)),
          {| gen := gen w1; rng := rng w1;
             frames := frames w ++ [from_records data];
             files := files w1; stdout := stdout w1 |}).
Proof.
  intros Hg Hn.
  destruct (rows_loop_ok (Z.to_nat n) np ap nullp w Hg)
    as (data & w1 & El & F1).
  { unfold MAX_ROWS, MAX_MINUTES in *. lia. }
  exists data, w1. split; [exact El|]. split; [exact F1|].
  split; [eapply rows_loop_keys; eassumption|].
  split; [eapply rows_loop_length; eassumption|].
  change (generate_dataset n np ap nullp)
    with (data <- rows_loop n np ap nullp ;;
          alloc_frame (from_records data)).
  rewrite rows_loop_Z. run_ok El. unfold alloc_frame.
  destruct F1 as (_ & -> & _). reflexivity.
Qed.

End Dataset.
End CellFacts.


(** ** The properties of the specification *)
Module Claims.
Import Float FloatFacts UniformFacts.
Import Datetime Timestamp DatetimeFacts Pandas Spec Generator.
Import ProgramFacts FrameFacts DatasetFacts CellFacts.

Lemma draw_below_one p b :
  PyNum.eqb p (Int 1) = true -> draw_below p b -> b = true.
Proof.
  unfold PyNum.eqb, draw_below, PyNum.lt. cbn [PyNum.exact].
  intros E (q & Q0 & Q1 & <-).
  destruct (PyNum.exact p) as [a | |]; cbn [feq] in E; try discriminate.
  cbn [flt]. apply Qeq_bool_iff in E.
  apply negb_true_iff, not_true_is_false. intros C.
  apply Qle_bool_iff in C. change (inject_Z 1) with 1%Q in E. lra.
Qed.

Lemma draw_below_zero p b :
  PyNum.eqb p (Int 0) = true -> draw_below p b -> b = false.
Proof.
  unfold PyNum.eqb, draw_below, PyNum.lt. cbn [PyNum.exact].
  intros E (q & Q0 & Q1 & <-).
  destruct (PyNum.exact p) as [a | |]; cbn [feq] in E; try discriminate.
  cbn [flt]. apply Qeq_bool_iff in E.
  apply negb_false_iff. apply Qle_bool_iff.
  change (inject_Z 0) with 0%Q in E. lra.
Qed.

Lemma sensor_value_inv s p nullp x :
  sensor_cell s p nullp (VNum x) ->
  exists b m lo hi,
    x = decimal_float m (digits s)
    /\ draw_below nullp false /\ draw_below p (is_normal b)
    /\ band_bounds s b = Some (lo, hi) /\ (lo <= m <= hi)%Z.
Proof.
  intros C. inversion C; subst. eauto 10.
Qed.

Lemma band_forall_spec P s b lo hi m :
  band_forall P s b = true -> band_bounds s b = Some (lo, hi) ->
  (lo <= m <= hi)%Z -> P (decimal_float m (digits s)) = true.
Proof.
  unfold band_forall. intros C E Hm. rewrite E in C.
  apply (Zrange_forall_spec _ _ _ C m Hm).
Qed.

Lemma num_beq_eq x y : num_beq x y = true -> x = y.
Proof.
  destruct x as [a | [[a1 a2] | |]], y as [b | [[b1 b2] | |]];
    cbn; intros E; try discriminate.
  - apply Z.eqb_eq in E. congruence.
  - apply andb_prop in E. destruct E as [E1 E2].
    apply Z.eqb_eq in E1. apply Pos.eqb_eq in E2. congruence.
Qed.

Ltac in_list := cbn; repeat (first [left; reflexivity | right]).

Section Dataset.
Context {G : Type} `{MersenneTwister G}.

(** A generated dataset cannot have more than [MAX_ROWS] rows. *)
Lemma generated_bound n np ap nullp (w w' : World G) r :
  gen w = init ->
  generate_dataset n np ap nullp w = (inr r, w') -> (n <= MAX_ROWS)%Z.
Proof.
  intros Hg E. apply generate_dataset_inv in E.
  destruct E as (data & w1 & El & _).
  destruct (Z.le_gt_cases n MAX_ROWS) as [Hle | Hgt]; [assumption|].
  exfalso. rewrite rows_loop_Z in El.
  destruct (rows_loop_overflow (Z.to_nat n) np ap nullp w Hg) as (w2 & E2).
  - unfold MAX_ROWS, MAX_MINUTES in *. lia.
  - congruence.
Qed.

(** The sensor cells of a generated dataset. *)
Lemma dataset_sensor_cell n np ap nullp (w w' : World G) r df :
  gen w = init ->
  generate_dataset n np ap nullp w = (inr r, w') ->
  frames w' !! r = Some df ->
  forall i, (0 <= i < len df)%Z ->
  exists lbl,
    cell df i "label" = Some (VStr (label_of lbl))
    /\ forall s, In s sensors ->
         exists v, cell df i s = Some v
           /\ sensor_cell s (if lbl then np else ap) nullp v.
Proof.
  intros Hg E Hdf i Hi.
  destruct (dataset_rows _ _ _ _ _ _ _ _ Hg E Hdf) as (_ & Hrows).
  destruct (Hrows i Hi) as (row & Ok & _ & _ & Hc).
  destruct Ok as [dt lbl c1 c2 c3 Hdt Hl C1 C2 C3].
  exists lbl. split.
  - rewrite Hc by in_list. reflexivity.
  - intros s [<- | [<- | [<- | []]]];
      (rewrite Hc by in_list); eexists;
      (split; [reflexivity | assumption]).
Qed.

Lemma label_of_inj a b : label_of a = label_of b -> a = b.
Proof. destruct a, b; cbn; congruence. Qed.


(** C1 (as amended). For every [num_rows] from 0 up to [MAX_ROWS] and any
    probability arguments, [generate_dataset] returns a dataset whose length
    is exactly [num_rows]; the row at position [i] is the row
    [generate_row i] returned in the state reached after the rows before it,
    and the columns are the keys of the rows. *)
Theorem generate_dataset_rows_in_order
    (num_rows : Z) (np ap nullp : num) (w : World G) :
  gen w = init -> (0 <= num_rows <= MAX_ROWS)%Z ->
  exists r w' df,
    generate_dataset num_rows np ap nullp w = (inr r, w')
    /\ frames w' !! r = Some df
    /\ len df = num_rows
    /\ forall i, (0 <= i < num_rows)%Z ->
         exists earlier w_i row w_i',
           rows_loop i np ap nullp w = (inr earlier, w_i)
           /\ length earlier = Z.to_nat i
           /\ generate_row i np ap nullp w_i = (inr row, w_i')
           /\ rows df !! Z.to_nat i = Some (map snd row)
           /\ columns df = map fst row.
Proof.
  intros Hg Hn.
  destruct (rows_loop_ok (Z.to_nat num_rows) np ap nullp w Hg)
    as (data & w1 & El & F1).
  { unfold MAX_ROWS, MAX_MINUTES in *. lia. }
  pose proof (rows_loop_length _ _ _ _ _ _ _ El) as L.
  pose proof (rows_loop_rows _ _ _ _ _ _ _ Hg El) as Hrows.
  assert (Hall : Forall (fun d => dict_keys d = KEYS) data).
  { rewrite Forall_forall. intros d Hd.
    apply list_elem_of_lookup in Hd. destruct Hd as (i & Hi).
    eapply row_ok_keys, Hrows, Hi. }
  change (generate_dataset num_rows np ap nullp)
    with (data <- rows_loop num_rows np ap nullp ;;
          alloc_frame (from_records data)).
  rewrite rows_loop_Z. run_ok El. unfold alloc_frame.
  eexists _, _, (from_records data). split; [reflexivity|].
  cbn [frames]. split.
  { rewrite lookup_app_r, Nat.sub_diag by lia. reflexivity. }
  rewrite from_records_rows by assumption. cbn [columns rows]. split.
  { unfold len. cbn [rows]. rewrite length_map, L. lia. }
  intros i Hi.
  destruct (rows_loop_trace _ _ _ _ _ _ _ El (Z.to_nat i) ltac:(lia))
    as (row & w_i & w_i' & Ei & Er & Hr).
  rewrite Z2Nat.id in Ei, Er by lia.
  exists (take (Z.to_nat i) data), w_i, row, w_i'.
  split; [assumption|]. split; [rewrite length_take; lia|].
  split; [assumption|]. split.
  - rewrite list_lookup_fmap, Hr. reflexivity.
  - destruct data; [discriminate|]. symmetry.
    rewrite Forall_forall in Hall. apply (Hall row).
    apply list_elem_of_lookup. eauto.
Qed.

(** C2. In every generated dataset the timestamp of the row at index [i]
    denotes the instant 2024-06-03 19:00:00 plus [i] minutes; hence the
    timestamps of two consecutive rows are exactly 60 seconds apart and
    increase strictly. *)
Theorem timestamps_one_minute_apart
    (num_rows : Z) (np ap nullp : num) (w w' : World G) (r : nat)
    (df : DataFrame) :
  gen w = init ->
  generate_dataset num_rows np ap nullp w = (inr r, w') ->
  frames w' !! r = Some df ->
  exists epoch,
    seconds_of "2024-06-03 19:00:00" = Some epoch
    /\ (forall i, (0 <= i < len df)%Z ->
          exists ts, cell df i "timestamp" = Some (VStr ts)
            /\ seconds_of ts = Some (epoch + 60 * i)%Z)
    /\ (forall i, (0 <= i)%Z -> (i + 1 < len df)%Z ->
          exists t1 t2 s1 s2,
            cell df i "timestamp" = Some (VStr t1)
            /\ cell df (i + 1) "timestamp" = Some (VStr t2)
            /\ seconds_of t1 = Some s1 /\ seconds_of t2 = Some s2
            /\ (s2 - s1 = 60)%Z /\ (s1 < s2)%Z).
Proof.
  intros Hg E Hdf. exists EPOCH. split; [vm_compute; reflexivity|].
  pose proof (generated_bound _ _ _ _ _ _ _ Hg E) as Hb.
  destruct (dataset_rows _ _ _ _ _ _ _ _ Hg E Hdf) as (Hlen & Hrows).
  assert (Hts : forall i, (0 <= i < len df)%Z ->
            exists ts, cell df i "timestamp" = Some (VStr ts)
              /\ seconds_of ts = Some (EPOCH + 60 * i)%Z).
  { intros i Hi. destruct (Hrows i Hi) as (row & Ok & _ & _ & Hc).
    destruct Ok as [dt lbl c1 c2 c3 Hdt _ _ _ _].
    exists (strftime dt). split.
    - rewrite Hc by in_list. reflexivity.
    - destruct (plus_minutes_spec i) as (dt' & Ed & Es & Ep).
      { unfold MAX_ROWS, MAX_MINUTES in *. lia. }
      assert (dt' = dt) by congruence. subst dt'.
      unfold seconds_of. rewrite Ep, Es. reflexivity. }
  split; [assumption|].
  intros i Hi0 Hi1.
  destruct (Hts i ltac:(lia)) as (t1 & C1 & S1).
  destruct (Hts (i + 1)%Z ltac:(lia)) as (t2 & C2 & S2).
  exists t1, t2, (EPOCH + 60 * i)%Z, (EPOCH + 60 * (i + 1))%Z.
  repeat split; try assumption; lia.
Qed.

Lemma normal_band_checked :
  forallb (fun s => band_forall (in_normal s) s Normal) sensors = true.
Proof. vm_compute. reflexivity. Qed.

Lemma abnormal_bands_checked :
  forallb (fun s => band_forall (in_abnormal s) s High
                    && band_forall (in_abnormal s) s Low) sensors = true.
Proof. vm_compute. reflexivity. Qed.

(** C3. If [normal_prob] is 1 and a row of a generated dataset is labelled
    normal, every sensor value present in that row lies, after rounding,
    within the normal range of its sensor (both ends included). *)
Theorem normal_rows_stay_in_normal_range
    (num_rows : Z) (np ap nullp : num) (w w' : World G) (r : nat)
    (df : DataFrame) :
  gen w = init ->
  generate_dataset num_rows np ap nullp w = (inr r, w') ->
  frames w' !! r = Some df ->
  PyNum.eqb np (Int 1) = true ->
  forall i s p x,
    cell df i "label" = Some (VStr "normal") ->
    In s sensors -> sensor_params init !! s = Some p ->
    cell df i s = Some (VNum x) ->
    within x (normal_range p) = true.
Proof.
  intros Hg E Hdf Hnp i s p x Hl Hs Hp Hx.
  destruct (cell_inv _ _ _ _ Hx) as (Hi & _).
  destruct (dataset_sensor_cell _ _ _ _ _ _ _ _ Hg E Hdf i Hi)
    as (lbl & Hlbl & Hcells).
  assert (lbl = true).
  { apply label_of_inj. cbn [label_of]. congruence. }
  subst lbl.
  destruct (Hcells s Hs) as (v & Hv & Hc).
  assert (v = VNum x) by congruence. subst v.
  apply sensor_value_inv in Hc.
  destruct Hc as (b & m & lo & hi & -> & _ & Db & Hb & Hm).
  apply (draw_below_one _ _ Hnp) in Db.
  destruct b; try discriminate.
  pose proof normal_band_checked as C. rewrite forallb_forall in C.
  specialize (C s Hs).
  pose proof (band_forall_spec _ _ _ _ _ _ C Hb Hm) as P.
  unfold in_normal in P. rewrite Hp in P. assumption.
Qed.

(** C4. If [abnormal_prob] is 0 and a row of a generated dataset is
    labelled abnormal, every sensor value present in that row lies, after
    rounding, within the abnormal-high or the abnormal-low range of its
    sensor, and not within the normal range. *)
Theorem abnormal_rows_stay_out_of_normal_range
    (num_rows : Z) (np ap nullp : num) (w w' : World G) (r : nat)
    (df : DataFrame) :
  gen w = init ->
  generate_dataset num_rows np ap nullp w = (inr r, w') ->
  frames w' !! r = Some df ->
  PyNum.eqb ap (Int 0) = true ->
  forall i s p x,
    cell df i "label" = Some (VStr "abnormal") ->
    In s sensors -> sensor_params init !! s = Some p ->
    cell df i s = Some (VNum x) ->
    within x (abnormal_high p) || within x (abnormal_low p) = true
    /\ within x (normal_range p) = false.
Proof.
  intros Hg E Hdf Hap i s p x Hl Hs Hp Hx.
  destruct (cell_inv _ _ _ _ Hx) as (Hi & _).
  destruct (dataset_sensor_cell _ _ _ _ _ _ _ _ Hg E Hdf i Hi)
    as (lbl & Hlbl & Hcells).
  assert (lbl = false).
  { apply label_of_inj. cbn [label_of]. congruence. }
  subst lbl.
  destruct (Hcells s Hs) as (v & Hv & Hc).
  assert (v = VNum x) by congruence. subst v.
  apply sensor_value_inv in Hc.
  destruct Hc as (b & m & lo & hi & -> & _ & Db & Hb & Hm).
  apply (draw_below_zero _ _ Hap) in Db.
  pose proof abnormal_bands_checked as C. rewrite forallb_forall in C.
  specialize (C s Hs). apply andb_prop in C. destruct C as [Ch Cl].
  assert (P : in_abnormal s (decimal_float m (digits s)) = true).
  { destruct b; try discriminate.
    - apply (band_forall_spec _ _ _ _ _ _ Ch Hb Hm).
    - apply (band_forall_spec _ _ _ _ _ _ Cl Hb Hm). }
  unfold in_abnormal in P. rewrite Hp in P.
  apply andb_prop in P. destruct P as [P1 P2].
  split; [assumption | apply negb_true_iff; assumption].
Qed.

(** C5. In a generated dataset, if [null_prob] is 0 no sensor field is
    missing (every one holds a number), and if [null_prob] is 1 every
    sensor field is missing (it holds the empty string). *)
Theorem null_prob_extremes
    (num_rows : Z) (np ap nullp : num) (w w' : World G) (r : nat)
    (df : DataFrame) :
  gen w = init ->
  generate_dataset num_rows np ap nullp w = (inr r, w') ->
  frames w' !! r = Some df ->
  (PyNum.eqb nullp (Int 0) = true ->
   forall i s, (0 <= i < len df)%Z -> In s sensors ->
     exists x, cell df i s = Some (VNum x))
  /\ (PyNum.eqb nullp (Int 1) = true ->
      forall i s, (0 <= i < len df)%Z -> In s sensors ->
        cell df i s = Some (VStr "")).
Proof.
  intros Hg E Hdf. split; intros Hp i s Hi Hs;
    destruct (dataset_sensor_cell _ _ _ _ _ _ _ _ Hg E Hdf i Hi)
      as (lbl & _ & Hcells);
    destruct (Hcells s Hs) as (v & Hv & Hc); rewrite Hv;
    destruct Hc as [Dn | b m lo hi Dn _ _ _].
  - apply (draw_below_zero _ _ Hp) in Dn. discriminate.
  - eauto.
  - reflexivity.
  - apply (draw_below_one _ _ Hp) in Dn. discriminate.
Qed.

Lemma bands_rounded :
  forallb (fun s => band_forall (is_rounded s) s Normal
                    && band_forall (is_rounded s) s High
                    && band_forall (is_rounded s) s Low) sensors = true.
Proof. vm_compute. reflexivity. Qed.

(** C6. Every sensor value present in a generated dataset is rounded to
    the precision of its sensor: it is the float nearest to a decimal with
    at most 1 (temp), 2 (pressure) or 3 (vibration) fractional digits, and
    rounding it again to that precision gives the same value. *)
Theorem sensor_values_rounded
    (num_rows : Z) (np ap nullp : num) (w w' : World G) (r : nat)
    (df : DataFrame) :
  gen w = init ->
  generate_dataset num_rows np ap nullp w = (inr r, w') ->
  frames w' !! r = Some df ->
  forall i s d x,
    In (s, d) [("temp", 1%Z); ("pressure", 2%Z); ("vibration", 3%Z)] ->
    cell df i s = Some (VNum x) ->
    (exists m : Z, x = Float (of_Q (inject_Z m / 10 ^ d)))
    /\ PyNum.round x d = inr x.
Proof.
  intros Hg E Hdf i s d x Hsd Hx.
  assert (Hs : In s sensors /\ digits s = d).
  { destruct Hsd as [[= <- <-] | [[= <- <-] | [[= <- <-] | []]]];
      split; try reflexivity; in_list. }
  destruct Hs as [Hs Hd].
  destruct (cell_inv _ _ _ _ Hx) as (Hi & _).
  destruct (dataset_sensor_cell _ _ _ _ _ _ _ _ Hg E Hdf i Hi)
    as (lbl & _ & Hcells).
  destruct (Hcells s Hs) as (v & Hv & Hc).
  assert (v = VNum x) by congruence. subst v.
  apply sensor_value_inv in Hc.
  destruct Hc as (b & m & lo & hi & -> & _ & _ & Hb & Hm).
  pose proof bands_rounded as C. rewrite forallb_forall in C.
  specialize (C s Hs). apply andb_prop in C. destruct C as [C Cl].
  apply andb_prop in C. destruct C as [Cn Ch].
  assert (P : is_rounded s (decimal_float m (digits s)) = true).
  { destruct b.
    - apply (band_forall_spec _ _ _ _ _ _ Cn Hb Hm).
    - apply (band_forall_spec _ _ _ _ _ _ Ch Hb Hm).
    - apply (band_forall_spec _ _ _ _ _ _ Cl Hb Hm). }
  unfold is_rounded in P. rewrite Hd in *. split.
  - exists m. unfold decimal_float. f_equal. apply of_Q_proper.
    unfold Qdiv. rewrite Qpower_opp. reflexivity.
  - destruct (PyNum.round _ d) as [e | y]; [discriminate|].
    apply num_beq_eq in P. congruence.
Qed.

(** Past [MAX_ROWS] the generation stops with an overflow of the date. *)
Lemma generate_dataset_overflow n np ap nullp (w : World G) :
  gen w = init -> (MAX_ROWS < n)%Z ->
  fst (generate_dataset n np ap nullp w)
  = inl (OverflowError "date value out of range").
Proof.
  intros Hg Hn.
  change (generate_dataset n np ap nullp)
    with (data <- rows_loop n np ap nullp ;;
          alloc_frame (from_records data)).
  rewrite rows_loop_Z.
  destruct (rows_loop_overflow (Z.to_nat n) np ap nullp w Hg) as (w' & E).
  { unfold MAX_ROWS, MAX_MINUTES in *. lia. }
  run_err E. reflexivity.
Qed.

(** C7 (as amended). For any probability arguments, inside or outside
    [0, 1], infinite or NaN, and any [num_rows] from 0 up to [MAX_ROWS],
    [generate_dataset] returns without raising. *)
Theorem generate_dataset_completes
    (num_rows : Z) (np ap nullp : num) (w : World G) :
  gen w = init -> (0 <= num_rows <= MAX_ROWS)%Z ->
  exists r w', generate_dataset num_rows np ap nullp w = (inr r, w').
Proof.
  intros Hg Hn.
  destruct (rows_loop_ok (Z.to_nat num_rows) np ap nullp w Hg)
    as (data & w1 & El & F1).
  { unfold MAX_ROWS, MAX_MINUTES in *. lia. }
  change (generate_dataset num_rows np ap nullp)
    with (data <- rows_loop num_rows np ap nullp ;;
          alloc_frame (from_records data)).
  rewrite rows_loop_Z. run_ok El. unfold alloc_frame. eauto.
Qed.

(** C10. For every negative [num_rows], [generate_dataset] does not raise
    and draws nothing: it returns a new, empty dataset, of length 0. *)
Theorem negative_num_rows_give_empty_dataset
    (num_rows : Z) (np ap nullp : num) (w : World G) :
  (num_rows < 0)%Z ->
  exists r w' df,
    generate_dataset num_rows np ap nullp w = (inr r, w')
    /\ frames w' !! r = Some df
    /\ len df = 0%Z /\ rows df = [] /\ columns df = []
    /\ rng w' = rng w.
Proof.
  intros Hn. unfold generate_dataset.
  rewrite range_nonpos by lia. cbn [foldM].
  eexists _, _, (from_records []). split; [reflexivity|]. cbn [frames rng].
  split; [| repeat split; reflexivity].
  rewrite lookup_app_r, Nat.sub_diag by lia. reflexivity.
Qed.

End Dataset.

Section Main.
Context {G : Type} `{MersenneTwister G} `{FloatRepr}.

(** C9. No operation changes the generator object (its sensor table and
    its start time): [generate_sensor_value], [generate_row],
    [generate_dataset] and [print_statistics] leave it as it was, whether
    they return or raise, and after [main] it is still as constructed.
    [print_statistics] changes no frame: the dataset it was given is the
    same after the call. *)
Theorem generator_and_dataset_unchanged :
  (forall s lbl np ap (w : World G),
      gen (snd (generate_sensor_value s lbl np ap w)) = gen w)
  /\ (forall i np ap nullp (w : World G),
        gen (snd (generate_row i np ap nullp w)) = gen w)
  /\ (forall n np ap nullp (w : World G),
        gen (snd (generate_dataset n np ap nullp w)) = gen w)
  /\ (forall df np ap nullp (w : World G),
        gen (snd (print_statistics df np ap nullp w)) = gen w)
  /\ (forall args (w : World G), gen (snd (main args w)) = init)
  /\ (forall df np ap nullp (w : World G),
        frames (snd (print_statistics df np ap nullp w)) = frames w).
Proof.
  repeat split; intros.
  - apply generate_sensor_value_keeps, rng_free_gen.
  - apply generate_row_keeps, rng_free_gen.
  - apply generate_dataset_keeps_gen.
  - apply print_statistics_keeps. intros. apply print_keeps_gen.
  - apply main_keeps_gen.
  - apply print_statistics_keeps. intros. apply print_keeps_frames.
Qed.

Ltac step_with tac :=
  erewrite run_bind_ok by tac; cbn [gen rng frames files stdout].

(** C8, at the input where it fails. With [num_rows = 0] the frame has no
    columns: the file [main] writes holds a single empty line instead of
    the header row, and [print_statistics] then raises [KeyError] on the
    missing column [label]. *)
Theorem main_zero_rows_writes_no_header
    (out : string) (np ap nullp : num) (w : World G) :
  let res := main {| num_rows := 0; output := out; normal_prob := np;
                     abnormal_prob := ap; null_prob := nullp |} w in
  fst res = inl (KeyError "label")
  /\ files (snd res) !! out = Some Csv.newline.
Proof.
  cbv zeta. unfold main.
  cbn [num_rows output normal_prob abnormal_prob null_prob].
  assert (Hread : forall (v : World G) d,
             frames v = frames w ++ [d] ->
             read_frame (length (frames w)) v = (inr d, v)).
  { intros v d Ev. unfold read_frame. rewrite Ev.
    rewrite list_lookup_middle by reflexivity. reflexivity. }
  do 3 step_with ltac:(reflexivity).
  step_with ltac:(apply Hread; reflexivity).
  do 2 step_with ltac:(reflexivity).
  unfold print_statistics.
  do 3 step_with ltac:(reflexivity).
  step_with ltac:(apply Hread; reflexivity).
  do 2 step_with ltac:(reflexivity).
  step_with ltac:(apply Hread; reflexivity).
  erewrite run_bind_err by reflexivity.
  cbn [fst snd files]. split; [reflexivity|].
  apply lookup_insert_eq.
Qed.

(** A missing value is written as an empty field. *)
Lemma csv_missing_field (df : DataFrame) i s j :
  position s (columns df) = Some j ->
  cell df i s = Some (VStr "") ->
  exists fields,
    Csv.records df !! S (Z.to_nat i) = Some fields
    /\ fields !! j = Some EmptyString.
Proof.
  unfold cell, Csv.records. intros Ep Ec. rewrite Ep in Ec.
  destruct (i <? 0)%Z; [discriminate|].
  destruct (rows df !! Z.to_nat i) as [r |] eqn:Er; [| discriminate].
  exists (map Csv.cell_text r). split.
  - change ((columns df :: map (map Csv.cell_text) (rows df))
             !! S (Z.to_nat i))
      with (map (map Csv.cell_text) (rows df) !! Z.to_nat i).
    rewrite list_lookup_fmap, Er. reflexivity.
  - rewrite list_lookup_fmap, Ec. reflexivity.
Qed.

(** With at least one row, the text written for a generated dataset starts
    with the header row and has one more line per row. *)
Theorem csv_of_generated_dataset
    (num_rows : Z) (np ap nullp : num) (w w' : World G) (r : nat)
    (df : DataFrame) :
  gen w = init ->
  generate_dataset num_rows np ap nullp w = (inr r, w') ->
  frames w' !! r = Some df ->
  (0 < len df)%Z ->
  exists body,
    Csv.lines df = "timestamp,label,temp,pressure,vibration" :: body
    /\ length body = Z.to_nat num_rows.
Proof.
  intros Hg E Hdf Hpos.
  destruct (dataset_rows _ _ _ _ _ _ _ _ Hg E Hdf) as (Hlen & Hrows).
  destruct (Hrows 0%Z ltac:(lia)) as (row & Ok & Hcols & _).
  rewrite (row_ok_keys _ _ _ _ _ Ok : map fst row = KEYS) in Hcols.
  unfold Csv.lines, Csv.records. rewrite Hcols. cbn [map].
  eexists. split; [reflexivity|].
  rewrite !length_map. unfold len in *. lia.
Qed.

(** [main] writes the text of the generated dataset to the output file,
    whatever happens while the statistics are printed. *)
Theorem main_writes_csv (args : Args) (w : World G) :
  (0 <= num_rows args <= MAX_ROWS)%Z ->
  exists df,
    files (snd (main args w)) !! output args = Some (Csv.text df)
    /\ len df = num_rows args
    /\ (0 < num_rows args ->
        exists body,
          Csv.lines df = "timestamp,label,temp,pressure,vibration" :: body
          /\ length body = Z.to_nat (num_rows args))%Z.
Proof.
  intros Hn. unfold main.
  do 2 step_with ltac:(reflexivity).
  set (w2 := {| gen := init; rng := rng w; frames := frames w;
                files := files w; stdout := _ |}).
  destruct (generate_dataset_run (num_rows args) (normal_prob args)
              (abnormal_prob args) (null_prob args) w2 eq_refl (proj2 Hn))
    as (data0 & w0' & _ & _ & _ & _ & E).
  set (r := length (frames w2)) in E.
  set (w3 := {| gen := gen w0'; rng := _; frames := _; files := _;
                stdout := _ |}) in E.
  clearbody r w3. clear data0 w0'.
  pose proof E as E'. apply generate_dataset_inv in E'.
  destruct E' as (data & w1 & _ & -> & Ef & _).
  assert (Hdf : frames w3 !! length (frames w1) = Some (from_records data)).
  { rewrite Ef. apply list_lookup_middle. reflexivity. }
  destruct (dataset_rows _ _ _ _ w2 _ _ _ eq_refl E Hdf) as (Hlen & _).
  step_with ltac:(exact E).
  assert (Er : read_frame (length (frames w1)) w3
               = (inr (from_records data), w3)).
  { unfold read_frame. rewrite Hdf. reflexivity. }
  step_with ltac:(exact Er).
  do 2 step_with ltac:(reflexivity).
  rewrite (print_statistics_keeps files _ _ _ _ print_keeps_files).
  cbn [files].
  exists (from_records data). split; [apply lookup_insert_eq|].
  split; [lia|]. intros Hpos.
  apply (csv_of_generated_dataset _ _ _ _ w2 w3 _ _ eq_refl E Hdf). lia.
Qed.

End Main.

(** *** The theorems at concrete inputs *)
Import Examples.

Lemma sample_run : generate_dataset 3 (Int 1) (Int 0) (Int 0) (fresh 7)
                   = (inr 0%nat, snd sample).
Proof. vm_compute. reflexivity. Defined.

Lemma sample_frame : frames (snd sample) !! 0%nat = Some sample_df.
Proof. vm_compute. reflexivity. Defined.

Lemma sample_null_run : generate_dataset 3 (Int 1) (Int 0) (Int 1) (fresh 7)
                        = (inr 0%nat, snd sample_null).
Proof. vm_compute. reflexivity. Defined.

Lemma sample_null_frame :
  frames (snd sample_null) !! 0%nat = Some sample_null_df.
Proof. vm_compute. reflexivity. Defined.

Lemma generate_dataset_rows_in_order_witness :
  gen (fresh 7) = init /\ (0 <= 3 <= MAX_ROWS)%Z
  /\ exists r w' df,
       generate_dataset 3 (Int 1) (Int 0) (Int 0) (fresh 7) = (inr r, w')
       /\ frames w' !! r = Some df /\ len df = 3%Z.
Proof.
  assert (Hn : (0 <= 3 <= MAX_ROWS)%Z) by (unfold MAX_ROWS; lia).
  split; [reflexivity|]. split; [exact Hn|].
  destruct (generate_dataset_rows_in_order 3 (Int 1) (Int 0) (Int 0) (fresh 7)
              eq_refl Hn) as (r & w' & df & E & F & L & _).
  exists r, w', df. auto.
Defined.

(** With one row more than [MAX_ROWS] no dataset is returned: the
    timestamp of the last row would lie in the year 10000. *)
Lemma generate_dataset_length_counterexample :
  fst (generate_dataset 4194747661 (PyNum.lit 0.95) (PyNum.lit 0.3)
         (PyNum.lit 0.05) w0)
  = inl (OverflowError "date value out of range").
Proof.
  apply generate_dataset_overflow; [reflexivity | unfold MAX_ROWS; lia].
Qed.

Lemma timestamps_one_minute_apart_witness :
  exists epoch,
    seconds_of "2024-06-03 19:00:00" = Some epoch
    /\ (forall i, (0 <= i < len sample_df)%Z ->
          exists ts, cell sample_df i "timestamp" = Some (VStr ts)
            /\ seconds_of ts = Some (epoch + 60 * i)%Z)
    /\ (forall i, (0 <= i)%Z -> (i + 1 < len sample_df)%Z ->
          exists t1 t2 s1 s2,
            cell sample_df i "timestamp" = Some (VStr t1)
            /\ cell sample_df (i + 1) "timestamp" = Some (VStr t2)
            /\ seconds_of t1 = Some s1 /\ seconds_of t2 = Some s2
            /\ (s2 - s1 = 60)%Z /\ (s1 < s2)%Z).
Proof.
  exact (timestamps_one_minute_apart 3 (Int 1) (Int 0) (Int 0) (fresh 7)
           (snd sample) 0%nat sample_df eq_refl sample_run sample_frame).
Defined.

(** Row 1 of the sample is normal; its pressure is 1.05, the upper end of
    the normal range. *)
Lemma normal_rows_stay_in_normal_range_witness :
  within (PyNum.lit 1.05) (PyNum.lit 1.00, PyNum.lit 1.05) = true.
Proof.
  exact (normal_rows_stay_in_normal_range 3 (Int 1) (Int 0) (Int 0) (fresh 7)
           (snd sample) 0%nat sample_df eq_refl sample_run sample_frame
           eq_refl 1%Z "pressure"
           {| normal_range := (PyNum.lit 1.00, PyNum.lit 1.05);
              abnormal_high := (PyNum.lit 1.08, PyNum.lit 1.15);
              abnormal_low := (PyNum.lit 0.90, PyNum.lit 0.97);
              unit_ := "" |}
           (PyNum.lit 1.05) eq_refl
           (or_intror (or_introl eq_refl)) eq_refl eq_refl).
Defined.

(** Row 2 of the sample is abnormal; its temperature is 53.5. *)
Lemma abnormal_rows_stay_out_of_normal_range_witness :
  within (PyNum.lit 53.5) (Int 52, Int 60)
  || within (PyNum.lit 53.5) (Int 35, Int 43) = true
  /\ within (PyNum.lit 53.5) (Int 45, Int 50) = false.
Proof.
  exact (abnormal_rows_stay_out_of_normal_range 3 (Int 1) (Int 0) (Int 0)
           (fresh 7) (snd sample) 0%nat sample_df eq_refl sample_run
           sample_frame eq_refl 2%Z "temp"
           {| normal_range := (Int 45, Int 50);
              abnormal_high := (Int 52, Int 60);
              abnormal_low := (Int 35, Int 43);
              unit_ := "°C" |}
           (PyNum.lit 53.5) eq_refl (or_introl eq_refl) eq_refl eq_refl).
Defined.

Lemma null_prob_extremes_witness :
  (exists x, cell sample_df 0 "temp" = Some (VNum x))
  /\ cell sample_null_df 2 "vibration" = Some (VStr "").
Proof.
  split.
  - apply (proj1 (null_prob_extremes 3 (Int 1) (Int 0) (Int 0) (fresh 7)
                    (snd sample) 0%nat sample_df eq_refl sample_run
                    sample_frame) eq_refl 0%Z "temp").
    + vm_compute. split; [discriminate | reflexivity].
    + left. reflexivity.
  - apply (proj2 (null_prob_extremes 3 (Int 1) (Int 0) (Int 1) (fresh 7)
                    (snd sample_null) 0%nat sample_null_df eq_refl
                    sample_null_run sample_null_frame) eq_refl 2%Z "vibration").
    + vm_compute. split; [discriminate | reflexivity].
    + right. right. left. reflexivity.
Defined.

(** The vibration of row 0 of the sample is 0.038. *)
Lemma sensor_values_rounded_witness :
  (exists m : Z, PyNum.lit 0.038 = Float (of_Q (inject_Z m / 10 ^ 3)))
  /\ PyNum.round (PyNum.lit 0.038) 3 = inr (PyNum.lit 0.038).
Proof.
  exact (sensor_values_rounded 3 (Int 1) (Int 0) (Int 0) (fresh 7)
           (snd sample) 0%nat sample_df eq_refl sample_run sample_frame
           0%Z "vibration" 3%Z (PyNum.lit 0.038)
           (or_intror (or_intror (or_introl eq_refl))) eq_refl).
Defined.

(** Probabilities that are NaN, infinite or negative are accepted. *)
Lemma generate_dataset_completes_witness :
  gen w0 = init /\ (0 <= 2 <= MAX_ROWS)%Z
  /\ exists r w',
       generate_dataset 2 (Float NaN) (Float (Inf false)) (Int (-7)) w0
       = (inr r, w').
Proof.
  assert (Hn : (0 <= 2 <= MAX_ROWS)%Z) by (unfold MAX_ROWS; lia).
  split; [reflexivity|]. split; [exact Hn|].
  exact (generate_dataset_completes 2 (Float NaN) (Float (Inf false))
           (Int (-7)) w0 eq_refl Hn).
Defined.

(** Five thousand million rows cannot be generated, whatever the
    probabilities. *)
Lemma generate_dataset_completes_counterexample :
  fst (generate_dataset 5000000000 (PyNum.lit 1.5) (PyNum.lit (-0.2))
         (PyNum.lit 2) w0)
  = inl (OverflowError "date value out of range").
Proof.
  apply generate_dataset_overflow; [reflexivity | unfold MAX_ROWS; lia].
Qed.

Lemma negative_num_rows_give_empty_dataset_witness :
  (-5 < 0)%Z
  /\ exists r w' df,
       generate_dataset (-5) (PyNum.lit 0.95) (PyNum.lit 0.3)
         (PyNum.lit 0.05) w0 = (inr r, w')
       /\ frames w' !! r = Some df
       /\ len df = 0%Z /\ rows df = [] /\ columns df = []
       /\ rng w' = rng w0.
Proof.
  assert (Hn : (-5 < 0)%Z) by lia.
  split; [exact Hn|].
  exact (negative_num_rows_give_empty_dataset (-5) (PyNum.lit 0.95)
           (PyNum.lit 0.3) (PyNum.lit 0.05) w0 Hn).
Defined.

End Claims.

(** ** Further properties of the program

    What the code does beyond the properties above: the errors it raises,
    the values out-of-range arguments lead to, what each operation leaves
    untouched, and the shape of what is generated and written. *)

(** *** [generate_sensor_value] *)
Module SensorProps.
Import Float FloatFacts UniformFacts.
Import Datetime Timestamp DatetimeFacts Pandas Spec Generator.
Import ProgramFacts FrameFacts DatasetFacts CellFacts Claims.
Import Examples.

(** A draw of [random()] is below every number from 1 upwards, infinity
    included. *)
Lemma draw_below_high p b :
  PyNum.le (Int 1) p = true -> draw_below p b -> b = true.
Proof.
  unfold PyNum.le, draw_below, PyNum.lt, fle. cbn [PyNum.exact].
  intros E (q & Q0 & Q1 & <-).
  destruct (PyNum.exact p) as [a | [] |]; cbn [flt feq orb] in *;
    try discriminate; try reflexivity.
  apply negb_true_iff, not_true_is_false. intros C.
  apply Qle_bool_iff in C.
  apply orb_prop in E. destruct E as [E | E].
  - apply negb_true_iff in E. apply not_true_iff_false in E.
    apply E. apply Qle_bool_iff. change (inject_Z 1) with 1%Q. lra.
  - apply Qeq_bool_iff in E. change (inject_Z 1) with 1%Q in E. lra.
Qed.

(** A draw is never below a number that is not above 0: zero, a negative
    number, minus infinity or NaN. *)
Lemma draw_below_low p b :
  PyNum.lt (Int 0) p = false -> draw_below p b -> b = false.
Proof.
  unfold draw_below, PyNum.lt. cbn [PyNum.exact].
  intros E (q & Q0 & Q1 & <-).
  destruct (PyNum.exact p) as [a | [] |]; cbn [flt] in *;
    try discriminate; try reflexivity.
  apply negb_false_iff in E. apply Qle_bool_iff in E.
  apply negb_false_iff. apply Qle_bool_iff.
  change (inject_Z 0) with 0%Q in E. lra.
Qed.

Lemma unknown_sensor_lookup s :
  ~ In s sensors -> sensor_params init !! s = None.
Proof.
  intros N. unfold init. cbn [sensor_params].
  rewrite !lookup_insert_ne; [apply lookup_empty | | |];
    intros <-; apply N; cbn; auto.
Qed.

(** Every value a band can produce is a finite float inside the range the
    band was drawn from. *)
Lemma band_value_finite s b m lo hi :
  In s sensors -> band_bounds s b = Some (lo, hi) -> (lo <= m <= hi)%Z ->
  (if is_normal b then in_normal s (decimal_float m (digits s))
   else in_abnormal s (decimal_float m (digits s))) = true
  /\ exists q, decimal_float m (digits s) = Float (Finite q).
Proof.
  intros Hs Hb Hm.
  assert (P : (if is_normal b then in_normal s (decimal_float m (digits s))
               else in_abnormal s (decimal_float m (digits s))) = true).
  { pose proof normal_band_checked as Cn. rewrite forallb_forall in Cn.
    pose proof abnormal_bands_checked as Ca. rewrite forallb_forall in Ca.
    specialize (Cn s Hs). specialize (Ca s Hs).
    apply andb_prop in Ca. destruct Ca as [Ch Cl].
    destruct b; cbn [is_normal].
    - apply (band_forall_spec _ _ _ _ _ _ Cn Hb Hm).
    - apply (band_forall_spec _ _ _ _ _ _ Ch Hb Hm).
    - apply (band_forall_spec _ _ _ _ _ _ Cl Hb Hm). }
  split; [exact P|].
  unfold decimal_float in *.
  destruct (of_Q _) as [q | sg |] eqn:E; [eauto | exfalso | exfalso];
    destruct Hs as [<- | [<- | [<- | []]]]; destruct b; try destruct sg;
      vm_compute in P; discriminate.
Qed.

Lemma in_abnormal_not_normal s x :
  in_abnormal s x = true -> in_normal s x = false.
Proof.
  unfold in_abnormal, in_normal.
  destruct (sensor_params init !! s); [| reflexivity].
  intros E. apply andb_prop in E. destruct E as [_ E].
  apply negb_true_iff in E. exact E.
Qed.

Lemma in_normal_not_abnormal s x :
  in_normal s x = true -> in_abnormal s x = false.
Proof.
  unfold in_abnormal, in_normal.
  destruct (sensor_params init !! s); [| reflexivity].
  intros ->. apply andb_false_r.
Qed.

Section Program.
Context {G : Type} `{MersenneTwister G}.

(** The value of a known sensor, with the band it was drawn from. *)
Lemma sensor_value_band s lbl np ap (w : World G) :
  gen w = init -> In s sensors ->
  exists b q w',
    generate_sensor_value s lbl np ap w = (inr (Float (Finite q)), w')
    /\ frame w w'
    /\ draw_below (if lbl then np else ap) (is_normal b)
    /\ (if is_normal b then in_normal s (Float (Finite q))
        else in_abnormal s (Float (Finite q))) = true.
Proof.
  intros Hg Hs.
  destruct (generate_sensor_value_spec s lbl np ap w Hg Hs)
    as (b & m & lo & hi & w' & E & F & D & Hb & Hm).
  destruct (band_value_finite s b m lo hi Hs Hb Hm) as (P & q & Eq).
  rewrite Eq in *. eauto 10.
Qed.

(** X1. For a sensor name that is not in the table (anything but temp,
    pressure and vibration), [generate_sensor_value] raises [KeyError] with
    that name, before any random number is drawn: the state is unchanged. *)
Theorem unknown_sensor_raises_key_error s lbl np ap (w : World G) :
  gen w = init -> ~ In s sensors ->
  generate_sensor_value s lbl np ap w = (inl (KeyError s), w).
Proof.
  intros Hg Hs. unfold generate_sensor_value.
  rewrite (run_bind_ok _ _ _ _ _ (run_get_gen w)).
  rewrite Hg, (unknown_sensor_lookup s Hs).
  erewrite run_bind_err by apply run_lift. reflexivity.
Qed.

(** X2. For each of the three sensors and any probabilities,
    [generate_sensor_value] never raises: it returns a finite float that
    lies either in the normal range of the sensor or in one of its two
    abnormal ranges, never in the gaps between them, and it changes nothing
    but the state of the random generator. *)
Theorem sensor_value_in_one_band s lbl np ap (w : World G) :
  gen w = init -> In s sensors ->
  exists q w',
    generate_sensor_value s lbl np ap w = (inr (Float (Finite q)), w')
    /\ frame w w'
    /\ in_abnormal s (Float (Finite q)) = negb (in_normal s (Float (Finite q))).
Proof.
  intros Hg Hs.
  destruct (sensor_value_band s lbl np ap w Hg Hs)
    as (b & q & w' & E & F & _ & P).
  exists q, w'. split; [exact E|]. split; [exact F|].
  destruct (is_normal b).
  - rewrite P, (in_normal_not_abnormal _ _ P). reflexivity.
  - rewrite P, (in_abnormal_not_normal _ _ P). reflexivity.
Qed.

(** X3. The probability that applies to the label of the row
    ([normal_prob] for a normal row, [abnormal_prob] for an abnormal one)
    acts as a threshold on a draw from [0, 1): from 1 upwards the value
    always comes from the normal range; at 0, below 0 or NaN it always
    comes from an abnormal range. *)
Theorem probability_saturates s lbl np ap (w w' : World G) x :
  gen w = init -> In s sensors ->
  generate_sensor_value s lbl np ap w = (inr x, w') ->
  (PyNum.le (Int 1) (if lbl then np else ap) = true ->
   in_normal s x = true)
  /\ (PyNum.lt (Int 0) (if lbl then np else ap) = false ->
      in_abnormal s x = true).
Proof.
  intros Hg Hs E.
  destruct (sensor_value_band s lbl np ap w Hg Hs)
    as (b & q & w1 & E1 & _ & D & P).
  assert (x = Float (Finite q)) by congruence. subst x.
  split; intros Hp.
  - apply (draw_below_high _ _ Hp) in D. rewrite D in P. exact P.
  - apply (draw_below_low _ _ Hp) in D. rewrite D in P. exact P.
Qed.

End Program.

(** *** At concrete inputs *)

Lemma saturated_run :
  generate_sensor_value "temp" false (Int 0) (PyNum.lit 1.5) w0
  = (inr (PyNum.lit 48.8), snd saturated).
Proof. vm_compute. reflexivity. Defined.

Lemma unknown_sensor_raises_key_error_witness :
  generate_sensor_value "humidity" true (PyNum.lit 0.95) (PyNum.lit 0.3) w0
  = (inl (KeyError "humidity"), w0).
Proof.
  apply unknown_sensor_raises_key_error; [reflexivity|].
  cbn. intros [E | [E | [E | []]]]; discriminate E.
Defined.

Lemma sensor_value_in_one_band_witness :
  exists q w',
    generate_sensor_value "temp" true (PyNum.lit 0.95) (PyNum.lit 0.3) w0
    = (inr (Float (Finite q)), w')
    /\ frame w0 w'
    /\ in_abnormal "temp" (Float (Finite q))
       = negb (in_normal "temp" (Float (Finite q))).
Proof.
  exact (sensor_value_in_one_band "temp" true (PyNum.lit 0.95) (PyNum.lit 0.3)
           w0 eq_refl (or_introl eq_refl)).
Defined.

(** With [abnormal_prob = 1.5] an abnormal row gets the temperature 48.8,
    inside the normal range. *)
Lemma probability_saturates_witness :
  in_normal "temp" (PyNum.lit 48.8) = true.
Proof.
  apply (proj1 (probability_saturates "temp" false (Int 0) (PyNum.lit 1.5) w0
                  (snd saturated) (PyNum.lit 48.8) eq_refl
                  (or_introl eq_refl) saturated_run)).
  vm_compute. reflexivity.
Defined.

End SensorProps.

(** *** [generate_row] *)
Module RowProps.
Import Float FloatFacts UniformFacts.
Import Datetime Timestamp DatetimeFacts Pandas Spec Generator.
Import ProgramFacts FrameFacts DatasetFacts CellFacts Claims.
Import SensorProps Examples.
Local Open Scope Z_scope.

(** Adding any number of minutes that stays inside the calendar. *)
Lemma plus_minutes_inside i :
  MIN_MINUTES <= i < MAX_MINUTES ->
  exists dt, plus_minutes start i = inr dt
    /\ to_seconds dt = EPOCH + 60 * i
    /\ parse (strftime dt) = Some dt
    /\ 1 <= year dt <= 9999 /\ 1 <= month dt <= 12 /\ 1 <= day dt <= 31
    /\ 0 <= hour dt <= 23 /\ 0 <= minute dt <= 59 /\ second dt = 0.
Proof.
  unfold MIN_MINUTES, MAX_MINUTES, plus_minutes, timedelta_minutes,
    timedelta_new.
  intros Hi. cbv zeta.
  destruct (Z.leb_spec (Z.abs (0 + i * 60 / 86400)) 999999999) as [_ | C];
    [| exfalso; Z.div_mod_to_equations; lia].
  cbn [bind_exn]. unfold add, timedelta_new.
  change (toordinal start) with 739040.
  cbn [hour minute second start]. cbv zeta.
  change (19 * 3600 + 0 * 60 + 0) with 68400.
  change (68400 / 86400) with 0. change (68400 mod 86400) with 68400.
  change (Z.abs (739040 + 0) <=? 999999999) with true.
  cbn [bind_exn days seconds].
  set (d := 739040 + 0 + (0 + i * 60 / 86400)
            + (68400 + i * 60 mod 86400) / 86400).
  set (s := (68400 + i * 60 mod 86400) mod 86400).
  assert (Hd : d * 86400 + s = EPOCH + 60 * i /\ 0 <= s < 86400
               /\ s mod 60 = 0).
  { subst d s. unfold EPOCH. Z.div_mod_to_equations. lia. }
  destruct Hd as (Hd & Hs & Hs60).
  assert (Bd : 1 <= d <= MAXORDINAL).
  { unfold MAXORDINAL, EPOCH in *. lia. }
  clearbody d s.
  destruct (Z.leb_spec (Z.abs d) 999999999) as [_ | C];
    [| exfalso; unfold MAXORDINAL in *; lia].
  cbn [bind_exn days seconds]. cbv zeta.
  destruct (Z.ltb_spec 0 d) as [_ | C]; [| exfalso; lia].
  destruct (Z.leb_spec d MAXORDINAL) as [_ | C]; [| exfalso; lia].
  cbn [andb].
  pose proof (ord2ymd_spec d Bd) as O.
  destruct (ord2ymd d) as [[y m] dd]. destruct O as (Ey & By & Bm & Bdd).
  eexists. split; [reflexivity|]. split; [| split].
  - unfold to_seconds, toordinal. cbn [year month day hour minute second].
    rewrite Ey. Z.div_mod_to_equations. lia.
  - apply parse_strftime; cbn [year month day hour minute second];
      try lia; Z.div_mod_to_equations; lia.
  - cbn [year month day hour minute second].
    repeat split; try lia; Z.div_mod_to_equations; lia.
Qed.

(** Outside the calendar the addition overflows. *)
Lemma plus_minutes_outside i :
  i < MIN_MINUTES \/ MAX_MINUTES <= i ->
  exists msg, plus_minutes start i = inl (OverflowError msg).
Proof.
  unfold MIN_MINUTES, MAX_MINUTES, plus_minutes, timedelta_minutes,
    timedelta_new.
  intros Hi. cbv zeta.
  destruct (Z.leb_spec (Z.abs (0 + i * 60 / 86400)) 999999999) as [B | _];
    [| cbn [bind_exn]; eauto].
  cbn [bind_exn]. unfold add, timedelta_new.
  change (toordinal start) with 739040.
  cbn [hour minute second start]. cbv zeta.
  change (19 * 3600 + 0 * 60 + 0) with 68400.
  change (68400 / 86400) with 0. change (68400 mod 86400) with 68400.
  change (Z.abs (739040 + 0) <=? 999999999) with true.
  cbn [bind_exn days seconds].
  set (d := 739040 + 0 + (0 + i * 60 / 86400)
            + (68400 + i * 60 mod 86400) / 86400).
  assert (Hd : d <= 0 \/ MAXORDINAL < d).
  { subst d. unfold MAXORDINAL. Z.div_mod_to_equations. lia. }
  clearbody d.
  destruct (Z.leb_spec (Z.abs d) 999999999) as [_ | _];
    [| cbn [bind_exn]; eauto].
  cbn [bind_exn days seconds]. cbv zeta.
  destruct (Z.ltb_spec 0 d) as [P | _]; cbn [andb]; [| eauto].
  destruct (Z.leb_spec d MAXORDINAL) as [Q | _]; [exfalso; lia | eauto].
Qed.

Lemma length_append (a b : string) :
  String.length (a ++ b) = (String.length a + String.length b)%nat.
Proof.
  induction a as [| c a IH]; [reflexivity|].
  change (S (String.length (a ++ b)) = S (String.length a + String.length b)).
  rewrite IH. reflexivity.
Qed.

Lemma strftime_length dt :
  0 <= year dt <= 9999 -> 0 <= month dt <= 99 -> 0 <= day dt <= 99 ->
  0 <= hour dt <= 99 -> 0 <= minute dt <= 99 -> 0 <= second dt <= 99 ->
  String.length (strftime dt) = 19%nat.
Proof.
  intros Hy Hmo Hd Hh Hmi Hs. unfold strftime.
  rewrite !length_append.
  rewrite (proj1 (pad_spec 4 9999 _ pad4_ok Hy)).
  rewrite (proj1 (pad_spec 2 99 _ pad2_ok Hmo)).
  rewrite (proj1 (pad_spec 2 99 _ pad2_ok Hd)).
  rewrite (proj1 (pad_spec 2 99 _ pad2_ok Hh)).
  rewrite (proj1 (pad_spec 2 99 _ pad2_ok Hmi)).
  rewrite (proj1 (pad_spec 2 99 _ pad2_ok Hs)).
  reflexivity.
Qed.

(** A sensor field is the empty string or a finite float. *)
Lemma sensor_cell_shape s p nullp c :
  In s sensors -> sensor_cell s p nullp c ->
  c = VStr "" \/ exists q, c = VNum (Float (Finite q)).
Proof.
  intros Hs [D | b m lo hi D1 D2 Hb Hm]; [left; reflexivity | right].
  destruct (band_value_finite s b m lo hi Hs Hb Hm) as (_ & q & ->).
  eauto.
Qed.

Lemma sensor_cell_null_high s p nullp c :
  PyNum.le (Int 1) nullp = true -> sensor_cell s p nullp c -> c = VStr "".
Proof.
  intros Hp [D | b m lo hi D _ _ _]; [reflexivity|].
  apply (draw_below_high _ _ Hp) in D. discriminate.
Qed.

Lemma sensor_cell_null_low s p nullp c :
  PyNum.lt (Int 0) nullp = false -> sensor_cell s p nullp c ->
  exists x, c = VNum x.
Proof.
  intros Hp [D | b m lo hi D _ _ _]; [| eauto].
  apply (draw_below_low _ _ Hp) in D. discriminate.
Qed.

(** X8. Assigning [row_data[k] = v] to a row dict: the value is found under
    [k] afterwards, the other keys keep their values, and the keys keep
    their order, a new key being added at the end. *)
Theorem dict_set_then_get (k : string) (v : pyval) (d : dict) :
  dict_get k (dict_set k v d) = Some v
  /\ (forall k', k' <> k -> dict_get k' (dict_set k v d) = dict_get k' d)
  /\ dict_keys (dict_set k v d)
     = if mem k (dict_keys d) then dict_keys d else dict_keys d ++ [k].
Proof.
  unfold dict_keys, mem. induction d as [| [k1 v1] d (IH1 & IH2 & IH3)].
  - cbn. rewrite String.eqb_refl. repeat split.
    intros k' Hk. apply String.eqb_neq in Hk. rewrite Hk. reflexivity.
  - cbn [dict_set dict_get map fst existsb].
    destruct (String.eqb_spec k k1) as [<- | Hk1]; cbn [orb dict_get map fst].
    + rewrite String.eqb_refl. repeat split.
      intros k' Hk. apply String.eqb_neq in Hk. rewrite Hk. reflexivity.
    + apply String.eqb_neq in Hk1. rewrite Hk1. split; [exact IH1|]. split.
      * intros k' Hk. destruct (String.eqb k' k1); [reflexivity|].
        apply IH2, Hk.
      * rewrite IH3.
        destruct (existsb (String.eqb k) (map fst d)); reflexivity.
Qed.

Section Program.
Context {G : Type} `{MersenneTwister G}.

Lemma generate_row_inv i np ap nullp (w w' : World G) row :
  gen w = init -> generate_row i np ap nullp w = (inr row, w') ->
  row_ok i np ap nullp row /\ frame w w'.
Proof.
  intros Hg E. pose proof (generate_row_spec i np ap nullp w Hg) as S.
  destruct (plus_minutes start i) as [e | dt].
  - congruence.
  - destruct S as (row1 & w1 & E1 & F & Ok).
    assert (row1 = row /\ w1 = w') as [-> ->] by (split; congruence).
    split; assumption.
Qed.


(** X5. Every row [generate_row] returns has the five keys timestamp,
    label, temp, pressure, vibration, in this order; its label is normal or
    abnormal; each sensor field is the empty string or a finite float (a
    float also for temp, whose ranges are given as ints; never NaN or an
    infinity); and nothing but the random generator has changed. *)
Theorem generate_row_shape i np ap nullp (w w' : World G) row :
  gen w = init -> generate_row i np ap nullp w = (inr row, w') ->
  dict_keys row = ["timestamp"; "label"; "temp"; "pressure"; "vibration"]
  /\ (dict_get "label" row = Some (VStr "normal")
      \/ dict_get "label" row = Some (VStr "abnormal"))
  /\ (forall s, In s sensors ->
        dict_get s row = Some (VStr "")
        \/ exists q, dict_get s row = Some (VNum (Float (Finite q))))
  /\ frame w w'.
Proof.
  intros Hg E. destruct (generate_row_inv _ _ _ _ _ _ _ Hg E) as [Ok F].
  destruct Ok as [dt lbl c1 c2 c3 Hdt Hl C1 C2 C3].
  split; [reflexivity|]. split.
  { destruct lbl; [left | right]; reflexivity. }
  split; [| exact F].
  intros s [<- | [<- | [<- | []]]].
  - destruct (sensor_cell_shape "temp" _ _ _ ltac:(in_list) C1)
      as [-> | (q & ->)]; [left | right; exists q]; reflexivity.
  - destruct (sensor_cell_shape "pressure" _ _ _ ltac:(in_list) C2)
      as [-> | (q & ->)]; [left | right; exists q]; reflexivity.
  - destruct (sensor_cell_shape "vibration" _ _ _ ltac:(in_list) C3)
      as [-> | (q & ->)]; [left | right; exists q]; reflexivity.
Qed.

(** X6. [null_prob] acts as a threshold on a draw from [0, 1): from 1
    upwards (infinity included) every sensor field of the row is missing;
    at 0, below 0 or NaN every sensor field holds a number. *)
Theorem null_prob_saturates i np ap nullp (w w' : World G) row :
  gen w = init -> generate_row i np ap nullp w = (inr row, w') ->
  (PyNum.le (Int 1) nullp = true ->
   forall s, In s sensors -> dict_get s row = Some (VStr ""))
  /\ (PyNum.lt (Int 0) nullp = false ->
      forall s, In s sensors -> exists x, dict_get s row = Some (VNum x)).
Proof.
  intros Hg E. destruct (generate_row_inv _ _ _ _ _ _ _ Hg E) as [Ok _].
  destruct Ok as [dt lbl c1 c2 c3 Hdt Hl C1 C2 C3].
  split; intros Hp s [<- | [<- | [<- | []]]].
  - rewrite (sensor_cell_null_high _ _ _ _ Hp C1). reflexivity.
  - rewrite (sensor_cell_null_high _ _ _ _ Hp C2). reflexivity.
  - rewrite (sensor_cell_null_high _ _ _ _ Hp C3). reflexivity.
  - destruct (sensor_cell_null_low _ _ _ _ Hp C1) as (x & ->).
    exists x. reflexivity.
  - destruct (sensor_cell_null_low _ _ _ _ Hp C2) as (x & ->).
    exists x. reflexivity.
  - destruct (sensor_cell_null_low _ _ _ _ Hp C3) as (x & ->).
    exists x. reflexivity.
Qed.


End Program.

(** *** At concrete inputs *)

Lemma row0_run :
  generate_row 0 (PyNum.lit 0.95) (PyNum.lit 0.3) (PyNum.lit 0.05) w0
  = (inr row0_dict, snd row0).
Proof. vm_compute. reflexivity. Defined.

Lemma row_before_run :
  generate_row (-1) (PyNum.lit 0.95) (PyNum.lit 0.3) (PyNum.lit 1.5) w0
  = (inr row_before_dict, snd row_before).
Proof. vm_compute. reflexivity. Defined.


Lemma generate_row_shape_witness :
  dict_keys row0_dict = ["timestamp"; "label"; "temp"; "pressure"; "vibration"]
  /\ (dict_get "label" row0_dict = Some (VStr "normal")
      \/ dict_get "label" row0_dict = Some (VStr "abnormal"))
  /\ (forall s, In s sensors ->
        dict_get s row0_dict = Some (VStr "")
        \/ exists q, dict_get s row0_dict = Some (VNum (Float (Finite q))))
  /\ frame w0 (snd row0).
Proof.
  exact (generate_row_shape 0 (PyNum.lit 0.95) (PyNum.lit 0.3) (PyNum.lit 0.05)
           w0 (snd row0) row0_dict eq_refl row0_run).
Defined.

(** With [null_prob = 1.5] the pressure is missing. *)
Lemma null_prob_saturates_witness :
  dict_get "pressure" row_before_dict = Some (VStr "").
Proof.
  apply (proj1 (null_prob_saturates (-1) (PyNum.lit 0.95) (PyNum.lit 0.3)
                  (PyNum.lit 1.5) w0 (snd row_before) row_before_dict
                  eq_refl row_before_run)).
  - vm_compute. reflexivity.
  - right. left. reflexivity.
Defined.


End RowProps.

(** *** [generate_dataset] *)
Module DatasetProps.
Import Float FloatFacts UniformFacts.
Import Datetime Timestamp DatetimeFacts Pandas Spec Generator.
Import ProgramFacts FrameFacts DatasetFacts CellFacts Claims.
Import SensorProps RowProps Examples.
Local Open Scope Z_scope.

Section Program.
Context {G : Type} `{MersenneTwister G}.

(** The cells of row [i] of a generated dataset. *)
Lemma dataset_row_cells n np ap nullp (w w' : World G) r df i :
  gen w = init ->
  generate_dataset n np ap nullp w = (inr r, w') ->
  frames w' !! r = Some df -> 0 <= i < len df ->
  exists dt (lbl : bool) c1 c2 c3,
    plus_minutes start i = inr dt
    /\ sensor_cell "temp" (if lbl then np else ap) nullp c1
    /\ sensor_cell "pressure" (if lbl then np else ap) nullp c2
    /\ sensor_cell "vibration" (if lbl then np else ap) nullp c3
    /\ columns df = KEYS
    /\ rows df !! Z.to_nat i
       = Some [VStr (strftime dt); VStr (label_of lbl); c1; c2; c3]
    /\ forall col, In col KEYS ->
         cell df i col
         = dict_get col (mk_row (strftime dt) (label_of lbl) c1 c2 c3).
Proof.
  intros Hg E Hdf Hi.
  destruct (dataset_rows _ _ _ _ _ _ _ _ Hg E Hdf) as (_ & Hrows).
  destruct (Hrows i Hi) as (row & Ok & Hcols & Hr & Hc).
  destruct Ok as [dt lbl c1 c2 c3 Hdt Hl C1 C2 C3].
  exists dt, lbl, c1, c2, c3. repeat split; assumption.
Qed.

(** X9. From the same state of the random generator and with the same
    probabilities, a dataset of [n] rows is the beginning of a dataset of
    [m >= n] rows: its rows are the first [n] rows of the longer one. *)
Theorem dataset_prefix n m np ap nullp (w : World G) :
  gen w = init -> 0 <= n <= m -> m <= MAX_ROWS ->
  exists r1 w1 d1 r2 w2 d2,
    generate_dataset n np ap nullp w = (inr r1, w1)
    /\ frames w1 !! r1 = Some d1
    /\ generate_dataset m np ap nullp w = (inr r2, w2)
    /\ frames w2 !! r2 = Some d2
    /\ rows d1 = take (Z.to_nat n) (rows d2).
Proof.
  intros Hg Hn Hm.
  destruct (generate_dataset_run m np ap nullp w Hg Hm)
    as (data & wm & El & _ & Hk & Hl & Em).
  destruct (rows_loop_prefix _ _ _ _ _ _ _ El (Z.to_nat n) ltac:(lia))
    as (wn & En).
  destruct (generate_dataset_run n np ap nullp w Hg ltac:(lia))
    as (data' & wn' & El' & _ & Hk' & _ & En').
  assert (data' = take (Z.to_nat n) data) by congruence. subst data'.
  eexists _, _, (from_records (take (Z.to_nat n) data)),
    _, _, (from_records data).
  split; [exact En'|]. split.
  { cbn [frames]. apply list_lookup_middle. reflexivity. }
  split; [exact Em|]. split.
  { cbn [frames]. apply list_lookup_middle. reflexivity. }
  rewrite !from_records_rows by assumption. cbn [rows].
  rewrite fmap_take. reflexivity.
Qed.

(** X10. [generate_dataset] writes no file and prints nothing.  When it
    returns, it has added exactly one frame, after the existing ones, which
    are unchanged, and returns the reference to it; when it raises, no
    frame has been added. *)
Theorem generate_dataset_footprint n np ap nullp (w : World G) :
  let res := generate_dataset n np ap nullp w in
  files (snd res) = files w /\ stdout (snd res) = stdout w
  /\ match fst res with
     | inr r => r = length (frames w)
                /\ exists df, frames (snd res) = frames w ++ [df]
     | inl _ => frames (snd res) = frames w
     end.
Proof.
  cbv zeta.
  change (generate_dataset n np ap nullp)
    with (data <- rows_loop n np ap nullp ;;
          alloc_frame (from_records data)).
  pose proof (rows_loop_keeps files n np ap nullp rng_free_files w) as Kf.
  pose proof (rows_loop_keeps stdout n np ap nullp rng_free_stdout w) as Ko.
  pose proof (rows_loop_keeps frames n np ap nullp rng_free_frames w) as Kr.
  unfold bind.
  destruct (rows_loop n np ap nullp w) as [[e | data] w1];
    cbn [fst snd] in *.
  - auto.
  - unfold alloc_frame. cbn [fst snd files stdout frames].
    rewrite Kr. eauto.
Qed.

(** X11. No two rows of a generated dataset carry the same timestamp. *)
Theorem timestamps_unique n np ap nullp (w w' : World G) r df i j ts :
  gen w = init ->
  generate_dataset n np ap nullp w = (inr r, w') ->
  frames w' !! r = Some df ->
  cell df i "timestamp" = Some ts -> cell df j "timestamp" = Some ts ->
  i = j.
Proof.
  intros Hg E Hdf Hi Hj.
  pose proof (generated_bound _ _ _ _ _ _ _ Hg E) as Hb.
  destruct (dataset_rows _ _ _ _ _ _ _ _ Hg E Hdf) as (Hlen & Hrows).
  assert (S : forall k, cell df k "timestamp" = Some ts ->
              exists dt, ts = VStr (strftime dt)
                /\ parse (strftime dt) = Some dt
                /\ to_seconds dt = EPOCH + 60 * k).
  { intros k Hk. destruct (cell_inv _ _ _ _ Hk) as (Bk & _).
    destruct (Hrows k Bk) as (row & Ok & _ & _ & Hc).
    destruct Ok as [dt lbl c1 c2 c3 Hdt _ _ _ _].
    rewrite Hc in Hk by in_list. cbn in Hk.
    destruct (plus_minutes_spec k) as (dt' & Ed & Es & Ep).
    { unfold MAX_ROWS, MAX_MINUTES in *. lia. }
    assert (dt' = dt) by congruence. subst dt'.
    exists dt. split; [congruence | split; assumption]. }
  destruct (S i Hi) as (d1 & E1 & P1 & S1).
  destruct (S j Hj) as (d2 & E2 & P2 & S2).
  assert (strftime d1 = strftime d2) by congruence.
  assert (d1 = d2) by congruence. subst d2. lia.
Qed.

End Program.

(** *** At concrete inputs *)

Lemma dataset_prefix_witness :
  exists r1 w1 d1 r2 w2 d2,
    generate_dataset 1 (Int 1) (Int 0) (Int 0) (fresh 7) = (inr r1, w1)
    /\ frames w1 !! r1 = Some d1
    /\ generate_dataset 3 (Int 1) (Int 0) (Int 0) (fresh 7) = (inr r2, w2)
    /\ frames w2 !! r2 = Some d2
    /\ rows d1 = take (Z.to_nat 1) (rows d2).
Proof.
  apply dataset_prefix; [reflexivity | lia | unfold MAX_ROWS; lia].
Defined.

Lemma timestamps_unique_witness : 1 = 1.
Proof.
  exact (timestamps_unique 3 (Int 1) (Int 0) (Int 0) (fresh 7) (snd sample)
           0%nat sample_df 1 1 (VStr "2024-06-03 19:01:00")
           eq_refl sample_run sample_frame eq_refl eq_refl).
Defined.

End DatasetProps.

(** *** [print_statistics] *)
Module StatisticsProps.
Import Float FloatFacts UniformFacts.
Import Datetime Timestamp DatetimeFacts Pandas Spec Generator.
Import ProgramFacts FrameFacts DatasetFacts CellFacts Claims.
Import SensorProps RowProps DatasetProps Examples.
Local Open Scope Z_scope.

Lemma tally_total v acc : total (tally v acc) = total acc + 1.
Proof.
  induction acc as [| [w c] acc IH]; cbn [tally]; [reflexivity|].
  destruct (val_eqb v w); unfold total in *;
    cbn [map snd fold_right] in *; lia.
Qed.

Lemma tally_pos v acc :
  Forall (fun x => 1 <= snd x) acc ->
  Forall (fun x => 1 <= snd x) (tally v acc).
Proof.
  induction 1 as [| [w c] acc Hc Hacc IH]; cbn [tally].
  - constructor; [cbn [snd]; lia | constructor].
  - destruct (val_eqb v w); constructor; cbn [snd] in *; auto; lia.
Qed.

Lemma tally_keys v acc x :
  In x (tally v acc) -> fst x = v \/ In (fst x) (map fst acc).
Proof.
  induction acc as [| [w c] acc IH]; cbn [tally].
  - intros [<- | []]. left. reflexivity.
  - destruct (val_eqb v w); cbn [In map fst].
    + intros [<- | Hin]; [right; left; reflexivity|].
      right. right. apply in_map. exact Hin.
    + intros [<- | Hin]; [right; left; reflexivity|].
      destruct (IH Hin) as [E | E]; auto.
Qed.

Lemma insert_desc_total x l : total (insert_desc x l) = snd x + total l.
Proof.
  induction l as [| y l IH]; cbn [insert_desc]; [reflexivity|].
  destruct (snd y <? snd x); unfold total in *;
    cbn [map snd fold_right] in *; lia.
Qed.

Lemma insert_desc_pos x l :
  1 <= snd x -> Forall (fun x => 1 <= snd x) l ->
  Forall (fun x => 1 <= snd x) (insert_desc x l).
Proof.
  intros Hx. induction 1 as [| y l Hy Hl IH]; cbn [insert_desc].
  - constructor; [exact Hx | constructor].
  - destruct (snd y <? snd x); [constructor; [exact Hx|] |];
      constructor; auto.
Qed.

Lemma insert_desc_in x y l : In y (insert_desc x l) -> y = x \/ In y l.
Proof.
  induction l as [| z l IH]; cbn [insert_desc].
  - intros [<- | []]. left. reflexivity.
  - destruct (snd z <? snd x).
    + intros [<- | Hin]; auto.
    + intros [<- | Hin]; [right; left; reflexivity|].
      destruct (IH Hin); [left | right; right]; assumption.
Qed.

Lemma counts_fold col : forall acc,
  total (fold_left (fun acc v => if isna v then acc else tally v acc) col acc)
  = total acc + count_if (fun v => negb (isna v)) col
  /\ (Forall (fun x => 1 <= snd x) acc ->
      Forall (fun x => 1 <= snd x)
        (fold_left (fun acc v => if isna v then acc else tally v acc)
           col acc)).
Proof.
  unfold count_if.
  induction col as [| v col IH]; intros acc; cbn [fold_left].
  - cbn. split; [lia | auto].
  - destruct (IH (if isna v then acc else tally v acc)) as [T P].
    rewrite T. split.
    + rewrite filter_cons. destruct (isna v) eqn:E; cbn [negb].
      * rewrite decide_False by discriminate. lia.
      * rewrite decide_True by reflexivity. rewrite tally_total.
        cbn [length]. lia.
    + intros Hacc. apply P. destruct (isna v); [exact Hacc|].
      apply tally_pos, Hacc.
Qed.

Lemma counts_keys col : forall acc x,
  In x (fold_left (fun acc v => if isna v then acc else tally v acc) col acc) ->
  In (fst x) col \/ In (fst x) (map fst acc).
Proof.
  induction col as [| v col IH]; intros acc x; cbn [fold_left].
  - intros Hin. right. apply in_map. exact Hin.
  - intros Hin. apply IH in Hin. destruct Hin as [Hin | Hin].
    + left. right. exact Hin.
    + destruct (isna v); [right; exact Hin|].
      apply in_map_iff in Hin. destruct Hin as (y & Ey & Hy).
      apply tally_keys in Hy. rewrite Ey in Hy.
      destruct Hy as [-> | Hy]; [left; left; reflexivity | right; exact Hy].
Qed.

Lemma sort_fold counts : forall acc,
  total (fold_left (fun acc x => insert_desc x acc) counts acc)
  = total acc + total counts
  /\ (Forall (fun x => 1 <= snd x) counts ->
      Forall (fun x => 1 <= snd x) acc ->
      Forall (fun x => 1 <= snd x)
        (fold_left (fun acc x => insert_desc x acc) counts acc)).
Proof.
  induction counts as [| x counts IH]; intros acc; cbn [fold_left].
  - unfold total. cbn. split; [lia | auto].
  - destruct (IH (insert_desc x acc)) as [T P]. rewrite T, insert_desc_total.
    split.
    + unfold total. cbn [map fold_right]. lia.
    + intros Hc Hacc. inversion Hc; subst.
      apply P; [assumption|]. apply insert_desc_pos; assumption.
Qed.

Lemma sort_in counts : forall acc y,
  In y (fold_left (fun acc x => insert_desc x acc) counts acc) ->
  In y counts \/ In y acc.
Proof.
  induction counts as [| x counts IH]; intros acc y; cbn [fold_left].
  - auto.
  - intros Hin. apply IH in Hin. destruct Hin as [Hin | Hin].
    + left. right. exact Hin.
    + apply insert_desc_in in Hin. destruct Hin as [-> | Hin];
        [left; left; reflexivity | right; exact Hin].
Qed.

(** The counts of [value_counts] are positive and add up to the number of
    cells that are not NaN. *)
Lemma value_counts_total col :
  total (value_counts col) = count_if (fun v => negb (isna v)) col
  /\ Forall (fun x => 1 <= snd x) (value_counts col).
Proof.
  unfold value_counts. cbv zeta.
  destruct (counts_fold col []) as [T1 P1].
  destruct (sort_fold
              (fold_left (fun acc v => if isna v then acc else tally v acc)
                 col [])
              []) as [T2 P2].
  split.
  - rewrite T2, T1. unfold total. cbn. lia.
  - apply P2; [apply P1|]; constructor.
Qed.

(** Every value listed by [value_counts] occurs in the column. *)
Lemma value_counts_keys col x : In x (value_counts col) -> In (fst x) col.
Proof.
  unfold value_counts. cbv zeta. intros Hin.
  apply sort_in in Hin. destruct Hin as [Hin | []].
  apply counts_keys in Hin. destruct Hin as [Hin | []]. exact Hin.
Qed.

Lemma total_bound counts x :
  Forall (fun x => 1 <= snd x) counts -> In x counts ->
  1 <= snd x <= total counts.
Proof.
  induction 1 as [| y l Hy Hl IH]; intros Hin; [destruct Hin|].
  assert (0 <= total l).
  { clear -Hl. induction Hl as [| z l Hz Hl IH]; unfold total in *;
      cbn [map fold_right] in *; lia. }
  unfold total in *. cbn [map fold_right].
  destruct Hin as [-> | Hin]; [lia|]. specialize (IH Hin). lia.
Qed.

Lemma count_if_le p col : 0 <= count_if p col <= Z.of_nat (length col).
Proof.
  unfold count_if. pose proof (length_filter (fun v => p v = true) col). lia.
Qed.

Lemma count_if_all p col :
  Forall (fun v => p v = true) col -> count_if p col = Z.of_nat (length col).
Proof.
  unfold count_if. induction 1 as [| v col Hv Hc IH]; [reflexivity|].
  rewrite filter_cons, decide_True by exact Hv. cbn [length]. lia.
Qed.

Lemma count_if_none p col :
  Forall (fun v => p v = false) col -> count_if p col = 0.
Proof.
  unfold count_if. induction 1 as [| v col Hv Hc IH]; [reflexivity|].
  rewrite filter_cons, decide_False by congruence. exact IH.
Qed.

(** Every count listed is between 1 and the length of the column. *)
Lemma value_counts_bound col x :
  In x (value_counts col) -> 1 <= snd x <= Z.of_nat (length col).
Proof.
  intros Hin. destruct (value_counts_total col) as [T P].
  pose proof (total_bound _ _ P Hin).
  pose proof (count_if_le (fun v => negb (isna v)) col). lia.
Qed.

(** The quotient of a count by the number of rows is a finite float. *)
Lemma int_truediv_ratio a b :
  0 <= a <= b -> 0 < b -> exists q, PyNum.int_truediv a b = inr (Finite q).
Proof.
  intros Ha Hb. unfold PyNum.int_truediv.
  destruct (Z.eqb_spec b 0) as [-> | _]; [lia|].
  assert (B : between 0 1 (of_Q (inject_Z a / inject_Z b))).
  { apply (of_Q_between 0 1); [| vm_compute; reflexivity].
    assert (0 < inject_Z b)%Q.
    { change 0%Q with (inject_Z 0). rewrite <- Zlt_Qlt. exact Hb. }
    split.
    - apply Qle_shift_div_l; [assumption|]. rewrite Qmult_0_l.
      change 0%Q with (inject_Z 0). rewrite <- Zle_Qle. lia.
    - apply Qle_shift_div_r; [assumption|]. rewrite Qmult_1_l.
      rewrite <- Zle_Qle. lia. }
  destruct B as (q & -> & _). eauto.
Qed.

Lemma position_mem k ks :
  position k ks = None <-> mem k ks = false.
Proof.
  unfold mem. induction ks as [| k' ks IH]; cbn [position existsb].
  - split; reflexivity.
  - destruct (String.eqb k k'); cbn [orb].
    + split; discriminate.
    + destruct (position k ks); cbn.
      * split; [discriminate|]. intros E. apply IH in E. discriminate.
      * split; [intros _; apply IH; reflexivity | reflexivity].
Qed.

Lemma mem_In k ks : mem k ks = true <-> In k ks.
Proof.
  unfold mem. rewrite existsb_exists. split.
  - intros (x & Hx & E). apply String.eqb_eq in E. subst x. exact Hx.
  - intros Hk. exists k. split; [exact Hk | apply String.eqb_refl].
Qed.

Lemma first_missing_none cols :
  first_missing cols = None
  <-> forall c, In c ["label"; "temp"; "pressure"; "vibration"] -> In c cols.
Proof.
  unfold first_missing. split.
  - intros E c Hc. pose proof (find_none _ _ E c Hc) as N. cbv beta in N.
    apply negb_false_iff in N. apply mem_In. exact N.
  - intros Hall. cbn [find].
    rewrite !(proj2 (mem_In _ _)) by (apply Hall; in_list). reflexivity.
Qed.

Lemma getitem_length df col cells :
  getitem df col = inr cells -> Z.of_nat (length cells) = len df.
Proof.
  unfold getitem, len. destruct (position col (columns df)); [| discriminate].
  intros [= <-]. rewrite length_map. reflexivity.
Qed.

(** A cell of the column [df[col]] is the cell of some row, NaN standing
    for a cell the row does not have. *)
Lemma getitem_cells df col cells v :
  getitem df col = inr cells -> In v cells ->
  exists i, 0 <= i < len df /\ v = default nan (cell df i col).
Proof.
  unfold getitem, cell, len.
  destruct (position col (columns df)) as [j |]; [| discriminate].
  intros [= <-] Hin. apply in_map_iff in Hin. destruct Hin as (r & <- & Hr).
  apply list_elem_of_In, list_elem_of_lookup in Hr. destruct Hr as (i & Hi).
  pose proof (lookup_lt_Some _ _ _ Hi) as L.
  exists (Z.of_nat i). split; [lia|].
  destruct (Z.ltb_spec (Z.of_nat i) 0) as [C | _]; [lia|].
  rewrite Nat2Z.id, Hi. reflexivity.
Qed.

Lemma val_eqb_str s v : val_eqb (VStr s) v = true <-> v = VStr s.
Proof.
  destruct v as [t | x]; cbn [val_eqb].
  - rewrite String.eqb_eq. split; congruence.
  - split; discriminate.
Qed.

Lemma val_eqb_str_sym s v : val_eqb v (VStr s) = val_eqb (VStr s) v.
Proof.
  destruct v as [t | x]; cbn [val_eqb]; [apply String.eqb_sym | reflexivity].
Qed.

Lemma count_if_app p a b : count_if p (a ++ b) = count_if p a + count_if p b.
Proof. unfold count_if. rewrite filter_app, length_app. lia. Qed.

Lemma count_if_one p v : count_if p [v] = if p v then 1 else 0.
Proof.
  unfold count_if. rewrite filter_cons, filter_nil.
  destruct (p v); [rewrite decide_True by reflexivity
                  | rewrite decide_False by discriminate]; reflexivity.
Qed.

Lemma count_if_absent s pre :
  ~ In (VStr s) pre -> count_if (val_eqb (VStr s)) pre = 0.
Proof.
  intros N. apply count_if_none. rewrite Forall_forall.
  intros v Hv. apply list_elem_of_In in Hv.
  destruct (val_eqb (VStr s) v) eqn:E; [| reflexivity].
  apply val_eqb_str in E. subst v. contradiction.
Qed.

Lemma existsb_val s keys :
  existsb (val_eqb (VStr s)) keys = true <-> In (VStr s) keys.
Proof.
  rewrite existsb_exists. split.
  - intros (x & Hx & E). apply val_eqb_str in E. subst x. exact Hx.
  - intros Hin. exists (VStr s). split; [exact Hin|].
    cbn [val_eqb]. apply String.eqb_refl.
Qed.

Lemma tally_keys_eq s acc :
  map fst (tally (VStr s) acc)
  = map fst acc
    ++ (if existsb (val_eqb (VStr s)) (map fst acc) then [] else [VStr s]).
Proof.
  induction acc as [| [w c] acc IH]; cbn [tally map fst app existsb].
  - reflexivity.
  - destruct (val_eqb (VStr s) w) eqn:E; cbn [map fst orb].
    + rewrite app_nil_r. reflexivity.
    + rewrite IH. reflexivity.
Qed.

Lemma tally_nodup s acc :
  NoDup (map fst acc) -> NoDup (map fst (tally (VStr s) acc)).
Proof.
  intros Nd. rewrite tally_keys_eq.
  destruct (existsb (val_eqb (VStr s)) (map fst acc)) eqn:Ex.
  - rewrite app_nil_r. exact Nd.
  - apply NoDup_app. split; [exact Nd|]. split.
    + intros x Hx [E | []]%list_elem_of_In. subst x.
      apply list_elem_of_In, existsb_val in Hx. congruence.
    + apply NoDup_singleton.
Qed.

Lemma tally_entries s acc w c :
  NoDup (map fst acc) -> In (w, c) (tally (VStr s) acc) ->
  (w <> VStr s /\ In (w, c) acc)
  \/ (w = VStr s
      /\ (In (w, c - 1) acc
          \/ (~ In (VStr s) (map fst acc) /\ c = 1))).
Proof.
  induction acc as [| [w1 c1] acc IH]; cbn [tally map fst]; intros Nd Hin.
  - destruct Hin as [[= <- <-] | []]. right. split; [reflexivity|].
    right. split; [intros [] | reflexivity].
  - inversion Nd as [| ? ? Hn Nd']; subst.
    destruct (val_eqb (VStr s) w1) eqn:E.
    + apply val_eqb_str in E. subst w1.
      destruct Hin as [[= <- <-] | Hin].
      * right. split; [reflexivity|]. left. left. f_equal. lia.
      * left. split; [| right; exact Hin].
        intros ->. apply Hn, list_elem_of_In.
        change (VStr s) with (fst (VStr s, c)). apply in_map. exact Hin.
    + assert (Hw : w1 <> VStr s).
      { intros ->. cbn [val_eqb] in E. rewrite String.eqb_refl in E.
        discriminate. }
      destruct Hin as [[= <- <-] | Hin].
      * left. split; [exact Hw | left; reflexivity].
      * destruct (IH Nd' Hin) as [(A & B) | (A & [B | (B & C)])].
        -- left. split; [exact A | right; exact B].
        -- right. split; [exact A|]. left. right. exact B.
        -- right. split; [exact A|]. right. split; [| exact C].
           intros [D | D]; [apply Hw; exact D | apply B; exact D].
Qed.

Lemma tally_counted s acc pre :
  counted acc pre -> counted (tally (VStr s) acc) (pre ++ [VStr s]).
Proof.
  intros (Nd & Hall & Hc). split; [apply tally_nodup, Nd | split].
  - intros x Hx. rewrite tally_keys_eq. apply in_or_app.
    apply in_app_or in Hx. destruct Hx as [Hx | [<- | []]].
    + left. apply Hall, Hx.
    + destruct (existsb (val_eqb (VStr s)) (map fst acc)) eqn:Ex;
        [left; apply existsb_val; exact Ex | right; left; reflexivity].
  - intros w c Hin. destruct (tally_entries _ _ _ _ Nd Hin)
      as [(A & B) | (-> & [B | (B & ->)])].
    + destruct (Hc w c B) as (Hs & ->). split; [exact Hs|].
      rewrite count_if_app, count_if_one.
      destruct (val_eqb w (VStr s)) eqn:E; [| lia].
      rewrite val_eqb_str_sym in E. apply val_eqb_str in E. contradiction.
    + destruct (Hc _ _ B) as (_ & Ec). split; [eauto|].
      rewrite count_if_app, count_if_one. cbn [val_eqb].
      rewrite String.eqb_refl. lia.
    + split; [eauto|]. rewrite count_if_app, count_if_one. cbn [val_eqb].
      rewrite String.eqb_refl, count_if_absent; [reflexivity|].
      intros Hx. apply B, Hall, Hx.
Qed.

Lemma counts_counted col : forall acc pre,
  Forall (fun v => exists s, v = VStr s) col -> counted acc pre ->
  counted (fold_left (fun acc v => if isna v then acc else tally v acc) col acc)
    (pre ++ col).
Proof.
  induction col as [| v col IH]; intros acc pre Hs Hc; cbn [fold_left].
  - rewrite app_nil_r. exact Hc.
  - inversion Hs as [| ? ? (s & ->) Hs']; subst. cbn [isna].
    change (pre ++ VStr s :: col) with (pre ++ [VStr s] ++ col).
    rewrite app_assoc. apply IH; [exact Hs'|]. apply tally_counted, Hc.
Qed.

Lemma insert_desc_perm x l : Permutation (insert_desc x l) (x :: l).
Proof.
  induction l as [| y l IH]; cbn [insert_desc]; [reflexivity|].
  destruct (snd y <? snd x); [reflexivity|].
  rewrite IH. apply perm_swap.
Qed.

Lemma sort_perm counts : forall acc,
  Permutation (fold_left (fun acc x => insert_desc x acc) counts acc)
    (counts ++ acc).
Proof.
  induction counts as [| x counts IH]; intros acc; cbn [fold_left].
  - reflexivity.
  - rewrite IH, insert_desc_perm. cbn [app].
    symmetry. apply Permutation_middle.
Qed.

Lemma insert_desc_sorted x l :
  Sorted (fun a b => snd b <= snd a) l ->
  Sorted (fun a b => snd b <= snd a) (insert_desc x l).
Proof.
  induction 1 as [| y l Hl IH Hy]; cbn [insert_desc].
  - repeat constructor.
  - destruct (Z.ltb_spec (snd y) (snd x)) as [L | L].
    + constructor; [constructor; assumption|]. constructor. lia.
    + constructor; [exact IH|].
      destruct l as [| z l]; cbn [insert_desc].
      * constructor. exact L.
      * destruct (snd z <? snd x); constructor; [exact L|].
        inversion Hy; subst. assumption.
Qed.

Lemma sort_sorted counts : forall acc,
  Sorted (fun a b => snd b <= snd a) acc ->
  Sorted (fun a b => snd b <= snd a)
    (fold_left (fun acc x => insert_desc x acc) counts acc).
Proof.
  induction counts as [| x counts IH]; intros acc Hs; cbn [fold_left].
  - exact Hs.
  - apply IH, insert_desc_sorted, Hs.
Qed.

(** [value_counts] of a column of strings: the distinct values, each once,
    with its number of occurrences, the most frequent first. *)
Lemma value_counts_spec col :
  Forall (fun v => exists s, v = VStr s) col ->
  NoDup (map fst (value_counts col))
  /\ Sorted (fun a b => snd b <= snd a) (value_counts col)
  /\ (forall x, In x col -> In x (map fst (value_counts col)))
  /\ forall w c, In (w, c) (value_counts col) -> c = count_if (val_eqb w) col.
Proof.
  intros Hs. unfold value_counts. cbv zeta.
  set (counts := fold_left _ col []).
  assert (C : counted counts col).
  { apply (counts_counted col [] [] Hs). split; [constructor | split].
    - intros x [].
    - intros w c []. }
  destruct C as (Nd & Hall & Hc).
  pose proof (sort_perm counts []) as P. rewrite app_nil_r in P.
  split; [| split; [| split]].
  - rewrite P. exact Nd.
  - apply sort_sorted. constructor.
  - intros x Hx. rewrite P. apply Hall, Hx.
  - intros w c Hin. apply (Hc w c).
    apply list_elem_of_In. rewrite <- P. apply list_elem_of_In. exact Hin.
Qed.

Section Program.
Context {G : Type} `{MersenneTwister G} `{FloatRepr}.

Lemma forM_runs {A} (I : World G -> Prop) (f : A -> M G unit) l :
  (forall x w, In x l -> I w -> exists w', f x w = (inr tt, w') /\ I w') ->
  forall w, I w -> exists w', forM_ f l w = (inr tt, w') /\ I w'.
Proof.
  induction l as [| x l IH]; intros Hf w Hw; cbn [forM_].
  - exists w. split; [reflexivity | exact Hw].
  - destruct (Hf x w (or_introl eq_refl) Hw) as (w1 & E1 & I1).
    destruct (IH (fun y v Hy => Hf y v (or_intror Hy)) w1 I1)
      as (w2 & E2 & I2).
    exists w2. split; [| exact I2]. run_ok E1. exact E2.
Qed.

Lemma bind_assoc {A B C} (m : M G A) (k : A -> M G B) (k' : B -> M G C) w :
  bind (bind m k) k' w = bind m (fun a => bind (k a) k') w.
Proof. unfold bind. destruct (m w) as [[e | a] w']; reflexivity. Qed.

Lemma read_frame_at r d (w : World G) :
  frames w !! r = Some d -> read_frame r w = (inr d, w).
Proof. intros E. unfold read_frame. rewrite E. reflexivity. Qed.

Ltac step_with tac :=
  rewrite ?bind_assoc; erewrite run_bind_ok by tac;
  cbn [gen rng frames files stdout].

Ltac column col d Hread1 :=
  step_with ltac:(apply Hread1; reflexivity);
  let P := fresh "P" in
  destruct (position col (columns d)) eqn:P;
  [ assert (mem col (columns d) = true) as ->
      by (destruct (mem col (columns d)) eqn:M; [reflexivity|];
          apply position_mem in M; congruence);
    cbn [negb];
    step_with ltac:(reflexivity);
    step_with ltac:(apply Hread1; reflexivity);
    rewrite P;
    step_with ltac:(reflexivity);
    step_with ltac:(apply Hread1; reflexivity);
    step_with ltac:(reflexivity)
  | apply position_mem in P; rewrite P; cbn [negb];
    rewrite ?bind_assoc; erewrite run_bind_err by reflexivity; reflexivity ].

(** The result of [print_statistics] on any frame. *)
Lemma print_statistics_result r np ap nullp (w : World G) d :
  frames w !! r = Some d ->
  fst (print_statistics r np ap nullp w)
  = match first_missing (columns d) with
    | Some c => inl (KeyError c)
    | None => inr tt
    end.
Proof.
  intros Hd. unfold print_statistics.
  assert (Hread : forall v : World G,
             frames v = frames w -> read_frame r v = (inr d, v)).
  { intros v Ev. apply read_frame_at. rewrite Ev. exact Hd. }
  do 3 step_with ltac:(reflexivity).
  step_with ltac:(apply Hread; reflexivity).
  do 2 step_with ltac:(reflexivity).
  step_with ltac:(apply Hread; reflexivity).
  unfold first_missing. cbn [find].
  destruct (getitem d "label") as [e | labels] eqn:Gl.
  { unfold getitem in Gl.
    destruct (position "label" (columns d)) eqn:Pl; [discriminate|].
    injection Gl as <-. apply position_mem in Pl. rewrite Pl. cbn [negb].
    erewrite run_bind_err by reflexivity. reflexivity. }
  assert (Ml : mem "label" (columns d) = true).
  { unfold getitem in Gl.
    destruct (mem "label" (columns d)) eqn:M; [reflexivity|].
    apply position_mem in M. rewrite M in Gl. discriminate. }
  rewrite Ml. cbn [negb].
  step_with ltac:(reflexivity).
  pose proof (getitem_length _ _ _ Gl) as Ll.
  match goal with
  | |- context [bind (forM_ ?f (value_counts labels)) _ ?v] =>
      destruct (forM_runs (fun u => frames u = frames w) f
                  (value_counts labels)) with (w := v) as (w1 & E1 & I1)
  end.
  { intros lc v Hin Iv. cbv beta.
    step_with ltac:(apply Hread; exact Iv).
    pose proof (value_counts_bound _ _ Hin) as B.
    destruct (int_truediv_ratio (snd lc) (len d) ltac:(lia) ltac:(lia))
      as (q & Eq).
    rewrite Eq. step_with ltac:(reflexivity).
    eexists. split; [reflexivity|]. cbn [frames]. exact Iv. }
  { reflexivity. }
  step_with ltac:(exact E1).
  do 5 step_with ltac:(reflexivity).
  cbn [forM_]. rewrite !bind_assoc.
  assert (Hread1 : forall v : World G,
             frames v = frames w1 -> read_frame r v = (inr d, v)).
  { intros v Ev. apply Hread. congruence. }
  unfold getitem.
  column "temp" d Hread1. column "pressure" d Hread1.
  column "vibration" d Hread1.
  step_with ltac:(reflexivity).
  step_with ltac:(reflexivity).
  step_with ltac:(apply Hread1; reflexivity).
  step_with ltac:(reflexivity).
  step_with ltac:(reflexivity).
  step_with ltac:(apply Hread1; reflexivity).
  step_with ltac:(reflexivity).
  reflexivity.
Qed.


(** X13. For a generated dataset, the label distribution that
    [print_statistics] computes lists only the labels normal and abnormal,
    each at most once and the more frequent first, each with the number of
    rows that carry it, which is between 1 and the number of rows; the
    counts add up to the number of rows. *)
Theorem label_counts_add_up n np ap nullp (w w' : World G) r df labels :
  gen w = init ->
  generate_dataset n np ap nullp w = (inr r, w') ->
  frames w' !! r = Some df ->
  getitem df "label" = inr labels ->
  total (value_counts labels) = len df
  /\ NoDup (map fst (value_counts labels))
  /\ Sorted (fun a b => snd b <= snd a) (value_counts labels)
  /\ forall lc, In lc (value_counts labels) ->
       (fst lc = VStr "normal" \/ fst lc = VStr "abnormal")
       /\ snd lc = count_if (val_eqb (fst lc)) labels
       /\ 1 <= snd lc <= len df.
Proof.
  intros Hg E Hdf Gl.
  assert (Hl : forall v, In v labels ->
                 v = VStr "normal" \/ v = VStr "abnormal").
  { intros v Hv. destruct (getitem_cells _ _ _ _ Gl Hv) as (i & Hi & Hc).
    destruct (dataset_sensor_cell _ _ _ _ _ _ _ _ Hg E Hdf i Hi)
      as (lbl & Hlbl & _).
    rewrite Hlbl in Hc. subst v. destruct lbl; auto. }
  assert (Hs : Forall (fun v => exists s, v = VStr s) labels).
  { rewrite Forall_forall. intros v Hv. apply list_elem_of_In in Hv.
    destruct (Hl v Hv) as [-> | ->]; eauto. }
  destruct (value_counts_spec labels Hs) as (Nd & So & _ & Hc).
  split; [| split; [exact Nd | split; [exact So|]]].
  - rewrite (proj1 (value_counts_total labels)).
    rewrite count_if_all; [apply (getitem_length _ _ _ Gl)|].
    rewrite Forall_forall. intros v Hv. apply list_elem_of_In in Hv.
    destruct (Hl v Hv) as [-> | ->]; reflexivity.
  - intros [lv lc] Hin. cbn [fst snd]. split; [| split].
    + apply Hl. apply (value_counts_keys _ _ Hin).
    + apply (Hc lv lc Hin).
    + rewrite <- (getitem_length _ _ _ Gl).
      apply (value_counts_bound _ _ Hin).
Qed.

(** X14. No cell of a generated dataset is NaN: in every column the count
    [isna().sum()] is 0, so the number of missing values that
    [print_statistics] reports is the number of empty strings. *)
Theorem generated_dataset_has_no_nan n np ap nullp (w w' : World G) r df
    (col : string) (cells : list pyval) :
  gen w = init ->
  generate_dataset n np ap nullp w = (inr r, w') ->
  frames w' !! r = Some df ->
  getitem df col = inr cells ->
  count_if isna cells = 0.
Proof.
  intros Hg E Hdf Gc. apply count_if_none. rewrite Forall_forall.
  intros v Hv. apply list_elem_of_In in Hv.
  destruct (getitem_cells _ _ _ _ Gc Hv) as (i & Hi & ->).
  destruct (dataset_row_cells _ _ _ _ _ _ _ _ _ Hg E Hdf Hi)
    as (dt & lbl & c1 & c2 & c3 & _ & C1 & C2 & C3 & Hcols & _ & Hc).
  assert (Hin : In col KEYS).
  { unfold getitem in Gc. rewrite Hcols in Gc.
    destruct (position col KEYS) eqn:P; [| discriminate].
    apply mem_In. destruct (mem col KEYS) eqn:M; [reflexivity|].
    apply position_mem in M. congruence. }
  rewrite (Hc col Hin).
  destruct Hin as [<- | [<- | [<- | [<- | [<- | []]]]]]; cbn;
    try reflexivity.
  - destruct (sensor_cell_shape "temp" _ _ _ ltac:(in_list) C1)
      as [-> | (q & ->)]; reflexivity.
  - destruct (sensor_cell_shape "pressure" _ _ _ ltac:(in_list) C2)
      as [-> | (q & ->)]; reflexivity.
  - destruct (sensor_cell_shape "vibration" _ _ _ ltac:(in_list) C3)
      as [-> | (q & ->)]; reflexivity.
Qed.

(** X15. [print_statistics] draws no random number and writes no file,
    whether it returns or raises. *)
Theorem print_statistics_only_prints df np ap nullp (w : World G) :
  rng (snd (print_statistics df np ap nullp w)) = rng w
  /\ files (snd (print_statistics df np ap nullp w)) = files w.
Proof.
  split.
  - apply print_statistics_keeps. intros. apply print_keeps_rng.
  - apply print_statistics_keeps. intros. apply print_keeps_files.
Qed.

End Program.

(** *** At concrete inputs *)


(** Two normal rows and one abnormal row. *)
Lemma label_counts_add_up_witness :
  total (value_counts [VStr "normal"; VStr "normal"; VStr "abnormal"])
  = len sample_df
  /\ NoDup (map fst
              (value_counts [VStr "normal"; VStr "normal"; VStr "abnormal"]))
  /\ Sorted (fun a b => snd b <= snd a)
       (value_counts [VStr "normal"; VStr "normal"; VStr "abnormal"])
  /\ forall lc,
       In lc (value_counts [VStr "normal"; VStr "normal"; VStr "abnormal"]) ->
       (fst lc = VStr "normal" \/ fst lc = VStr "abnormal")
       /\ snd lc
          = count_if (val_eqb (fst lc))
              [VStr "normal"; VStr "normal"; VStr "abnormal"]
       /\ 1 <= snd lc <= len sample_df.
Proof.
  exact (label_counts_add_up 3 (Int 1) (Int 0) (Int 0) (fresh 7) (snd sample)
           0%nat sample_df [VStr "normal"; VStr "normal"; VStr "abnormal"]
           eq_refl sample_run sample_frame eq_refl).
Defined.

(** A column of missing values holds empty strings, not NaN. *)
Lemma generated_dataset_has_no_nan_witness :
  count_if isna [VStr ""; VStr ""; VStr ""] = 0.
Proof.
  exact (generated_dataset_has_no_nan 3 (Int 1) (Int 0) (Int 1) (fresh 7)
           (snd sample_null) 0%nat sample_null_df "temp"
           [VStr ""; VStr ""; VStr ""]
           eq_refl sample_null_run sample_null_frame eq_refl).
Defined.

End StatisticsProps.

(** *** The file written by [to_csv] *)
Module CsvProps.
Import Float FloatFacts UniformFacts.
Import Datetime Timestamp DatetimeFacts Pandas Spec Generator.
Import ProgramFacts FrameFacts DatasetFacts CellFacts Claims.
Import SensorProps RowProps DatasetProps StatisticsProps Examples.
Local Open Scope Z_scope.

Lemma plain_app a b : plain (a ++ b) = plain a && plain b.
Proof.
  unfold plain. induction a as [| c a IH].
  - reflexivity.
  - change (String c a ++ b)%string with (String c (a ++ b)%string).
    cbn [list_ascii_of_string existsb].
    rewrite !negb_orb in *. rewrite IH. rewrite andb_assoc. reflexivity.
Qed.

Lemma pad2_plain : Zrange_forall (pad_plain 2) 0 99 = true.
Proof. vm_compute. reflexivity. Qed.

Lemma pad4_plain : Zrange_forall (pad_plain 4) 0 9999 = true.
Proof. vm_compute. reflexivity. Qed.

(** A timestamp holds no comma, quote or line break. *)
Lemma strftime_plain dt :
  0 <= year dt <= 9999 -> 0 <= month dt <= 99 -> 0 <= day dt <= 99 ->
  0 <= hour dt <= 99 -> 0 <= minute dt <= 99 -> 0 <= second dt <= 99 ->
  plain (strftime dt) = true.
Proof.
  intros Hy Hmo Hd Hh Hmi Hs. unfold strftime.
  rewrite !plain_app.
  rewrite (Zrange_forall_spec _ _ _ pad4_plain _ Hy : plain _ = true).
  rewrite (Zrange_forall_spec _ _ _ pad2_plain _ Hmo : plain _ = true).
  rewrite (Zrange_forall_spec _ _ _ pad2_plain _ Hd : plain _ = true).
  rewrite (Zrange_forall_spec _ _ _ pad2_plain _ Hh : plain _ = true).
  rewrite (Zrange_forall_spec _ _ _ pad2_plain _ Hmi : plain _ = true).
  rewrite (Zrange_forall_spec _ _ _ pad2_plain _ Hs : plain _ = true).
  reflexivity.
Qed.

Lemma quote_plain s : plain s = true -> Csv.quote_field s = s.
Proof.
  unfold plain, Csv.quote_field. intros E. apply negb_true_iff in E.
  rewrite E. reflexivity.
Qed.

(** A record of two fields or more is the fields joined by commas. *)
Lemma record_line_many a b l :
  Csv.record_line (a :: b :: l)
  = Csv.join "," (map Csv.quote_field (a :: b :: l)).
Proof. destruct a; reflexivity. Qed.

Section Program.
Context {G : Type} `{MersenneTwister G} `{FloatRepr}.

(** X16. In the CSV text of a generated dataset, the line of row [i] (the
    line after the header and the [i] rows before it) is the timestamp and
    the label, both written as they are, without quotes, then the three
    sensor fields, all separated by commas; a missing value is written as
    an empty field. *)
Theorem csv_data_lines n np ap nullp (w w' : World G) r df i :
  gen w = init ->
  generate_dataset n np ap nullp w = (inr r, w') ->
  frames w' !! r = Some df -> 0 <= i < len df ->
  exists ts lbl c1 c2 c3,
    cell df i "timestamp" = Some (VStr ts)
    /\ cell df i "label" = Some (VStr lbl)
    /\ cell df i "temp" = Some c1
    /\ cell df i "pressure" = Some c2
    /\ cell df i "vibration" = Some c3
    /\ Csv.lines df !! S (Z.to_nat i)
       = Some (ts ++ "," ++ lbl ++ "," ++ csv_field c1 ++ ","
               ++ csv_field c2 ++ "," ++ csv_field c3)%string
    /\ csv_field (VStr "") = EmptyString.
Proof.
  intros Hg E Hdf Hi.
  destruct (dataset_row_cells _ _ _ _ _ _ _ _ _ Hg E Hdf Hi)
    as (dt & lbl & c1 & c2 & c3 & Hdt & _ & _ & _ & Hcols & Hr & Hc).
  exists (strftime dt), (label_of lbl), c1, c2, c3.
  rewrite !Hc by in_list.
  repeat (split; [reflexivity|]). split; [| reflexivity].
  assert (Hb : MIN_MINUTES <= i < MAX_MINUTES).
  { pose proof (generated_bound _ _ _ _ _ _ _ Hg E) as Hb.
    destruct (dataset_rows _ _ _ _ _ _ _ _ Hg E Hdf) as (Hlen & _).
    unfold MIN_MINUTES, MAX_ROWS, MAX_MINUTES in *. lia. }
  destruct (plus_minutes_inside i Hb) as (dt' & Ed & _ & _ & R).
  assert (dt' = dt) by congruence. subst dt'.
  unfold Csv.lines, Csv.records.
  change ((map Csv.record_line
             (columns df :: map (map Csv.cell_text) (rows df)))
            !! S (Z.to_nat i))
    with (map Csv.record_line (map (map Csv.cell_text) (rows df))
            !! Z.to_nat i).
  rewrite !list_lookup_fmap, Hr. cbn [fmap option_fmap option_map].
  f_equal. cbn [map Csv.cell_text].
  rewrite record_line_many. cbn [map Csv.join]. unfold csv_field.
  rewrite (quote_plain (strftime dt)) by (apply strftime_plain; lia).
  destruct lbl; reflexivity.
Qed.

End Program.

(** *** At a concrete input *)

Lemma csv_data_lines_witness :
  exists ts lbl c1 c2 c3,
    cell sample_df 2 "timestamp" = Some (VStr ts)
    /\ cell sample_df 2 "label" = Some (VStr lbl)
    /\ cell sample_df 2 "temp" = Some c1
    /\ cell sample_df 2 "pressure" = Some c2
    /\ cell sample_df 2 "vibration" = Some c3
    /\ Csv.lines sample_df !! S (Z.to_nat 2)
       = Some (ts ++ "," ++ lbl ++ "," ++ csv_field c1 ++ ","
               ++ csv_field c2 ++ "," ++ csv_field c3)%string
    /\ csv_field (VStr "") = EmptyString.
Proof.
  apply (csv_data_lines 3 (Int 1) (Int 0) (Int 0) (fresh 7) (snd sample)
           0%nat sample_df 2 eq_refl sample_run sample_frame).
  vm_compute. split; [discriminate | reflexivity].
Defined.

End CsvProps.

(** *** [main] *)
Module MainProps.
Import Float FloatFacts UniformFacts.
Import Datetime Timestamp DatetimeFacts Pandas Spec Generator.
Import ProgramFacts FrameFacts DatasetFacts CellFacts Claims.
Import SensorProps RowProps DatasetProps StatisticsProps Examples.
Local Open Scope Z_scope.

Section Program.
Context {G : Type} `{MersenneTwister G} `{FloatRepr}.

Ltac step_with tac :=
  erewrite run_bind_ok by tac; cbn [gen rng frames files stdout].

Ltac keeps_step :=
  lazymatch goal with
  | |- keeps _ (bind _ _) => apply keeps_bind; [| intros ? ]
  | |- keeps _ (ret _) => apply keeps_ret
  | |- keeps _ (lift _) => apply keeps_lift
  | |- keeps _ (read_frame _) => apply read_frame_keeps
  end.

Lemma generate_dataset_keeps {X} (proj : World G -> X) n np ap nullp :
  rng_free proj -> (forall df, keeps proj (alloc_frame df)) ->
  keeps proj (generate_dataset n np ap nullp).
Proof.
  intros Hr Ha. unfold generate_dataset.
  apply keeps_bind; [apply (rows_loop_keeps proj n), Hr |].
  intros. apply Ha.
Qed.

(** Past [MAX_ROWS] the generation fails and only the random generator
    has changed. *)
Lemma generate_dataset_fails n np ap nullp (w : World G) :
  gen w = init -> MAX_ROWS < n ->
  exists w',
    generate_dataset n np ap nullp w
    = (inl (OverflowError "date value out of range"), w')
    /\ frame w w'.
Proof.
  intros Hg Hn.
  change (generate_dataset n np ap nullp)
    with (data <- rows_loop n np ap nullp ;;
          alloc_frame (from_records data)).
  destruct (rows_loop_overflow (Z.to_nat n) np ap nullp w Hg) as (w' & E).
  { unfold MAX_ROWS, MAX_MINUTES in *. lia. }
  rewrite <- rows_loop_Z in E.
  exists w'. split; [run_err E; reflexivity|].
  pose proof (rows_loop_keeps gen n np ap nullp rng_free_gen w) as K1.
  pose proof (rows_loop_keeps frames n np ap nullp rng_free_frames w) as K2.
  pose proof (rows_loop_keeps files n np ap nullp rng_free_files w) as K3.
  pose proof (rows_loop_keeps stdout n np ap nullp rng_free_stdout w) as K4.
  rewrite E in K1, K2, K3, K4. repeat split; assumption.
Qed.

(** X17. For every [num_rows] from 1 to [MAX_ROWS] and any probabilities,
    [main] returns normally, and the output file then holds the CSV text of
    a frame with [num_rows] rows and the columns timestamp, label, temp,
    pressure, vibration. *)
Theorem main_completes (args : Args) (w : World G) :
  1 <= num_rows args <= MAX_ROWS ->
  exists df,
    fst (main args w) = inr tt
    /\ files (snd (main args w)) !! output args = Some (Csv.text df)
    /\ len df = num_rows args
    /\ columns df = ["timestamp"; "label"; "temp"; "pressure"; "vibration"].
Proof.
  intros Hn. unfold main.
  do 2 step_with ltac:(reflexivity).
  set (w2 := {| gen := init; rng := rng w; frames := frames w;
                files := files w; stdout := _ |}).
  destruct (generate_dataset_run (num_rows args) (normal_prob args)
              (abnormal_prob args) (null_prob args) w2 eq_refl ltac:(lia))
    as (data & w3 & _ & _ & Hk & Hl & E).
  step_with ltac:(exact E).
  assert (Hdf : (frames w2 ++ [from_records data]) !! length (frames w2)
                = Some (from_records data)).
  { apply list_lookup_middle. reflexivity. }
  step_with ltac:(apply read_frame_at; exact Hdf).
  do 2 step_with ltac:(reflexivity).
  exists (from_records data). split; [| split; [| split]].
  - erewrite print_statistics_result by (cbn [frames]; exact Hdf).
    rewrite from_records_rows by assumption. cbn [columns].
    destruct data; [cbn [length] in Hl; lia | reflexivity].
  - rewrite (print_statistics_keeps files _ _ _ _ print_keeps_files).
    cbn [files]. apply lookup_insert_eq.
  - rewrite from_records_rows by assumption. unfold len. cbn [rows].
    rewrite length_map, Hl. lia.
  - rewrite from_records_rows by assumption. cbn [columns].
    destruct data; [cbn [length] in Hl; lia | reflexivity].
Qed.

(** X18. For every [num_rows] above [MAX_ROWS], [main] raises
    [OverflowError] while generating: no file is written, no frame is
    stored, and only the first line, announcing the generation, has been
    printed. *)
Theorem main_overflow (args : Args) (w : World G) :
  MAX_ROWS < num_rows args ->
  fst (main args w) = inl (OverflowError "date value out of range")
  /\ files (snd (main args w)) = files w
  /\ frames (snd (main args w)) = frames w
  /\ length (stdout (snd (main args w))) = S (length (stdout w)).
Proof.
  intros Hn. unfold main.
  do 2 step_with ltac:(reflexivity).
  set (w2 := {| gen := init; rng := rng w; frames := frames w;
                files := files w; stdout := _ |}).
  destruct (generate_dataset_fails (num_rows args) (normal_prob args)
              (abnormal_prob args) (null_prob args) w2 eq_refl Hn)
    as (w3 & E & _ & Ff & Fi & Fo).
  erewrite run_bind_err by exact E. cbn [fst snd].
  split; [reflexivity|]. split; [rewrite Fi; reflexivity|].
  split; [rewrite Ff; reflexivity|].
  rewrite Fo. subst w2. cbn [stdout]. rewrite length_app. cbn [length]. lia.
Qed.

(** X19. A negative [num_rows] is treated as 0: [main] writes a file that
    holds a single empty line and then raises [KeyError] on the column
    label while printing the statistics. *)
Theorem main_negative_rows (args : Args) (w : World G) :
  num_rows args < 0 ->
  fst (main args w) = inl (KeyError "label")
  /\ files (snd (main args w)) !! output args = Some Csv.newline.
Proof.
  intros Hn. unfold main.
  do 2 step_with ltac:(reflexivity).
  unfold generate_dataset. rewrite range_nonpos by lia. cbn [foldM].
  assert (Hread : forall (v : World G) d,
             frames v = frames w ++ [d] ->
             read_frame (length (frames w)) v = (inr d, v)).
  { intros v d Ev. unfold read_frame. rewrite Ev.
    rewrite list_lookup_middle by reflexivity. reflexivity. }
  step_with ltac:(reflexivity).
  step_with ltac:(apply Hread; reflexivity).
  do 2 step_with ltac:(reflexivity).
  split.
  - erewrite print_statistics_result
      by (cbn [frames]; apply list_lookup_middle; reflexivity).
    reflexivity.
  - rewrite (print_statistics_keeps files _ _ _ _ print_keeps_files).
    cbn [files]. apply lookup_insert_eq.
Qed.

(** X20. [main] touches no file but the output file: every other path
    holds after the run what it held before, whether [main] returns or
    raises. *)
Theorem main_touches_only_output (args : Args) (w : World G) (p : string) :
  p <> output args ->
  files (snd (main args w)) !! p = files w !! p.
Proof.
  intros Hp.
  assert (K : keeps (fun v : World G => files v !! p) (main args));
    [| exact (K w)].
  clear w. unfold main.
  repeat lazymatch goal with
         | |- keeps _ (set_gen _) => intros v; reflexivity
         | |- keeps _ (print _) => intros v; reflexivity
         | |- keeps _ (generate_dataset _ _ _ _) =>
             apply generate_dataset_keeps;
             [intros g r fr fi o g'; reflexivity | intros df v; reflexivity]
         | |- keeps _ (write_file _ _) =>
             intros v; cbn [write_file snd files];
             apply lookup_insert_ne; congruence
         | |- keeps _ (print_statistics _ _ _ _) =>
             apply print_statistics_keeps; intros l v; reflexivity
         | _ => keeps_step
         end.
Qed.

End Program.

(** *** At concrete inputs *)

Lemma main_completes_witness :
  exists df,
    fst (main (args_of 2) w0) = inr tt
    /\ files (snd (main (args_of 2) w0)) !! "testing.csv" = Some (Csv.text df)
    /\ len df = 2
    /\ columns df = ["timestamp"; "label"; "temp"; "pressure"; "vibration"].
Proof.
  apply (main_completes (args_of 2) w0). cbn [num_rows args_of].
  unfold MAX_ROWS. lia.
Defined.

Lemma main_overflow_witness :
  fst (main (args_of 5000000000) w0)
  = inl (OverflowError "date value out of range")
  /\ files (snd (main (args_of 5000000000) w0)) = files w0
  /\ frames (snd (main (args_of 5000000000) w0)) = frames w0
  /\ length (stdout (snd (main (args_of 5000000000) w0)))
     = S (length (stdout w0)).
Proof.
  apply (main_overflow (args_of 5000000000) w0). cbn [num_rows args_of].
  unfold MAX_ROWS. lia.
Defined.

Lemma main_negative_rows_witness :
  fst (main (args_of (-3)) w0) = inl (KeyError "label")
  /\ files (snd (main (args_of (-3)) w0)) !! "testing.csv" = Some Csv.newline.
Proof.
  apply (main_negative_rows (args_of (-3)) w0). cbn [num_rows args_of]. lia.
Defined.

Lemma main_touches_only_output_witness :
  files (snd (main (args_of 2) w0)) !! "other.csv" = files w0 !! "other.csv".
Proof.
  apply (main_touches_only_output (args_of 2) w0 "other.csv").
  cbn [output args_of]. intros E. discriminate E.
Defined.

End MainProps.
